(** * Pantry Pilot: the replenishment decision engine and its orchestrator

    A shallow embedding of
      - the [Product] entity, [src/domain/entities/Product.js]
        (module [Product]);
      - the [ReplenishmentPolicy] service, whose class is found after the error
        classes in [src/domain/errors/DomainError.js]
        (modules [DomainError], [ReplenishmentPolicy]);
      - the use case, [src/domain/usecases/CheckAndNotifyReplenishment.js]
        (module [CheckAndNotifyReplenishment]);
      - the read path of the sheet adapter,
        [src/adapters/mappers/SheetRowMapper.js] and [listProducts] of
        [src/adapters/inventory/googleSheets/GoogleSheetsInventoryRepository.js]
        (modules [SheetRowMapper], [GoogleSheetsInventoryRepository]).

    Numbers.  A JavaScript number is taken as an exact rational ([Q]): the
    arithmetic of the policy is modelled without rounding, and [NaN] and the
    infinities do not occur.  [null] is [None]; where the code tells
    [undefined] from [null] (destructuring defaults, [??], [||]) the three-way
    type [JsNum] is used.

    The doubles of the code round.  Properties that would not survive the
    rounding (rounding up to whole packs never falling short, for one) are
    stated for whole numbers up to 2^53, on which the doubles compute
    exactly as the rationals do.  The others state which formula the code
    evaluates, relate fields of one result, or rest on operations that are
    monotone with or without rounding.

    Dates.  A [Date] is the integer its constructor is given, a count of
    milliseconds since the epoch ([Z]).  It is a valid date when that integer
    is within 8.64e15 of the epoch on either side and an Invalid Date
    otherwise ([JsDate.isValid]).  The dates a product holds are valid:
    [_parseDate] reads an invalid date as [null], the clock gives a valid
    [now], and a run stops before it stores an invalid due date.  The due
    date the engine computes can be invalid, and then [toISOString()] throws
    a [RangeError] inside the loop of [execute]. *)

(** Also embedded, for the properties of the second part:
      - the write path of the sheet adapter, [productToRow], the range and
        value builders and [saveProducts]
        (modules [SheetRowMapperWrite], [GoogleSheetsInventoryRepositoryWrite]);
      - [SmtpEmailNotifier.send], found after the mapper in
        [src/adapters/mappers/SheetRowMapper.js] (module [SmtpEmailNotifier]);
      - the plain body of the report, [_buildTextEmail] (module [TextEmail]);
      - the HTTP layer: [createApiKeyAuth], [EnvConfig.mergeWithRequestConfig]
        with [_getSecret] and [_validateMergedConfig], and the route handler
        (modules [AuthApiKey], [EnvConfig], [Routes]). *)

From Stdlib Require Import QArith Qround Qminmax ZArith List String Ascii Bool Lia.
From Stdlib Require Import DecimalString.
Import ListNotations.

Local Open Scope Q_scope.

(** ** JavaScript numbers *)

Module Js.

(** [x < y] as a boolean. *)
Definition Qlt_bool (x y : Q) : bool := negb (Qle_bool y x).

(** Truthiness of a number: every number except zero. *)
Definition truthy (x : Q) : bool := negb (Qeq_bool x 0).

(** [a || b] where [a] is a number or null and [b] a number. *)
Definition orNum (a : option Q) (b : Q) : Q :=
  match a with
  | Some q => if truthy q then q else b
  | None => b
  end.

(** [Math.ceil], [Math.max]. *)
Definition ceil (x : Q) : Q := inject_Z (Qceiling x).
Definition max (x y : Q) : Q := Qmax x y.

(** Truncation toward zero, as [new Date(t)] applies to its time value. *)
Definition toIntegerOrInfinity (x : Q) : Z :=
  if Qle_bool 0 x then Qfloor x else Qceiling x.

(** A value that is [undefined], [null] or a number. *)
Inductive JsNum : Type :=
| JUndefined
| JNull
| JNumber (q : Q).

(** [v ?? d]: the fallback applies to [null] and [undefined] only. *)
Definition nullish (v : JsNum) (d : Q) : Q :=
  match v with
  | JNumber q => q
  | _ => d
  end.

(** [v || d]: the fallback applies to every falsy value, zero included. *)
Definition orElse (v : JsNum) (d : Q) : Q :=
  match v with
  | JNumber q => if truthy q then q else d
  | _ => d
  end.

(** A destructuring default [{ x = d }]: it applies to [undefined] only; a
    [null] that gets through is coerced to [0] by the arithmetic that uses it. *)
Definition withDefault (v : JsNum) (d : Q) : Q :=
  match v with
  | JUndefined => d
  | JNull => 0
  | JNumber q => q
  end.

(** A value as a spreadsheet cell or a free-form field holds it: absent
    ([undefined], or [null]), a string, a number or a boolean. *)
Inductive Value : Type :=
| VUndefined
| VString (s : string)
| VNumber (q : Q)
| VBoolean (b : bool).

(** Truthiness of a value: [!v] is its negation. *)
Definition truthyValue (v : Value) : bool :=
  match v with
  | VUndefined => false
  | VString s => negb (String.eqb s "")
  | VNumber q => truthy q
  | VBoolean b => b
  end.

(** [v || null]. *)
Definition orNull (v : Value) : option Value :=
  if truthyValue v then Some v else None.

(** What the host does and this development leaves open: the reading and
    the printing of numbers, the reading of dates, and the two string
    methods whose result depends on Unicode.  [None] is [NaN], and an
    invalid date. *)
Record Runtime : Type := mkRuntime {
  numberOfString : string -> option Q;
  stringOfNumber : Q -> string;
  dateOfString : string -> option Z;
  trim : string -> string;
  toLowerCase : string -> string
}.

(** [String(v)]. *)
Definition toString (R : Runtime) (v : Value) : string :=
  match v with
  | VUndefined => "undefined"
  | VString s => s
  | VNumber q => stringOfNumber R q
  | VBoolean true => "true"
  | VBoolean false => "false"
  end.

(** [Number(v)]; [None] is [NaN]. *)
Definition toNumber (R : Runtime) (v : Value) : option Q :=
  match v with
  | VUndefined => None
  | VString s => numberOfString R s
  | VNumber q => Some q
  | VBoolean true => Some 1
  | VBoolean false => Some 0
  end.

(** The decimal numeral of a length or an index in a template literal. *)
Definition stringOfNat (n : nat) : string :=
  NilZero.string_of_uint (Nat.to_uint n).

End Js.

(** ** Dates: [getTime], [toISOString] and [slice(0, 10)] *)

Module JsDate.

Local Open Scope Z_scope.

Definition msPerDay : Z := 86400000.

(** [new Date(t)] for a numeric [t]: [t] truncated.  Beyond [maxTime] the
    result is an Invalid Date; it is carried by the same integer, and
    [isValid] tells the two apart. *)
Definition ofNumber (t : Q) : Z := Js.toIntegerOrInfinity t.

(** The largest time value of a [Date], 100,000,000 days from the epoch. *)
Definition maxTime : Z := 8640000000000000.

(** [!isNaN(date.getTime())]: the date is not an Invalid Date.  The
    constructor tests the number it is given before truncating it; a double
    of that size is whole, so the test on the integer is the same test. *)
Definition isValid (ms : Z) : bool := (- maxTime <=? ms) && (ms <=? maxTime).

(** The UTC day a time value falls in, and the milliseconds into that day. *)
Definition day (ms : Z) : Z := ms / msPerDay.
Definition msOfDay (ms : Z) : Z := ms mod msPerDay.

(** Exactly [w] decimal digits of [n], most significant first. *)
Fixpoint digits (w : nat) (n : Z) : string :=
  match w with
  | O => EmptyString
  | S w' =>
      digits w' (n / 10) ++
      String (ascii_of_nat (48 + Z.to_nat (n mod 10))) EmptyString
  end.

(** The civil date (year, month, day of month) of a day number. *)
Definition civil (d : Z) : Z * Z * Z :=
  let z := d + 719468 in
  let era := z / 146097 in
  let doe := z - era * 146097 in
  let yoe := (doe - doe / 1460 + doe / 36524 - doe / 146096) / 365 in
  let doy := doe - (365 * yoe + yoe / 4 - yoe / 100) in
  let mp := (5 * doy + 2) / 153 in
  let dom := doy - (153 * mp + 2) / 5 + 1 in
  let m := if mp <? 10 then mp + 3 else mp - 9 in
  let y := yoe + era * 400 + (if m <=? 2 then 1 else 0) in
  (y, m, dom).

(** The year of an ISO string: four digits, or a sign and six digits
    outside 0000..9999. *)
Definition yearString (y : Z) : string :=
  if (0 <=? y) && (y <=? 9999) then digits 4 y
  else if y <? 0 then ("-" ++ digits 6 (Z.abs y))%string
  else ("+" ++ digits 6 y)%string.

Definition dateString (d : Z) : string :=
  let '(y, m, dom) := civil d in
  (yearString y ++ "-" ++ digits 2 m ++ "-" ++ digits 2 dom)%string.

Definition timeString (t : Z) : string :=
  (digits 2 (t / 3600000) ++ ":" ++ digits 2 (t / 60000 mod 60) ++ ":" ++
   digits 2 (t / 1000 mod 60) ++ "." ++ digits 3 (t mod 1000) ++ "Z")%string.

(** [date.toISOString()] of a valid date; on an Invalid Date the call throws
    a [RangeError], which its callers model where it can happen. *)
Definition toISOString (ms : Z) : string :=
  (dateString (day ms) ++ "T" ++ timeString (msOfDay ms))%string.

(** [s.slice(0, 10)]. *)
Definition slice_0_10 (s : string) : string := substring 0 10 s.

(** The calendar date of a time value, [d.toISOString().slice(0, 10)]. *)
Definition isoDate (ms : Z) : string := slice_0_10 (toISOString ms).

End JsDate.

(** ** [Product] (src/domain/entities/Product.js) *)

Record AutoSubscription : Type := mkAutoSubscription {
  active : bool;
  details : option Js.Value
}.

Record Buy : Type := mkBuy {
  place : option Js.Value;
  url : option Js.Value
}.

Module Product.

Record t : Type := mk {
  id : string;
  name : string;
  brand : option string;
  unit : string;
  qtyRemaining : Q;
  avgDailyConsumption : option Q;
  avgMonthlyConsumption : option Q;
  lastReplenishedAt : option Z;
  autoSubscription : option AutoSubscription;
  buy : option Buy;
  leadTimeDays : Q;
  safetyStockDays : Q;
  minOrderQty : option Q;
  packSize : option Q;
  needsReplenishment : bool;
  replenishByDate : option Z;
  recommendedOrderQty : option Q;
  reason : option string;
  lastCheckAt : option Z
}.

(** The units the constructor accepts: [['count', 'ml', 'g'].includes(unit)]. *)
Definition units : list string := ["count"; "ml"; "g"]%string.

Definition includes (l : list string) (s : string) : bool :=
  existsb (String.eqb s) l.

(** The constructor: the message of the error it throws, or the product.  Its
    argument is typed, so of [typeof x !== 'string'] and
    [typeof x !== 'number'] nothing remains; an empty string is falsy. *)
Definition new (args : t) : string + t :=
  if String.eqb (id args) "" then
    inl "Product id is required and must be a string"%string
  else if String.eqb (name args) "" then
    inl "Product name is required and must be a string"%string
  else if String.eqb (unit args) "" || negb (includes units (unit args)) then
    inl "Product unit is required and must be one of: count, ml, g"%string
  else if Js.Qlt_bool (qtyRemaining args) 0 then
    inl "Product qtyRemaining must be a non-negative number"%string
  else inr args.

Definition getAvgDailyConsumption (this : t) : option Q :=
  match avgDailyConsumption this with
  | Some d =>
      if Js.Qlt_bool 0 d then Some d
      else
        match avgMonthlyConsumption this with
        | Some m => if Js.Qlt_bool 0 m then Some (m / (3044 # 100)) else None
        | None => None
        end
  | None =>
      match avgMonthlyConsumption this with
      | Some m => if Js.Qlt_bool 0 m then Some (m / (3044 # 100)) else None
      | None => None
      end
  end.

(** [this.autoSubscription?.active === true]. *)
Definition hasAutoSubscription (this : t) : bool :=
  match autoSubscription this with
  | Some a => active a
  | None => false
  end.

(** Milliseconds to days: [x / (1000 * 60 * 60 * 24)]. *)
Definition daysBetween (later earlier : Z) : Q :=
  inject_Z (later - earlier) / inject_Z (1000 * 60 * 60 * 24).

Definition calculateCurrentStock (this : t) (now : Z) : Q :=
  match lastReplenishedAt this with
  | None => qtyRemaining this
  | Some last =>
      if negb (Js.truthy (qtyRemaining this)) then qtyRemaining this
      else
        match getAvgDailyConsumption this with
        | None => qtyRemaining this
        | Some avgDaily =>
            if negb (Js.truthy avgDaily) || Qle_bool avgDaily 0
            then qtyRemaining this
            else
              let daysSinceReplenishment := daysBetween now last in
              let consumedSinceReplenishment := avgDaily * daysSinceReplenishment in
              let currentStock :=
                Js.max 0 (qtyRemaining this - consumedSinceReplenishment) in
              currentStock
        end
  end.

Definition getDaysSinceLastReplenishment (this : t) (now : Z) : option Q :=
  match lastReplenishedAt this with
  | None => None
  | Some last => Some (daysBetween now last)
  end.

(** [clone()] copies every field (the two nested objects by spreading) and
    runs the constructor again, which accepts what it accepted before. *)
Definition clone (this : t) : t :=
  mk (id this) (name this) (brand this) (unit this) (qtyRemaining this)
     (avgDailyConsumption this) (avgMonthlyConsumption this)
     (lastReplenishedAt this)
     (match autoSubscription this with
      | Some a => Some (mkAutoSubscription (active a) (details a))
      | None => None
      end)
     (match buy this with
      | Some b => Some (mkBuy (place b) (url b))
      | None => None
      end)
     (leadTimeDays this) (safetyStockDays this) (minOrderQty this)
     (packSize this) (needsReplenishment this) (replenishByDate this)
     (recommendedOrderQty this) (reason this) (lastCheckAt this).

End Product.

(** ** [ReplenishmentPolicy] (src/domain/services/ReplenishmentPolicy.js) *)

Module ReplenishmentPolicy.

(** The five values [reason] takes. *)
Inductive Reason : Type :=
| auto_subscription_active
| depleted_or_invalid
| insufficient_consumption_data
| within_target_window
| sufficient_stock.

Definition reasonString (r : Reason) : string :=
  match r with
  | auto_subscription_active => "auto_subscription_active"
  | depleted_or_invalid => "depleted_or_invalid"
  | insufficient_consumption_data => "insufficient_consumption_data"
  | within_target_window => "within_target_window"
  | sufficient_stock => "sufficient_stock"
  end.

(** The [options] argument; [now] and [autoDecrementStock] are always passed
    by the use case. *)
Record Options : Type := mkOptions {
  now : Z;
  reviewHorizonDays : Js.JsNum;
  overrideTargetWindowDays : Js.JsNum;
  autoDecrementStock : bool
}.

Record Decision : Type := mkDecision {
  needsReplenishment : bool;
  recommendedOrderQty : option Q;
  replenishByDate : option Z;
  reason : Reason;
  daysUntilDepletion : option Q;
  currentStock : Q;
  daysSinceReplenishment : option Q
}.

Definition _applyOrderConstraints (baseQty : Q) (product : Product.t) : Q :=
  let qty := Js.max baseQty (Js.orNum (Product.minOrderQty product) 1) in
  match Product.packSize product with
  | Some packSize =>
      if Js.truthy packSize && Js.Qlt_bool 1 packSize
      then Js.ceil (qty / packSize) * packSize
      else qty
  | None => qty
  end.

Definition computeDecision (product : Product.t) (options : Options) : Decision :=
  let now := now options in
  let reviewHorizonDays := Js.withDefault (reviewHorizonDays options) 14 in
  let overrideTargetWindowDays := overrideTargetWindowDays options in
  let avgDaily := Product.getAvgDailyConsumption product in
  let currentStock :=
    if autoDecrementStock options
    then Product.calculateCurrentStock product now
    else Product.qtyRemaining product in
  let invalidRate :=
    let isDepleted := Qle_bool currentStock 0 in
    mkDecision
      isDepleted
      (if isDepleted
       then Some (Js.max 1 (Js.orNum (Product.minOrderQty product)
                                     (Js.orNum (Product.packSize product) 1)))
       else None)
      None
      (if isDepleted then depleted_or_invalid else insufficient_consumption_data)
      None
      currentStock
      (Product.getDaysSinceLastReplenishment product now) in
  if Product.hasAutoSubscription product then
    mkDecision
      false
      None
      None
      auto_subscription_active
      (match avgDaily with
       | Some a =>
           if Js.truthy a && Js.Qlt_bool 0 a then Some (currentStock / a) else None
       | None => None
       end)
      currentStock
      (Product.getDaysSinceLastReplenishment product now)
  else
    match avgDaily with
    | None => invalidRate
    | Some avgDaily =>
        if negb (Js.truthy avgDaily) || Qle_bool avgDaily 0 then invalidRate
        else
          let daysUntilDepletion := currentStock / avgDaily in
          let targetWindowDays :=
            Js.nullish overrideTargetWindowDays
              (Product.leadTimeDays product + Product.safetyStockDays product) in
          let needsReplenishment := Qle_bool daysUntilDepletion targetWindowDays in
          let targetCoverageDays := targetWindowDays + reviewHorizonDays in
          let targetQty :=
            Js.ceil (Js.max 0 (targetCoverageDays * avgDaily - currentStock)) in
          let daysToReplenish :=
            Js.max 0 (daysUntilDepletion - Product.leadTimeDays product) in
          mkDecision
            needsReplenishment
            (if needsReplenishment
             then Some (_applyOrderConstraints targetQty product)
             else None)
            (if needsReplenishment
             then Some (JsDate.ofNumber
                          (inject_Z now + daysToReplenish * inject_Z 86400000))
             else None)
            (if needsReplenishment then within_target_window else sufficient_stock)
            (Some daysUntilDepletion)
            currentStock
            (Product.getDaysSinceLastReplenishment product now)
    end.

End ReplenishmentPolicy.

(** ** Errors (src/domain/errors/DomainError.js) and plain [Error]s *)

Module DomainError.

Inductive t : Type :=
| PlainError (message : string)
| ValidationError (message : string)
| AdapterError (message : string) (adapter : string).

Definition message (e : t) : string :=
  match e with
  | PlainError m => m
  | ValidationError m => m
  | AdapterError m _ => m
  end.

(** The [RangeError] of [toISOString()] on an Invalid Date.  It is an
    [Error] of neither class above, and the handlers tell errors apart by
    these two classes only. *)
Definition rangeError : t := PlainError "Invalid time value".

End DomainError.

(** ** [CheckAndNotifyReplenishment] (src/domain/usecases/CheckAndNotifyReplenishment.js)

    The use case talks to three collaborators.  A run is a computation that
    records, in order, the calls it makes on the inventory repository and on
    the notifier, and ends with a summary or with an error: one a
    collaborator threw, or the [RangeError] of a due date that is an Invalid
    Date.  The logger is left out: its calls take no part in what is
    computed. *)

Module CheckAndNotifyReplenishment.

Record PolicyOverrides : Type := mkPolicyOverrides {
  reviewHorizonDays : Js.JsNum;
  overrideTargetWindowDays : Js.JsNum;
  autoDecrementStock : option bool;
  updateCalculatedQuantities : bool
}.

Record Notification : Type := mkNotification {
  enabled : bool;
  dryRun : bool;
  subjectPrefix : option string
}.

Record Params : Type := mkParams {
  policyOverrides : PolicyOverrides;
  notification : Notification
}.

Record ResultItem : Type := mkResultItem {
  id : string;
  name : string;
  brand : option string;
  unit : string;
  qtyRemaining : Q;
  currentStock : Q;
  avgDaily : option Q;
  daysUntilDepletion : option Q;
  daysSinceReplenishment : option Q;
  needsReplenishment : bool;
  recommendedOrderQty : option Q;
  replenishByDate : option string;
  reason : string;
  buy : option Buy
}.

Record EmailMessage : Type := mkEmailMessage {
  subject : string;
  html : string;
  text : string
}.

Record SaveOptions : Type := mkSaveOptions {
  updateQuantities : bool;
  updateAllFields : bool
}.

Record Policy : Type := mkPolicy {
  targetWindowDays : Q;
  policyReviewHorizonDays : Q
}.

Record Summary : Type := mkSummary {
  checkedCount : nat;
  needsReplenishmentCount : nat;
  generatedAt : string;
  policy : Policy;
  items : list ResultItem
}.

(** The two body templates, [_buildHtmlEmail] and [_buildTextEmail]: string
    layout over [items], [generatedAt] and [dryRun], taken as given. *)
Record Templates : Type := mkTemplates {
  _buildHtmlEmail : list ResultItem -> Z -> bool -> string;
  _buildTextEmail : list ResultItem -> Z -> bool -> string
}.

(** What the collaborators answer: [None] for a call that returns, [Some e]
    for one that throws [e]. *)
Record Ports : Type := mkPorts {
  listProducts : DomainError.t + list Product.t;
  saveProducts : list Product.t -> SaveOptions -> option DomainError.t;
  send : EmailMessage -> option DomainError.t
}.

Inductive Event : Type :=
| CallListProducts
| CallSaveProducts (updates : list Product.t) (options : SaveOptions)
| CallSend (message : EmailMessage).

(** *** The monad of a run *)

Definition M (A : Type) : Type :=
  list Event -> list Event * (DomainError.t + A).

Definition ret {A : Type} (a : A) : M A := fun tr => (tr, inr a).

Definition throw {A : Type} (e : DomainError.t) : M A := fun tr => (tr, inl e).

Definition bind {A B : Type} (m : M A) (k : A -> M B) : M B :=
  fun tr =>
    match m tr with
    | (tr', inr a) => k a tr'
    | (tr', inl e) => (tr', inl e)
    end.

Definition emit (ev : Event) : M Datatypes.unit :=
  fun tr => (tr ++ [ev], inr tt).

(** A call that returns nothing: recorded, then it returns or throws. *)
Definition call (ev : Event) (answer : option DomainError.t) : M Datatypes.unit :=
  bind (emit ev) (fun _ =>
    match answer with
    | None => ret tt
    | Some e => throw e
    end).

Definition run {A : Type} (m : M A) : list Event * (DomainError.t + A) := m [].

Notation "x <- m ;; k" := (bind m (fun x => k))
  (at level 61, m at next level, right associativity).
Notation "m ;;; k" := (bind m (fun _ => k))
  (at level 61, right associativity).

(** *** The use case *)

(** The em dash of the subject line, in UTF-8. *)
Definition emDash : string :=
  String (ascii_of_nat 226) (String (ascii_of_nat 128)
    (String (ascii_of_nat 148) EmptyString)).

Definition _buildEmailMessage (T : Templates) (items : list ResultItem)
    (generatedAt : Z) (subjectPrefix : string) (dryRun : bool) : EmailMessage :=
  let dateStr := JsDate.slice_0_10 (JsDate.toISOString generatedAt) in
  let subject :=
    (subjectPrefix ++ " " ++ Js.stringOfNat (List.length items) ++
     " item(s) need replenishment " ++ emDash ++ " " ++ dateStr)%string in
  let html := _buildHtmlEmail T items generatedAt dryRun in
  let text := _buildTextEmail T items generatedAt dryRun in
  mkEmailMessage subject html text.

(** The decision the loop takes for one product. *)
Definition decide (policyOverrides : PolicyOverrides) (now : Z)
    (product : Product.t) : ReplenishmentPolicy.Decision :=
  ReplenishmentPolicy.computeDecision product
    (ReplenishmentPolicy.mkOptions
       now
       (reviewHorizonDays policyOverrides)
       (overrideTargetWindowDays policyOverrides)
       (match autoDecrementStock policyOverrides with
        | Some false => false
        | _ => true
        end)).

(** [decision.replenishByDate?.toISOString()?.slice(0, 10) || null]: the
    calendar date of the due date, [null] when there is none, and the
    [RangeError] of [toISOString()] when the due date is an Invalid Date. *)
Definition dateOrNull (d : option Z) : DomainError.t + option string :=
  match d with
  | Some ms =>
      if JsDate.isValid ms then
        let s := JsDate.slice_0_10 (JsDate.toISOString ms) in
        inr (if String.eqb s "" then None else Some s)
      else inl DomainError.rangeError
  | None => inr None
  end.

(** The object literal of a result row; it throws what [dateOrNull] throws. *)
Definition resultItem (product : Product.t)
    (decision : ReplenishmentPolicy.Decision) : DomainError.t + ResultItem :=
  match dateOrNull (ReplenishmentPolicy.replenishByDate decision) with
  | inl e => inl e
  | inr date =>
      inr (mkResultItem
             (Product.id product)
             (Product.name product)
             (Product.brand product)
             (Product.unit product)
             (Product.qtyRemaining product)
             (ReplenishmentPolicy.currentStock decision)
             (Product.getAvgDailyConsumption product)
             (ReplenishmentPolicy.daysUntilDepletion decision)
             (ReplenishmentPolicy.daysSinceReplenishment decision)
             (ReplenishmentPolicy.needsReplenishment decision)
             (ReplenishmentPolicy.recommendedOrderQty decision)
             date
             (ReplenishmentPolicy.reasonString (ReplenishmentPolicy.reason decision))
             (Product.buy product))
  end.

(** The clone with its five derived fields assigned and, when asked for and
    the computed stock differs, its quantity. *)
Definition updatedProduct (policyOverrides : PolicyOverrides) (now : Z)
    (product : Product.t) (decision : ReplenishmentPolicy.Decision) : Product.t :=
  let c := Product.clone product in
  Product.mk
    (Product.id c) (Product.name c) (Product.brand c) (Product.unit c)
    (if updateCalculatedQuantities policyOverrides &&
        negb (Qeq_bool (ReplenishmentPolicy.currentStock decision)
                       (Product.qtyRemaining product))
     then ReplenishmentPolicy.currentStock decision
     else Product.qtyRemaining c)
    (Product.avgDailyConsumption c) (Product.avgMonthlyConsumption c)
    (Product.lastReplenishedAt c) (Product.autoSubscription c) (Product.buy c)
    (Product.leadTimeDays c) (Product.safetyStockDays c)
    (Product.minOrderQty c) (Product.packSize c)
    (ReplenishmentPolicy.needsReplenishment decision)
    (ReplenishmentPolicy.replenishByDate decision)
    (ReplenishmentPolicy.recommendedOrderQty decision)
    (Some (ReplenishmentPolicy.reasonString (ReplenishmentPolicy.reason decision)))
    (Some now).

(** The body of the [for] loop: one push on [results], one on [updates],
    unless building the result row throws. *)
Definition step (policyOverrides : PolicyOverrides) (now : Z)
    (acc : list ResultItem * list Product.t) (product : Product.t)
    : DomainError.t + (list ResultItem * list Product.t) :=
  let decision := decide policyOverrides now product in
  match resultItem product decision with
  | inl e => inl e
  | inr item =>
      inr (fst acc ++ [item],
           snd acc ++ [updatedProduct policyOverrides now product decision])
  end.

(** The [for] loop over the loaded products: the first throw ends it. *)
Fixpoint forEach (policyOverrides : PolicyOverrides) (now : Z)
    (products : list Product.t) (acc : list ResultItem * list Product.t)
    : DomainError.t + (list ResultItem * list Product.t) :=
  match products with
  | [] => inr acc
  | product :: rest =>
      match step policyOverrides now acc product with
      | inl e => inl e
      | inr acc' => forEach policyOverrides now rest acc'
      end
  end.

Definition execute (ports : Ports) (T : Templates) (clockNow : Z)
    (params : Params) : M Summary :=
  let policyOverrides := policyOverrides params in
  let notification := notification params in
  let now := clockNow in
  products <- (bind (emit CallListProducts) (fun _ =>
                 match listProducts ports with
                 | inr products => ret products
                 | inl e => throw e
                 end)) ;;
  loop <- (match forEach policyOverrides now products ([], []) with
           | inr loop => ret loop
           | inl e => throw e
           end) ;;
  let results := fst loop in
  let updates := snd loop in
  (if negb (dryRun notification) then
     let saveOptions :=
       mkSaveOptions (updateCalculatedQuantities policyOverrides || false) false in
     call (CallSaveProducts updates saveOptions)
          (saveProducts ports updates saveOptions)
   else ret tt) ;;;
  let itemsToNotify := filter needsReplenishment results in
  (if enabled notification && (0 <? List.length itemsToNotify)%nat then
     let emailMessage :=
       _buildEmailMessage T itemsToNotify now
         (match subjectPrefix notification with
          | Some s => if String.eqb s "" then "[Home Inventory]"%string else s
          | None => "[Home Inventory]"%string
          end)
         (dryRun notification) in
     if negb (dryRun notification)
     then call (CallSend emailMessage) (send ports emailMessage)
     else ret tt
   else ret tt) ;;;
  let policy :=
    mkPolicy
      (Js.orElse (overrideTargetWindowDays policyOverrides)
         (match updates with
          | u :: _ => Product.leadTimeDays u + Product.safetyStockDays u
          | [] => 5
          end))
      (Js.orElse (reviewHorizonDays policyOverrides) 14) in
  ret (mkSummary
         (List.length results)
         (List.length itemsToNotify)
         (JsDate.toISOString now)
         policy
         results).

End CheckAndNotifyReplenishment.

(** ** [SheetRowMapper] (src/adapters/mappers/SheetRowMapper.js), the read path *)

Module SheetRowMapper.

Definition Row : Type := list Js.Value.

(** A position of the array destructuring; a short row leaves it [undefined]. *)
Definition cell (row : Row) (i : nat) : Js.Value := nth i row Js.VUndefined.

(** [value === null || value === undefined || value === '']. *)
Definition isBlank (value : Js.Value) : bool :=
  match value with
  | Js.VUndefined => true
  | Js.VString s => String.eqb s ""
  | _ => false
  end.

(** [_parseNumber(value, defaultValue)] with a numeric default ... *)
Definition _parseNumber (R : Js.Runtime) (value : Js.Value) (defaultValue : Q) : Q :=
  if isBlank value then defaultValue
  else
    match Js.toNumber R value with
    | None => defaultValue
    | Some num => num
    end.

(** ... and with the default [null]. *)
Definition _parseNumberOrNull (R : Js.Runtime) (value : Js.Value) : option Q :=
  if isBlank value then None
  else Js.toNumber R value.

Definition _parseBoolean (R : Js.Runtime) (value : Js.Value) : bool :=
  if isBlank value then false
  else
    match value with
    | Js.VBoolean true => true
    | _ => String.eqb (Js.toLowerCase R (Js.toString R value)) "true"
    end.

(** [_parseDate(value)]; a cell is never a [Date] object. *)
Definition _parseDate (R : Js.Runtime) (value : Js.Value) : option Z :=
  if negb (Js.truthyValue value) then None
  else
    match value with
    | Js.VString s => Js.dateOfString R s
    | Js.VNumber q =>
        let date := JsDate.ofNumber q in
        if JsDate.isValid date then Some date else None
    | Js.VBoolean true => Some 1%Z
    | _ => None
    end.

(** [value ? String(value).trim() : null]. *)
Definition trimmedOrNull (R : Js.Runtime) (value : Js.Value) : option string :=
  if Js.truthyValue value then Some (Js.trim R (Js.toString R value)) else None.

Definition rowMessage (rowIndex : nat) (message : string) : string :=
  ("Row " ++ Js.stringOfNat rowIndex ++ ": " ++ message)%string.

(** [rowToProduct(row, rowIndex)]: [inr None] is the [null] of an empty row,
    [inl] the [ValidationError] thrown. *)
Definition rowToProduct (R : Js.Runtime) (row : Row) (rowIndex : nat)
    : DomainError.t + option Product.t :=
  match row with
  | [] => inr None
  | _ =>
      let id := cell row 0 in
      let name := cell row 1 in
      let brand := cell row 2 in
      let unit := cell row 3 in
      let qtyRemaining := cell row 4 in
      let avgDailyConsumption := cell row 5 in
      let avgMonthlyConsumption := cell row 6 in
      let lastReplenishedAt := cell row 7 in
      let autoSubscription := cell row 8 in
      let autoSubscriptionNote := cell row 9 in
      let buyPlace := cell row 10 in
      let buyUrl := cell row 11 in
      let leadTimeDays := cell row 12 in
      let safetyStockDays := cell row 13 in
      let minOrderQty := cell row 14 in
      let packSize := cell row 15 in
      let needsReplenishment := cell row 16 in
      let replenishByDate := cell row 17 in
      let recommendedOrderQty := cell row 18 in
      let reason := cell row 19 in
      let lastCheckAt := cell row 20 in
      if negb (Js.truthyValue id) || negb (Js.truthyValue name)
         || negb (Js.truthyValue unit)
      then inl (DomainError.ValidationError
                  (rowMessage rowIndex "Missing required fields (id, name, unit)"))
      else
        let autoSubscriptionObj :=
          match autoSubscription with
          | Js.VBoolean true =>
              Some (mkAutoSubscription true (Js.orNull autoSubscriptionNote))
          | Js.VString s =>
              if String.eqb s "TRUE"
              then Some (mkAutoSubscription true (Js.orNull autoSubscriptionNote))
              else None
          | _ => None
          end in
        let buyObj :=
          if Js.truthyValue buyPlace || Js.truthyValue buyUrl
          then Some (mkBuy (Js.orNull buyPlace) (Js.orNull buyUrl))
          else None in
        match
          Product.new
            (Product.mk
               (Js.trim R (Js.toString R id))
               (Js.trim R (Js.toString R name))
               (trimmedOrNull R brand)
               (Js.toLowerCase R (Js.trim R (Js.toString R unit)))
               (_parseNumber R qtyRemaining 0)
               (_parseNumberOrNull R avgDailyConsumption)
               (_parseNumberOrNull R avgMonthlyConsumption)
               (_parseDate R lastReplenishedAt)
               autoSubscriptionObj
               buyObj
               (_parseNumber R leadTimeDays 2)
               (_parseNumber R safetyStockDays 3)
               (_parseNumberOrNull R minOrderQty)
               (_parseNumberOrNull R packSize)
               (_parseBoolean R needsReplenishment)
               (_parseDate R replenishByDate)
               (_parseNumberOrNull R recommendedOrderQty)
               (trimmedOrNull R reason)
               (_parseDate R lastCheckAt))
        with
        | inr product => inr (Some product)
        | inl message =>
            inl (DomainError.ValidationError (rowMessage rowIndex message))
        end
  end.

End SheetRowMapper.

(** ** [GoogleSheetsInventoryRepository.listProducts] *)

Module GoogleSheetsInventoryRepository.

(** What the Sheets client answers to the one read of a run. *)
Inductive Response : Type :=
| ClientFailed (message : string)
| GetFailed (code : option Z) (message : string)
| GetValues (values : option (list SheetRowMapper.Row)).

Record Skipped : Type := mkSkipped {
  row : nat;
  error : string
}.

(** The body of the loop over [dataRows], at index [i]. *)
Definition step (R : Js.Runtime) (dataRow : SheetRowMapper.Row) (i : nat)
    (acc : list Product.t * list Skipped) : list Product.t * list Skipped :=
  let rowIndex := (i + 2)%nat in
  match SheetRowMapper.rowToProduct R dataRow rowIndex with
  | inr (Some product) => (fst acc ++ [product], snd acc)
  | inr None => acc
  | inl e => (fst acc, snd acc ++ [mkSkipped rowIndex (DomainError.message e)])
  end.

Fixpoint loop (R : Js.Runtime) (dataRows : list SheetRowMapper.Row) (i : nat)
    (acc : list Product.t * list Skipped) : list Product.t * list Skipped :=
  match dataRows with
  | [] => acc
  | dataRow :: rest => loop R rest (S i) (step R dataRow i acc)
  end.

Definition listProducts (R : Js.Runtime) (response : Response)
    : DomainError.t + list Product.t :=
  match response with
  | ClientFailed _ =>
      inl (DomainError.AdapterError
             "Failed to initialize Google Sheets client" "google_sheets")
  | GetFailed code _ =>
      inl (DomainError.AdapterError
             (match code with
              | Some 403%Z =>
                  "Access denied to Google Sheets. Check service account permissions."
              | Some 404%Z =>
                  "Spreadsheet or sheet not found. Check spreadsheet ID and sheet name."
              | Some 429%Z =>
                  "Google Sheets API rate limit exceeded. Please try again later."
              | _ => "Failed to read from Google Sheets"
              end)
             "google_sheets")
  | GetValues values =>
      let rows := match values with Some rows => rows | None => [] end in
      match rows with
      | [] => inr []
      | headerRow :: dataRows => inr (fst (loop R dataRows 0 ([], [])))
      end
  end.

End GoogleSheetsInventoryRepository.

(** ** [SheetRowMapper], the write path *)

Module SheetRowMapperWrite.

Definition HEADER_ROW : list string :=
  ["id"; "name"; "brand"; "unit"; "qty_remaining";
   "avg_daily_consumption"; "avg_monthly_consumption"; "last_replenished_at";
   "auto_subscription"; "auto_subscription_note"; "buy_place"; "buy_url";
   "lead_time_days"; "safety_stock_days"; "min_order_qty"; "pack_size";
   "needs_replenishment"; "replenish_by_date"; "recommended_order_qty";
   "reason"; "last_check_at"; "notes"]%string.

(** A number or [null], a string or [null], as a cell. *)
Definition numberCell (x : option Q) : Js.Value :=
  match x with
  | Some q => Js.VNumber q
  | None => Js.VUndefined
  end.

Definition stringCell (x : option string) : Js.Value :=
  match x with
  | Some s => Js.VString s
  | None => Js.VUndefined
  end.

(** [d ? d.toISOString().slice(0, 10) : ''] and [d ? d.toISOString() : '']. *)
Definition dateCell (d : option Z) : Js.Value :=
  match d with
  | Some ms => Js.VString (JsDate.slice_0_10 (JsDate.toISOString ms))
  | None => Js.VString ""
  end.

Definition timestampCell (d : option Z) : Js.Value :=
  match d with
  | Some ms => Js.VString (JsDate.toISOString ms)
  | None => Js.VString ""
  end.

(** [x?.active || false], and [x?.field || '']. *)
Definition activeCell (a : option AutoSubscription) : Js.Value :=
  match a with
  | Some a => Js.VBoolean (active a)
  | None => Js.VBoolean false
  end.

Definition orEmpty (v : option Js.Value) : Js.Value :=
  match v with
  | Some v => if Js.truthyValue v then v else Js.VString ""
  | None => Js.VString ""
  end.

Definition detailsCell (a : option AutoSubscription) : Js.Value :=
  match a with
  | Some a => orEmpty (details a)
  | None => Js.VString ""
  end.

Definition placeCell (b : option Buy) : Js.Value :=
  match b with
  | Some b => orEmpty (place b)
  | None => Js.VString ""
  end.

Definition urlCell (b : option Buy) : Js.Value :=
  match b with
  | Some b => orEmpty (url b)
  | None => Js.VString ""
  end.

Definition productToRow (product : Product.t) : SheetRowMapper.Row :=
  [ Js.VString (Product.id product);
    Js.VString (Product.name product);
    stringCell (Product.brand product);
    Js.VString (Product.unit product);
    Js.VNumber (Product.qtyRemaining product);
    numberCell (Product.avgDailyConsumption product);
    numberCell (Product.avgMonthlyConsumption product);
    dateCell (Product.lastReplenishedAt product);
    activeCell (Product.autoSubscription product);
    detailsCell (Product.autoSubscription product);
    placeCell (Product.buy product);
    urlCell (Product.buy product);
    Js.VNumber (Product.leadTimeDays product);
    Js.VNumber (Product.safetyStockDays product);
    numberCell (Product.minOrderQty product);
    numberCell (Product.packSize product);
    Js.VBoolean (Product.needsReplenishment product);
    dateCell (Product.replenishByDate product);
    numberCell (Product.recommendedOrderQty product);
    stringCell (Product.reason product);
    timestampCell (Product.lastCheckAt product);
    Js.VString "" ].

Definition getDerivedFieldsRange (startRow endRow : nat) : string :=
  ("Q" ++ Js.stringOfNat startRow ++ ":U" ++ Js.stringOfNat endRow)%string.

Definition getDerivedFieldsValues (products : list Product.t)
    : list SheetRowMapper.Row :=
  map (fun product =>
         [ Js.VBoolean (Product.needsReplenishment product);
           dateCell (Product.replenishByDate product);
           numberCell (Product.recommendedOrderQty product);
           stringCell (Product.reason product);
           timestampCell (Product.lastCheckAt product) ])
      products.

Definition getQuantityUpdateRange (startRow endRow : nat) : string :=
  ("E" ++ Js.stringOfNat startRow ++ ":E" ++ Js.stringOfNat endRow)%string.

Definition getQuantityUpdateValues (products : list Product.t)
    : list SheetRowMapper.Row :=
  map (fun product => [Js.VNumber (Product.qtyRemaining product)]) products.

Definition getAllUpdateRange (startRow endRow : nat) : string :=
  ("E" ++ Js.stringOfNat startRow ++ ":U" ++ Js.stringOfNat endRow)%string.

Definition getAllUpdateValues (products : list Product.t)
    : list SheetRowMapper.Row :=
  map (fun product =>
         [ Js.VNumber (Product.qtyRemaining product);
           numberCell (Product.avgDailyConsumption product);
           numberCell (Product.avgMonthlyConsumption product);
           dateCell (Product.lastReplenishedAt product);
           activeCell (Product.autoSubscription product);
           detailsCell (Product.autoSubscription product);
           placeCell (Product.buy product);
           urlCell (Product.buy product);
           Js.VNumber (Product.leadTimeDays product);
           Js.VNumber (Product.safetyStockDays product);
           numberCell (Product.minOrderQty product);
           numberCell (Product.packSize product);
           Js.VBoolean (Product.needsReplenishment product);
           dateCell (Product.replenishByDate product);
           numberCell (Product.recommendedOrderQty product);
           stringCell (Product.reason product);
           timestampCell (Product.lastCheckAt product) ])
      products.

End SheetRowMapperWrite.

(** ** [GoogleSheetsInventoryRepository.saveProducts] *)

Module GoogleSheetsInventoryRepositoryWrite.

Import SheetRowMapperWrite.

(** One block of cells to write. *)
Record ValueRange : Type := mkValueRange {
  range : string;
  values : list SheetRowMapper.Row
}.

(** The two calls the write path makes on the Sheets client, both with
    [valueInputOption: 'RAW']. *)
Inductive Request : Type :=
| Update (data : ValueRange)
| BatchUpdate (data : list ValueRange).

(** The Sheets client at the time of a write: whether it can be built, and
    for each request the [code] of the error thrown, if one is ([Some None]
    is an error without a code). *)
Record Sheets : Type := mkSheets {
  clientReady : bool;
  respond : Request -> option (option Z)
}.

(** The [catch] of [saveProducts]: every error becomes an [AdapterError],
    its message chosen by [error.code]. *)
Definition saveError (code : option Z) : DomainError.t :=
  DomainError.AdapterError
    (match code with
     | Some 403%Z =>
         "Access denied to Google Sheets. Check service account permissions."
     | Some 404%Z =>
         "Spreadsheet or sheet not found. Check spreadsheet ID and sheet name."
     | Some 429%Z =>
         "Google Sheets API rate limit exceeded. Please try again later."
     | _ => "Failed to save to Google Sheets"
     end)
    "google_sheets".

(** The request of a write over a non-empty list. *)
Definition requestFor (products : list Product.t)
    (options : CheckAndNotifyReplenishment.SaveOptions) : Request :=
  let startRow := 2%nat in
  let endRow := (startRow + List.length products - 1)%nat in
  if CheckAndNotifyReplenishment.updateAllFields options then
    Update (mkValueRange (getAllUpdateRange startRow endRow)
                         (getAllUpdateValues products))
  else if CheckAndNotifyReplenishment.updateQuantities options then
    BatchUpdate
      [ mkValueRange (getQuantityUpdateRange startRow endRow)
                     (getQuantityUpdateValues products);
        mkValueRange (getDerivedFieldsRange startRow endRow)
                     (getDerivedFieldsValues products) ]
  else
    Update (mkValueRange (getDerivedFieldsRange startRow endRow)
                         (getDerivedFieldsValues products)).

(** [saveProducts(products, options)]: the requests made, and the error
    thrown if one is. *)
Definition saveProducts (sheets : Sheets) (products : list Product.t)
    (options : CheckAndNotifyReplenishment.SaveOptions)
    : list Request * option DomainError.t :=
  match products with
  | [] => ([], None)
  | _ =>
      if negb (clientReady sheets) then ([], Some (saveError None))
      else
        let request := requestFor products options in
        match respond sheets request with
        | Some code => ([request], Some (saveError code))
        | None => ([request], None)
        end
  end.

(** The blocks a request writes. *)
Definition blocks (request : Request) : list ValueRange :=
  match request with
  | Update data => [data]
  | BatchUpdate data => data
  end.

End GoogleSheetsInventoryRepositoryWrite.

(** ** [createApiKeyAuth] (src/adapters/http/authApiKey.js) *)

Module AuthApiKey.

(** What the middleware does with a request: answer it, or hand it on. *)
Inductive Outcome : Type :=
| Respond (status : nat) (code : string) (message : string)
| Next.

(** [providedKey] is the [x-api-key] header, [None] when the request has
    none. *)
Definition createApiKeyAuth (apiKey : string) (providedKey : option string)
    : Outcome :=
  match providedKey with
  | None =>
      Respond 401 "unauthorized" "API key required. Provide x-api-key header."
  | Some key =>
      if String.eqb key "" then
        Respond 401 "unauthorized" "API key required. Provide x-api-key header."
      else if negb (String.eqb key apiKey) then
        Respond 401 "unauthorized" "Invalid API key"
      else Next
  end.

End AuthApiKey.

(** ** [EnvConfig.mergeWithRequestConfig]

    The class is found in the bundle without its file name; its import path
    is [adapters/runtime/EnvConfig.js]. *)

Module EnvConfig.

(** A field of the request body as [_getSecret] sees it: [undefined], or
    present, be it [null]. *)
Inductive Field (A : Type) : Type :=
| Absent
| Null
| Given (a : A).
Arguments Absent {A}.
Arguments Null {A}.
Arguments Given {A} a.

(** [x ?? d]. *)
Definition orDefault {A : Type} (x : option A) (d : A) : A :=
  match x with
  | Some a => a
  | None => d
  end.

(** [x ?? y] where the fallback may itself be missing. *)
Definition orOption {A : Type} (x y : option A) : option A :=
  match x with
  | Some a => Some a
  | None => y
  end.

Record RequestOptions : Type := mkRequestOptions {
  dryRun : option bool;
  subjectPrefix : option string;
  reviewHorizonDays : option Q;
  overrideTargetWindowDays : option Q;
  autoDecrementStock : option bool;
  updateCalculatedQuantities : option bool
}.

Record RequestInventory : Type := mkRequestInventory {
  inventoryType : option string;
  spreadsheetId : option string;
  sheetName : option string
}.

Record RequestSecrets : Type := mkRequestSecrets {
  googleClientEmail : Field string;
  googlePrivateKey : Field string;
  smtpHost : Field string;
  smtpPort : Field Z;
  smtpSecure : Field bool;
  smtpUser : Field string;
  smtpPass : Field string;
  smtpFrom : Field string;
  smtpTo : Field string
}.

Record RequestConfig : Type := mkRequestConfig {
  options : RequestOptions;
  inventory : RequestInventory;
  secrets : RequestSecrets;
  notificationEnabled : option bool
}.

(** What [_loadAndValidate] keeps of the environment. *)
Record Env : Type := mkEnv {
  apiKey : string;
  allowInlineSecrets : bool;
  envSpreadsheetId : option string;
  envSheetName : string;
  envClientEmail : option string;
  envPrivateKey : option string;
  envHost : string;
  envPort : Z;
  envSecure : bool;
  envUser : option string;
  envPass : option string;
  envFrom : option string;
  envTo : option string
}.

Record MergedOptions : Type := mkMergedOptions {
  mDryRun : bool;
  mSubjectPrefix : string;
  mReviewHorizonDays : Q;
  mOverrideTargetWindowDays : option Q;
  mAutoDecrementStock : bool;
  mUpdateCalculatedQuantities : bool
}.

Record Merged : Type := mkMerged {
  mOptions : MergedOptions;
  mInventoryType : string;
  mSpreadsheetId : option string;
  mSheetName : string;
  mClientEmail : option string;
  mPrivateKey : option string;
  mHost : option string;
  mPort : option Z;
  mSecure : option bool;
  mUser : option string;
  mPass : option string;
  mFrom : option string;
  mTo : option string;
  mNotification : CheckAndNotifyReplenishment.Notification
}.

(** [_getSecret(path, requestValue, envValue)]. *)
Definition _getSecret {A : Type} (env : Env) (path : string)
    (requestValue : Field A) (envValue : option A) : DomainError.t + option A :=
  match requestValue with
  | Absent => inr envValue
  | _ =>
      if negb (allowInlineSecrets env) then
        inl (DomainError.ValidationError
               ("Inline secrets not allowed in production. Remove secrets." ++ path
                ++ " from request body.")%string)
      else
        inr (match requestValue with Given a => Some a | _ => None end)
  end.

(** A string that is absent or empty is falsy. *)
Definition missingString (x : option string) : bool :=
  match x with
  | Some s => String.eqb s ""
  | None => true
  end.

(** The names [_validateMergedConfig] collects, in its order. *)
Definition missing (config : Merged) : list string :=
  (if missingString (mSpreadsheetId config) then ["spreadsheetId"%string] else []) ++
  (if missingString (mClientEmail config) then ["google.clientEmail"%string] else []) ++
  (if missingString (mPrivateKey config) then ["google.privateKey"%string] else []) ++
  (if missingString (mUser config) then ["smtp.user"%string] else []) ++
  (if missingString (mPass config) then ["smtp.pass"%string] else []) ++
  (if missingString (mFrom config) then ["smtp.from"%string] else []) ++
  (if missingString (mTo config) then ["smtp.to"%string] else []).

Definition _validateMergedConfig (config : Merged) : option DomainError.t :=
  match missing config with
  | [] => None
  | names =>
      Some (DomainError.ValidationError
              ("Missing required configuration: " ++ String.concat ", " names)%string)
  end.

Definition andThen {A B : Type} (x : DomainError.t + A)
    (k : A -> DomainError.t + B) : DomainError.t + B :=
  match x with
  | inl e => inl e
  | inr a => k a
  end.

Definition mergeWithRequestConfig (env : Env) (requestConfig : RequestConfig)
    : DomainError.t + Merged :=
  let o := options requestConfig in
  let s := secrets requestConfig in
  let mergedOptions :=
    mkMergedOptions
      (orDefault (dryRun o) false)
      (orDefault (subjectPrefix o) "[Pantry Pilot]"%string)
      (orDefault (reviewHorizonDays o) 14)
      (overrideTargetWindowDays o)
      (orDefault (autoDecrementStock o) true)
      (orDefault (updateCalculatedQuantities o) false) in
  andThen (_getSecret env "google.clientEmail"%string (googleClientEmail s)
             (envClientEmail env)) (fun clientEmail =>
  andThen (_getSecret env "google.privateKey"%string (googlePrivateKey s)
             (envPrivateKey env)) (fun privateKey =>
  andThen (_getSecret env "smtp.host"%string (smtpHost s) (Some (envHost env))) (fun host =>
  andThen (_getSecret env "smtp.port"%string (smtpPort s) (Some (envPort env))) (fun port =>
  andThen (_getSecret env "smtp.secure"%string (smtpSecure s) (Some (envSecure env)))
    (fun secure =>
  andThen (_getSecret env "smtp.user"%string (smtpUser s) (envUser env)) (fun user =>
  andThen (_getSecret env "smtp.pass"%string (smtpPass s) (envPass env)) (fun pass =>
  andThen (_getSecret env "smtp.from"%string (smtpFrom s) (envFrom env)) (fun from =>
  andThen (_getSecret env "smtp.to"%string (smtpTo s) (envTo env)) (fun to =>
    let merged :=
      mkMerged
        mergedOptions
        (orDefault (inventoryType (inventory requestConfig)) "google_sheets"%string)
        (orOption (spreadsheetId (inventory requestConfig)) (envSpreadsheetId env))
        (orDefault (sheetName (inventory requestConfig)) (envSheetName env))
        clientEmail privateKey host port secure user pass from to
        (CheckAndNotifyReplenishment.mkNotification
           (orDefault (notificationEnabled requestConfig) true)
           (orDefault (dryRun o) false)
           (Some (orDefault (subjectPrefix o) "[Pantry Pilot]"%string))) in
    match _validateMergedConfig merged with
    | Some e => inl e
    | None => inr merged
    end))))))))).

End EnvConfig.

(** ** The route [POST /api/check-replenishment] (src/adapters/http/routes.js) *)

Module Routes.

Inductive Response : Type :=
| Json200 (result : CheckAndNotifyReplenishment.Summary)
| Json400 (code : string) (message : string)
| Json500Adapter (code : string) (adapter : string) (message : string)
| Json500 (code : string) (message : string).

Definition status (r : Response) : nat :=
  match r with
  | Json200 _ => 200
  | Json400 _ _ => 400
  | Json500Adapter _ _ _ => 500
  | Json500 _ _ => 500
  end.

(** The [catch] of the handler. *)
Definition onError (error : DomainError.t) : Response :=
  match error with
  | DomainError.ValidationError message => Json400 "bad_request"%string message
  | DomainError.AdapterError message adapter =>
      Json500Adapter "adapter_error"%string adapter message
  | DomainError.PlainError _ =>
      Json500 "internal_error"%string "An internal server error occurred"%string
  end.

(** The parameters the handler passes to the use case. *)
Definition paramsOf (config : EnvConfig.Merged) : CheckAndNotifyReplenishment.Params :=
  CheckAndNotifyReplenishment.mkParams
    (CheckAndNotifyReplenishment.mkPolicyOverrides
       (Js.JNumber (EnvConfig.mReviewHorizonDays (EnvConfig.mOptions config)))
       (match EnvConfig.mOverrideTargetWindowDays (EnvConfig.mOptions config) with
        | Some w => Js.JNumber w
        | None => Js.JNull
        end)
       None
       false)
    (EnvConfig.mNotification config).

(** The handler, over a use case given by what [execute] returns or throws. *)
Definition checkReplenishment (env : EnvConfig.Env)
    (useCase : CheckAndNotifyReplenishment.Params ->
               DomainError.t + CheckAndNotifyReplenishment.Summary)
    (body : EnvConfig.RequestConfig) : Response :=
  match EnvConfig.mergeWithRequestConfig env body with
  | inl error => onError error
  | inr config =>
      match useCase (paramsOf config) with
      | inr result => Json200 result
      | inl error => onError error
      end
  end.

End Routes.

(** ** Loading, in closed form *)

Module Loading.

(** The rows of the sheet that load, each with the row number it was read
    under; the first data row is row 2. *)
Fixpoint accepted (R : Js.Runtime) (dataRows : list SheetRowMapper.Row) (i : nat)
    : list (nat * Product.t) :=
  match dataRows with
  | [] => []
  | dataRow :: rest =>
      match SheetRowMapper.rowToProduct R dataRow (i + 2) with
      | inr (Some product) => ((i + 2)%nat, product) :: accepted R rest (S i)
      | _ => accepted R rest (S i)
      end
  end.

End Loading.

(** ** [_buildTextEmail], the plain body of the report

    Lengths are counted in characters of the model's strings, which agrees
    with [String.prototype.length] on ASCII text. *)

Module TextEmail.

Import CheckAndNotifyReplenishment.

Definition newline : string := String (ascii_of_nat 10) EmptyString.

(** [Math.round]: the nearest integer, halves upward. *)
Definition round (x : Q) : Q := inject_Z (Qfloor (x + (1 # 2))).

(** [s.repeat(n)] and [s.padEnd(n)]. *)
Fixpoint repeat (s : string) (n : nat) : string :=
  match n with
  | O => EmptyString
  | S n' => (s ++ repeat s n')%string
  end.

Definition padEnd (s : string) (n : nat) : string :=
  (s ++ repeat " " (n - String.length s))%string.

(** [Math.max(...xs, d)]. *)
Definition maxOf (xs : list nat) (d : nat) : nat := fold_right Nat.max d xs.

(** [x || ''] for a string or null. *)
Definition orEmptyString (x : option string) : string :=
  match x with
  | Some s => s
  | None => EmptyString
  end.

Definition stockDisplay (R : Js.Runtime) (i : ResultItem) : string :=
  if negb (Qeq_bool (currentStock i) (qtyRemaining i)) then
    (Js.stringOfNumber R (round (currentStock i * 100) / 100) ++ " " ++ unit i
     ++ " (" ++ Js.stringOfNumber R (qtyRemaining i) ++ ")")%string
  else
    (Js.stringOfNumber R (qtyRemaining i) ++ " " ++ unit i)%string.

Definition daysLeft (R : Js.Runtime) (item : ResultItem) : string :=
  match daysUntilDepletion item with
  | Some d => Js.stringOfNumber R (round (d * 10) / 10)
  | None => "N/A"
  end.

(** [(item.recommendedOrderQty || '').toString()]. *)
Definition recommended (R : Js.Runtime) (item : ResultItem) : string :=
  match recommendedOrderQty item with
  | Some q => if Js.truthy q then Js.stringOfNumber R q else EmptyString
  | None => EmptyString
  end.

(** [item.buy?.place || ''], as the template prints it. *)
Definition buyPlace (R : Js.Runtime) (item : ResultItem) : string :=
  match buy item with
  | Some b =>
      match place b with
      | Some v => if Js.truthyValue v then Js.toString R v else EmptyString
      | None => EmptyString
      end
  | None => EmptyString
  end.

Definition maxNameLen (items : list ResultItem) : nat :=
  maxOf (map (fun i => String.length (name i)) items) 4.

Definition maxBrandLen (items : list ResultItem) : nat :=
  maxOf (map (fun i => String.length (orEmptyString (brand i))) items) 5.

Definition maxQtyLen (R : Js.Runtime) (items : list ResultItem) : nat :=
  maxOf (map (fun i => String.length (stockDisplay R i)) items) 9.

Definition headerRow (R : Js.Runtime) (items : list ResultItem) : string :=
  (padEnd "Name" (maxNameLen items) ++ " | " ++
   padEnd "Brand" (maxBrandLen items) ++ " | " ++
   padEnd "Remaining" (maxQtyLen R items) ++
   " | Days Left | Replenish By | Recommended | Buy")%string.

Definition row (R : Js.Runtime) (items : list ResultItem) (item : ResultItem)
    : string :=
  (padEnd (name item) (maxNameLen items) ++ " | " ++
   padEnd (orEmptyString (brand item)) (maxBrandLen items) ++ " | " ++
   padEnd (stockDisplay R item) (maxQtyLen R items) ++ " | " ++
   padEnd (daysLeft R item) 9 ++ " | " ++
   padEnd (orEmptyString (replenishByDate item)) 12 ++ " | " ++
   padEnd (recommended R item) 11 ++ " | " ++
   buyPlace R item)%string.

Definition header (items : list ResultItem) (generatedAt : Z) (dryRun : bool)
    : string :=
  (newline ++
   "Pantry Pilot Replenishment Report" ++ newline ++
   "Generated at: " ++ JsDate.toISOString generatedAt ++ newline ++
   (if dryRun
    then newline ++ "*** DRY RUN *** - No changes were made to inventory" ++ newline
    else EmptyString) ++ newline ++
   newline ++
   "The following " ++ Js.stringOfNat (List.length items)
     ++ " item(s) need replenishment:" ++ newline ++
   newline)%string.

Definition _buildTextEmail (R : Js.Runtime) (items : list ResultItem)
    (generatedAt : Z) (dryRun : bool) : string :=
  let separator := repeat "-" (String.length (headerRow R items)) in
  let rows := String.concat newline (map (row R items) items) in
  (header items generatedAt dryRun ++ headerRow R items ++ newline ++
   separator ++ newline ++ rows)%string.

End TextEmail.

(** ** [SmtpEmailNotifier.send]

    The class is found in the bundle after [SheetRowMapper]; its import path
    is [adapters/notify/email/SmtpEmailNotifier.js]. *)

Module SmtpEmailNotifier.

Import CheckAndNotifyReplenishment.

(** The transporter at the time of a send: whether it can be built and
    verified, and for each mail the [code] of the error thrown, if one is
    ([Some None] is an error without one of the three codes). *)
Inductive Code : Type :=
| EAUTH
| ECONNECTION
| ETIMEDOUT.

Record Smtp : Type := mkSmtp {
  transporterReady : bool;
  sendMail : EmailMessage -> option (option Code)
}.

(** The [catch] of [send]. *)
Definition sendError (code : option Code) : DomainError.t :=
  DomainError.AdapterError
    (match code with
     | Some EAUTH => "SMTP authentication failed. Check username and password."
     | Some ECONNECTION => "Could not connect to SMTP server. Check host and port."
     | Some ETIMEDOUT => "SMTP connection timed out. Check network connectivity."
     | None => "Failed to send email notification"
     end)
    "smtp".

(** [send(message)]: the mails handed to the transporter, and the error
    thrown if one is. *)
Definition send (smtp : Smtp) (message : EmailMessage)
    : list EmailMessage * option DomainError.t :=
  if String.eqb (subject message) "" then ([], Some (sendError None))
  else if String.eqb (html message) "" && String.eqb (text message) "" then
    ([], Some (sendError None))
  else if negb (transporterReady smtp) then ([], Some (sendError None))
  else
    match sendMail smtp message with
    | Some code => ([message], Some (sendError code))
    | None => ([message], None)
    end.

End SmtpEmailNotifier.

(** ** A run, in closed form

    What the loop of [execute] builds when it completes and what its last
    lines then return, as functions of the loaded products; [run_execute]
    below relates them to [execute]. *)

Module Batch.

Import CheckAndNotifyReplenishment.

(** The result row of a product whose due date, if it has one, is valid. *)
Definition rowOf (product : Product.t) (decision : ReplenishmentPolicy.Decision)
    : ResultItem :=
  mkResultItem
    (Product.id product)
    (Product.name product)
    (Product.brand product)
    (Product.unit product)
    (Product.qtyRemaining product)
    (ReplenishmentPolicy.currentStock decision)
    (Product.getAvgDailyConsumption product)
    (ReplenishmentPolicy.daysUntilDepletion decision)
    (ReplenishmentPolicy.daysSinceReplenishment decision)
    (ReplenishmentPolicy.needsReplenishment decision)
    (ReplenishmentPolicy.recommendedOrderQty decision)
    (match ReplenishmentPolicy.replenishByDate decision with
     | Some ms => Some (JsDate.isoDate ms)
     | None => None
     end)
    (ReplenishmentPolicy.reasonString (ReplenishmentPolicy.reason decision))
    (Product.buy product).

(** The decision has no due date or a valid one: its row can be built. *)
Definition representable (decision : ReplenishmentPolicy.Decision) : bool :=
  match ReplenishmentPolicy.replenishByDate decision with
  | Some ms => JsDate.isValid ms
  | None => true
  end.

(** Every due date of the batch is a valid date. *)
Definition dueDatesValid (po : PolicyOverrides) (now : Z)
    (products : list Product.t) : bool :=
  forallb (fun product => representable (decide po now product)) products.

Definition resultsOf (po : PolicyOverrides) (now : Z) (products : list Product.t)
    : list ResultItem :=
  map (fun product => rowOf product (decide po now product)) products.

Definition updatesOf (po : PolicyOverrides) (now : Z) (products : list Product.t)
    : list Product.t :=
  map (fun product => updatedProduct po now product (decide po now product))
      products.

Definition itemsToNotifyOf (po : PolicyOverrides) (now : Z)
    (products : list Product.t) : list ResultItem :=
  filter needsReplenishment (resultsOf po now products).

Definition saveOptionsOf (po : PolicyOverrides) : SaveOptions :=
  mkSaveOptions (updateCalculatedQuantities po || false) false.

Definition prefixOf (n : Notification) : string :=
  match subjectPrefix n with
  | Some s => if String.eqb s "" then "[Home Inventory]"%string else s
  | None => "[Home Inventory]"%string
  end.

Definition messageOf (T : Templates) (params : Params) (now : Z)
    (products : list Product.t) : EmailMessage :=
  _buildEmailMessage T
    (itemsToNotifyOf (policyOverrides params) now products) now
    (prefixOf (notification params)) (dryRun (notification params)).

Definition policyOf (po : PolicyOverrides) (products : list Product.t) : Policy :=
  mkPolicy
    (Js.orElse (overrideTargetWindowDays po)
       (match products with
        | p :: _ => Product.leadTimeDays p + Product.safetyStockDays p
        | [] => 5
        end))
    (Js.orElse (reviewHorizonDays po) 14).

Definition summaryOf (params : Params) (now : Z) (products : list Product.t)
    : Summary :=
  mkSummary
    (List.length products)
    (List.length (itemsToNotifyOf (policyOverrides params) now products))
    (JsDate.toISOString now)
    (policyOf (policyOverrides params) products)
    (resultsOf (policyOverrides params) now products).

(** The messages handed to the notifier, and the batches handed to the
    repository, in a trace. *)
Definition sends (trace : list Event) : list EmailMessage :=
  flat_map (fun ev => match ev with CallSend m => [m] | _ => [] end) trace.

Definition saves (trace : list Event) : list (list Product.t * SaveOptions) :=
  flat_map (fun ev => match ev with
                      | CallSaveProducts u o => [(u, o)]
                      | _ => []
                      end) trace.

(** The same parameters with another [dryRun]. *)
Definition withDryRun (b : bool) (params : Params) : Params :=
  mkParams (policyOverrides params)
    (mkNotification (enabled (notification params)) b
                    (subjectPrefix (notification params))).

End Batch.

(** ** The items of the worked examples *)

Module Examples.

(** The shampoo of the examples: 8 a day, lead time 2, safety stock 3,
    packs of 250, never replenished, no subscription. *)
Definition shampoo (qtyRemaining : Q) : Product.t :=
  Product.mk "abc-001" "Shampoo Repair" (Some "BrandZ"%string) "ml"
    qtyRemaining (Some 8) None None None None 2 3 None (Some 250)
    false None None None None.

(** An item with nothing left, no consumption rate, a minimum order of 3
    and packs of 5. *)
Definition emptyJar : Product.t :=
  Product.mk "jar-007" "Jam" None "count"
    0 None None None None None 2 3 (Some 3) (Some 5)
    false None None None None.

(** An item with nothing recorded as left, whose last replenishment is
    dated one day after the evaluation. *)
Definition restockedTomorrow : Product.t :=
  Product.mk "soap-002" "Soap" None "count"
    0 (Some 8) None (Some 86400000%Z) None None 2 3 None None
    false None None None None.

(** An item under subscription. *)
Definition subscribed : Product.t :=
  Product.mk "tea-003" "Tea" None "g"
    10 (Some 5) None None (Some (mkAutoSubscription true None)) None 2 3 None None
    false None None None None.

(** An item hoarded for 10^12 days of use, with a safety stock as long. *)
Definition hoard : Product.t :=
  Product.mk "rice-009" "Rice" None "g"
    1000000000000 (Some 1) None None None None 0 1000000000000 None None
    false None None None None.

(** The options of a run that overrides nothing, evaluated at [now]. *)
Definition defaults (now : Z) : ReplenishmentPolicy.Options :=
  ReplenishmentPolicy.mkOptions now Js.JUndefined Js.JUndefined true.


(** Templates for the examples: one line per item, its name. *)
Definition names (items : list CheckAndNotifyReplenishment.ResultItem) : string :=
  String.concat ", " (map CheckAndNotifyReplenishment.name items).

Definition templates : CheckAndNotifyReplenishment.Templates :=
  CheckAndNotifyReplenishment.mkTemplates
    (fun items _ _ => names items) (fun items _ _ => names items).

(** Collaborators that never throw, over a given inventory. *)
Definition quietPorts (products : list Product.t)
    : CheckAndNotifyReplenishment.Ports :=
  CheckAndNotifyReplenishment.mkPorts
    (inr products) (fun _ _ => None) (fun _ => None).

(** Collaborators whose writes and sends always throw. *)
Definition failingPorts (products : list Product.t)
    : CheckAndNotifyReplenishment.Ports :=
  CheckAndNotifyReplenishment.mkPorts
    (inr products)
    (fun _ _ => Some (DomainError.AdapterError "Failed to save to Google Sheets"
                        "google_sheets"))
    (fun _ => Some (DomainError.AdapterError "Failed to send email notification"
                      "smtp")).

Definition params (window horizon : Js.JsNum) (dryRun : bool)
    : CheckAndNotifyReplenishment.Params :=
  CheckAndNotifyReplenishment.mkParams
    (CheckAndNotifyReplenishment.mkPolicyOverrides horizon window None false)
    (CheckAndNotifyReplenishment.mkNotification true dryRun None).

(** An inventory of three: one item to reorder, two that are not. *)
Definition inventory : list Product.t :=
  [shampoo 250; shampoo 30; subscribed].

(** A runtime for the examples.  It agrees with the host on what the
    examples hold: ASCII text without exotic white space and unsigned
    decimal integers; it reads no dates. *)
Definition isSpace (c : ascii) : bool :=
  let n := nat_of_ascii c in
  (Nat.eqb n 32 || ((9 <=? n) && (n <=? 13)))%nat.

Fixpoint trimStart (s : string) : string :=
  match s with
  | String c s' => if isSpace c then trimStart s' else s
  | EmptyString => EmptyString
  end.

Definition reverse (s : string) : string :=
  string_of_list_ascii (rev (list_ascii_of_string s)).

Definition trimAscii (s : string) : string :=
  reverse (trimStart (reverse (trimStart s))).

Definition lowerAscii (s : string) : string :=
  string_of_list_ascii
    (map (fun c =>
            let n := nat_of_ascii c in
            if ((65 <=? n) && (n <=? 90))%nat then ascii_of_nat (n + 32) else c)
         (list_ascii_of_string s)).

Fixpoint readDigits (s : string) (acc : Z) : option Z :=
  match s with
  | EmptyString => Some acc
  | String c s' =>
      let n := nat_of_ascii c in
      if ((48 <=? n) && (n <=? 57))%nat
      then readDigits s' (10 * acc + Z.of_nat (n - 48))%Z
      else None
  end.

Definition runtime : Js.Runtime :=
  Js.mkRuntime
    (fun s => match readDigits (trimAscii s) 0 with
              | Some z => Some (inject_Z z)
              | None => None
              end)
    (fun q => NilZero.string_of_int (Z.to_int (Qfloor q)))
    (fun _ => None)
    trimAscii
    lowerAscii.

(** A sheet: the header and one row that stops after the unit, its
    quantity cell left out. *)
Definition sheetWithoutQuantity : list SheetRowMapper.Row :=
  [ [Js.VString "id"; Js.VString "name"; Js.VString "brand"; Js.VString "unit";
     Js.VString "qty_remaining"];
    [Js.VString "abc-001"; Js.VString "Shampoo Repair"; Js.VString "BrandZ";
     Js.VString "ml"] ].

End Examples.

(** * Properties *)

Import ReplenishmentPolicy.

(** ** Numbers *)

Lemma Qlt_bool_iff (x y : Q) : Js.Qlt_bool x y = true <-> x < y.
Proof.
  unfold Js.Qlt_bool. rewrite negb_true_iff.
  split; intros H.
  - apply Qnot_le_lt. intros Hle.
    apply Qle_bool_iff in Hle. congruence.
  - destruct (Qle_bool y x) eqn:E; [|reflexivity].
    apply Qle_bool_iff in E. exfalso. exact (Qlt_not_le _ _ H E).
Qed.

Lemma Qle_bool_false_iff (x y : Q) : Qle_bool x y = false <-> y < x.
Proof.
  rewrite <- Qlt_bool_iff. unfold Js.Qlt_bool.
  destruct (Qle_bool x y); simpl; intuition congruence.
Qed.

Lemma truthy_pos (x : Q) : 0 < x -> Js.truthy x = true.
Proof.
  intros H. unfold Js.truthy. apply negb_true_iff.
  destruct (Qeq_bool x 0) eqn:E; [|reflexivity].
  apply Qeq_bool_iff in E. rewrite E in H. exfalso. exact (Qlt_irrefl _ H).
Qed.

Lemma truthy_false_iff (x : Q) : Js.truthy x = false <-> x == 0.
Proof.
  unfold Js.truthy. rewrite negb_false_iff. apply Qeq_bool_iff.
Qed.

(** A rate that passes the engine's guard [!avgDaily || avgDaily <= 0]. *)
Lemma rate_guard_pos (e : Q) :
  0 < e -> negb (Js.truthy e) || Qle_bool e 0 = false.
Proof.
  intros H. rewrite (truthy_pos e H). simpl.
  apply Qle_bool_false_iff. exact H.
Qed.

Lemma rate_guard_nonpos (e : Q) :
  e <= 0 -> negb (Js.truthy e) || Qle_bool e 0 = true.
Proof.
  intros H. apply orb_true_iff. right. apply Qle_bool_iff. exact H.
Qed.

Lemma max_ge_l (x y : Q) : x <= Js.max x y.
Proof. apply Q.le_max_l. Qed.

Lemma max_ge_r (x y : Q) : y <= Js.max x y.
Proof. apply Q.le_max_r. Qed.

(** ** [Product] *)

(** In the rationals, the effective daily rate, when there is one, is
    positive: the quotient of a positive monthly rate does not vanish. *)
Lemma getAvgDailyConsumption_pos (p : Product.t) (e : Q) :
  Product.getAvgDailyConsumption p = Some e -> 0 < e.
Proof.
  unfold Product.getAvgDailyConsumption.
  assert (Hm : forall r,
    match Product.avgMonthlyConsumption p with
    | Some m => if Js.Qlt_bool 0 m then Some (m / (3044 # 100)) else None
    | None => None
    end = Some r -> 0 < r).
  { intros r. destruct (Product.avgMonthlyConsumption p) as [m|]; [|discriminate].
    destruct (Js.Qlt_bool 0 m) eqn:E; [|discriminate].
    intros H. injection H as <-. apply Qlt_bool_iff in E.
    apply Qlt_shift_div_l; [reflexivity|]. rewrite Qmult_0_l. exact E. }
  destruct (Product.avgDailyConsumption p) as [d|]; [|apply Hm].
  destruct (Js.Qlt_bool 0 d) eqn:E; [|apply Hm].
  intros H. injection H as <-. apply Qlt_bool_iff. exact E.
Qed.

(** The daily rate has precedence over the monthly one; the monthly one is
    divided by 30.44. *)
Lemma getAvgDailyConsumption_daily (p : Product.t) (d : Q) :
  Product.avgDailyConsumption p = Some d -> 0 < d ->
  Product.getAvgDailyConsumption p = Some d.
Proof.
  intros Hd Hpos. unfold Product.getAvgDailyConsumption. rewrite Hd.
  apply Qlt_bool_iff in Hpos. rewrite Hpos. reflexivity.
Qed.

Lemma calculateCurrentStock_projected (p : Product.t) (now last : Z) (e : Q) :
  Product.lastReplenishedAt p = Some last ->
  ~ Product.qtyRemaining p == 0 ->
  Product.getAvgDailyConsumption p = Some e ->
  Product.calculateCurrentStock p now =
    Js.max 0 (Product.qtyRemaining p - e * Product.daysBetween now last).
Proof.
  intros Hl Hq He. unfold Product.calculateCurrentStock.
  rewrite Hl, He.
  destruct (Js.truthy (Product.qtyRemaining p)) eqn:Et.
  - simpl. rewrite (rate_guard_pos e (getAvgDailyConsumption_pos p e He)).
    reflexivity.
  - apply truthy_false_iff in Et. contradiction.
Qed.

Lemma calculateCurrentStock_stored (p : Product.t) (now : Z) :
  Product.lastReplenishedAt p = None \/
  Product.qtyRemaining p == 0 \/
  Product.getAvgDailyConsumption p = None ->
  Product.calculateCurrentStock p now = Product.qtyRemaining p.
Proof.
  intros H. unfold Product.calculateCurrentStock.
  destruct (Product.lastReplenishedAt p) as [last|]; [|reflexivity].
  destruct (Js.truthy (Product.qtyRemaining p)) eqn:Et; [|reflexivity].
  simpl. destruct H as [H|[H|H]].
  - discriminate.
  - apply truthy_false_iff in H. congruence.
  - rewrite H. reflexivity.
Qed.

(** ** The decision engine *)

(** The stock the engine works with: projected when [autoDecrementStock] is
    on, the stored quantity otherwise. *)
Lemma currentStock_computeDecision (p : Product.t) (o : Options) :
  currentStock (computeDecision p o) =
    if autoDecrementStock o
    then Product.calculateCurrentStock p (now o)
    else Product.qtyRemaining p.
Proof.
  unfold computeDecision.
  destruct (Product.hasAutoSubscription p); [reflexivity|].
  destruct (Product.getAvgDailyConsumption p) as [e|]; [|reflexivity].
  destruct (negb (Js.truthy e) || Qle_bool e 0); reflexivity.
Qed.

(** C1. Without a subscription and with a positive effective daily rate [e],
    the days until depletion are [currentStock / e]; the target window is the
    override when one is given, else lead time plus safety stock; the item
    needs replenishment exactly when the days until depletion are within the
    window; then the reason is [within_target_window] and the quantity is the
    order constraints applied to
    [ceil (max 0 ((window + reviewHorizon) * e - currentStock))]; otherwise the
    reason is [sufficient_stock] and quantity and date are null. *)
Theorem C1_normal_case (p : Product.t) (o : Options) (e : Q) :
  Product.hasAutoSubscription p = false ->
  Product.getAvgDailyConsumption p = Some e ->
  0 < e ->
  let d := computeDecision p o in
  let stock := currentStock d in
  let targetWindowDays :=
    match overrideTargetWindowDays o with
    | Js.JNumber w => w
    | _ => Product.leadTimeDays p + Product.safetyStockDays p
    end in
  let reviewHorizon := Js.withDefault (reviewHorizonDays o) 14 in
  let rawTargetQty :=
    Js.ceil (Js.max 0 ((targetWindowDays + reviewHorizon) * e - stock)) in
  daysUntilDepletion d = Some (stock / e) /\
  (needsReplenishment d = true <-> stock / e <= targetWindowDays) /\
  (needsReplenishment d = true ->
     reason d = within_target_window /\
     recommendedOrderQty d = Some (_applyOrderConstraints rawTargetQty p)) /\
  (needsReplenishment d = false ->
     reason d = sufficient_stock /\
     recommendedOrderQty d = None /\
     replenishByDate d = None).
Proof.
  intros Hsub He Hpos. cbv zeta.
  rewrite currentStock_computeDecision.
  unfold computeDecision. rewrite Hsub, He, (rate_guard_pos e Hpos).
  cbv zeta. cbn [daysUntilDepletion needsReplenishment reason
                 recommendedOrderQty replenishByDate].
  set (stock := if autoDecrementStock o
                then Product.calculateCurrentStock p (now o)
                else Product.qtyRemaining p).
  assert (Hw : Js.nullish (overrideTargetWindowDays o)
                 (Product.leadTimeDays p + Product.safetyStockDays p) =
               match overrideTargetWindowDays o with
               | Js.JNumber w => w
               | _ => Product.leadTimeDays p + Product.safetyStockDays p
               end).
  { unfold Js.nullish. destruct (overrideTargetWindowDays o); reflexivity. }
  rewrite Hw. clear Hw.
  split; [reflexivity|]. split; [apply Qle_bool_iff|].
  split; intros Hn; rewrite Hn; repeat split; reflexivity.
Qed.

Lemma C1_normal_case_witness :
  let p := Examples.shampoo 30 in
  let d := computeDecision p (Examples.defaults 0) in
  daysUntilDepletion d = Some (30 / 8) /\
  needsReplenishment d = true /\
  reason d = within_target_window /\
  (exists q, recommendedOrderQty d = Some q /\ q == 250).
Proof.
  pose proof (C1_normal_case (Examples.shampoo 30) (Examples.defaults 0) 8
                eq_refl eq_refl eq_refl) as H.
  cbv zeta in H. destruct H as (Hd & Hn & Hy & _).
  assert (Hneeds : needsReplenishment
                     (computeDecision (Examples.shampoo 30) (Examples.defaults 0))
                   = true).
  { apply Hn. vm_compute. discriminate. }
  destruct (Hy Hneeds) as (Hr & Hq).
  cbv zeta. split; [exact Hd|]. split; [exact Hneeds|]. split; [exact Hr|].
  eexists. split; [exact Hq|]. vm_compute. reflexivity.
Defined.

(** The other worked example: 250 ml last 31.25 days, more than the window
    of 5, so nothing is ordered. *)
Example shampoo_250_sufficient :
  let d := computeDecision (Examples.shampoo 250) (Examples.defaults 0) in
  (exists q, daysUntilDepletion d = Some q /\ q == 3125 # 100) /\
  needsReplenishment d = false /\
  reason d = sufficient_stock /\
  recommendedOrderQty d = None /\
  replenishByDate d = None.
Proof.
  cbv zeta. split; [eexists; split; [reflexivity|vm_compute; reflexivity]|].
  repeat split; reflexivity.
Qed.



(** The worked example: nothing left, no rate, no minimum order, no pack
    size: one unit is ordered. *)
Example depleted_orders_one :
  let p :=
    Product.mk "x" "y" None "count" 0 None None None None None 2 3 None None
      false None None None None in
  let d := computeDecision p (Examples.defaults 0) in
  recommendedOrderQty d = Some 1 /\ reason d = depleted_or_invalid.
Proof. split; reflexivity. Qed.

(** C4. Under an active subscription, whatever the other fields and the
    options: no replenishment, reason [auto_subscription_active], quantity
    and date null, and the days until depletion are [currentStock / e] when
    there is a positive effective daily rate [e], null otherwise. *)
Theorem C4_auto_subscription (p : Product.t) (o : Options) :
  Product.hasAutoSubscription p = true ->
  let d := computeDecision p o in
  needsReplenishment d = false /\
  reason d = auto_subscription_active /\
  recommendedOrderQty d = None /\
  replenishByDate d = None /\
  (forall e, Product.getAvgDailyConsumption p = Some e -> 0 < e ->
     daysUntilDepletion d = Some (currentStock d / e)) /\
  (forall e, Product.getAvgDailyConsumption p = Some e -> e <= 0 ->
     daysUntilDepletion d = None) /\
  (Product.getAvgDailyConsumption p = None -> daysUntilDepletion d = None).
Proof.
  intros Hsub. cbv zeta. rewrite currentStock_computeDecision.
  unfold computeDecision. rewrite Hsub.
  cbn [daysUntilDepletion needsReplenishment reason
       recommendedOrderQty replenishByDate].
  repeat apply conj; try reflexivity.
  - intros e He Hpos. rewrite He, (truthy_pos e Hpos).
    apply Qlt_bool_iff in Hpos. rewrite Hpos. reflexivity.
  - intros e He Hle. rewrite He.
    assert (Hlt : Js.Qlt_bool 0 e = false).
    { unfold Js.Qlt_bool. apply negb_false_iff. apply Qle_bool_iff. exact Hle. }
    rewrite Hlt, andb_false_r. reflexivity.
  - intros He. rewrite He. reflexivity.
Qed.

Lemma C4_auto_subscription_witness :
  let d := computeDecision Examples.subscribed (Examples.defaults 0) in
  needsReplenishment d = false /\
  reason d = auto_subscription_active /\
  recommendedOrderQty d = None /\
  replenishByDate d = None /\
  daysUntilDepletion d = Some (10 / 5).
Proof.
  pose proof (C4_auto_subscription Examples.subscribed (Examples.defaults 0)
                eq_refl) as H.
  cbv zeta in H. destruct H as (Hn & Hr & Hq & Hd & Hsome & _ & _).
  exact (conj Hn (conj Hr (conj Hq (conj Hd (Hsome 5 eq_refl eq_refl))))).
Defined.

(** ** The stock the engine works with *)

(** C2, as the code has it. With projection on, a last replenishment on
    record, a stored quantity other than 0 and a positive effective daily
    rate [e], the current stock is
    [max 0 (qtyRemaining - e * daysElapsed)], for every [now], before the last
    replenishment included; in every other case (projection off, no last
    replenishment, no rate, or a stored quantity of 0) it is the stored
    quantity. *)
Theorem C2_current_stock (p : Product.t) (o : Options) :
  let d := computeDecision p o in
  (autoDecrementStock o = true ->
   forall last e,
     Product.lastReplenishedAt p = Some last ->
     Product.getAvgDailyConsumption p = Some e ->
     0 < e ->
     ~ Product.qtyRemaining p == 0 ->
     currentStock d =
       Js.max 0 (Product.qtyRemaining p - e * Product.daysBetween (now o) last)) /\
  (autoDecrementStock o = false \/
   Product.lastReplenishedAt p = None \/
   Product.getAvgDailyConsumption p = None \/
   Product.qtyRemaining p == 0 ->
   currentStock d = Product.qtyRemaining p).
Proof.
  cbv zeta. rewrite currentStock_computeDecision. split.
  - intros Hon last e Hl He _ Hq. rewrite Hon.
    apply calculateCurrentStock_projected; assumption.
  - intros H. destruct (autoDecrementStock o) eqn:Hon; [|reflexivity].
    apply calculateCurrentStock_stored.
    destruct H as [H|[H|[H|H]]]; [discriminate|tauto..].
Qed.

(** A bottle of 100 at 8 a day, replenished at the epoch, two days later. *)
Lemma C2_current_stock_witness :
  let p :=
    Product.mk "b" "Bottle" None "ml" 100 (Some 8) None (Some 0%Z) None None
      2 3 None None false None None None None in
  let o := Examples.defaults 172800000 in
  currentStock (computeDecision p o) =
    Js.max 0 (100 - 8 * Product.daysBetween 172800000 0) /\
  currentStock (computeDecision p o) == 84.
Proof.
  cbv zeta. split.
  - apply (C2_current_stock
             (Product.mk "b" "Bottle" None "ml" 100 (Some 8) None (Some 0%Z)
                None None 2 3 None None false None None None None)
             (Examples.defaults 172800000)).
    + reflexivity.
    + reflexivity.
    + reflexivity.
    + reflexivity.
    + vm_compute. discriminate.
  - vm_compute. reflexivity.
Defined.

(** C2 without the condition on the stored quantity fails.  With nothing
    recorded as left and a last replenishment dated after [now], the
    projection [max 0 (0 - 8 * (-1))] is 8; the engine answers 0, the stored
    quantity. *)
Lemma C2_counterexample :
  let p := Examples.restockedTomorrow in
  let o := Examples.defaults 0 in
  autoDecrementStock o = true /\
  Product.lastReplenishedAt p = Some 86400000%Z /\
  Product.getAvgDailyConsumption p = Some 8 /\
  Js.max 0 (Product.qtyRemaining p - 8 * Product.daysBetween (now o) 86400000) == 8 /\
  currentStock (computeDecision p o) == 0 /\
  ~ currentStock (computeDecision p o) ==
      Js.max 0 (Product.qtyRemaining p - 8 * Product.daysBetween (now o) 86400000).
Proof.
  cbv zeta. repeat split; try reflexivity.
  vm_compute. discriminate.
Qed.

(** Where the evaluation is not before the last replenishment, a stored
    quantity of 0 and its projection agree: both are 0. *)
Lemma projection_of_nothing (p : Product.t) (now last : Z) (e : Q) :
  Product.qtyRemaining p == 0 -> 0 < e -> (last <= now)%Z ->
  Js.max 0 (Product.qtyRemaining p - e * Product.daysBetween now last) == 0.
Proof.
  intros Hq He Hle. unfold Js.max. apply Q.max_l.
  rewrite Hq. unfold Product.daysBetween.
  assert (Hd : 0 <= inject_Z (now - last) / inject_Z (1000 * 60 * 60 * 24)).
  { apply Qle_shift_div_l; [reflexivity|]. rewrite Qmult_0_l.
    change (inject_Z 0 <= inject_Z (now - last)).
    rewrite <- Zle_Qle. lia. }
  assert (Hm : 0 <= e * (inject_Z (now - last) / inject_Z (1000 * 60 * 60 * 24))).
  { apply Qmult_le_0_compat; [apply Qlt_le_weak; exact He | exact Hd]. }
  setoid_replace (0 - e * (inject_Z (now - last) / inject_Z (1000 * 60 * 60 * 24)))
    with (- (e * (inject_Z (now - last) / inject_Z (1000 * 60 * 60 * 24)))) by ring.
  apply (Qopp_le_compat 0) in Hm. exact Hm.
Qed.

(** ** Order constraints *)

Lemma orNum_min_le (m : Q) : m <= Js.orNum (Some m) 1.
Proof.
  unfold Js.orNum. destruct (Js.truthy m) eqn:E.
  - apply Qle_refl.
  - apply truthy_false_iff in E. rewrite E. discriminate.
Qed.

(** In the rationals, rounding up to packs does not lower a quantity. *)
Lemma pack_round_up_ge (qty packSize : Q) :
  0 < packSize -> qty <= Js.ceil (qty / packSize) * packSize.
Proof.
  intros Hp. unfold Js.ceil.
  apply Qle_trans with (qty / packSize * packSize).
  - unfold Qdiv. rewrite <- Qmult_assoc, (Qmult_comm (/ packSize)).
    rewrite Qmult_inv_r, Qmult_1_r; [apply Qle_refl|].
    intros H0. rewrite H0 in Hp. exact (Qlt_irrefl _ Hp).
  - apply Qmult_le_compat_r; [apply Qle_ceiling | apply Qlt_le_weak; exact Hp].
Qed.

(** In the rationals, [_applyOrderConstraints] honours the minimum order
    quantity ... *)
Lemma applyOrderConstraints_min (baseQty : Q) (p : Product.t) (m : Q) :
  Product.minOrderQty p = Some m -> m <= _applyOrderConstraints baseQty p.
Proof.
  intros Hm. unfold _applyOrderConstraints. rewrite Hm.
  assert (Hq : m <= Js.max baseQty (Js.orNum (Some m) 1)).
  { apply Qle_trans with (Js.orNum (Some m) 1);
      [apply orNum_min_le | apply max_ge_r]. }
  destruct (Product.packSize p) as [ps|]; [|exact Hq].
  destruct (Js.truthy ps && Js.Qlt_bool 1 ps) eqn:E; [|exact Hq].
  apply andb_true_iff in E. destruct E as [_ E]. apply Qlt_bool_iff in E.
  apply Qle_trans with (Js.max baseQty (Js.orNum (Some m) 1)); [exact Hq|].
  apply pack_round_up_ge. apply Qlt_trans with 1; [reflexivity | exact E].
Qed.

(** ... and returns whole packs when the pack size exceeds 1. *)
Lemma applyOrderConstraints_multiple (baseQty : Q) (p : Product.t) (ps : Q) :
  Product.packSize p = Some ps -> 1 < ps ->
  exists k : Z, _applyOrderConstraints baseQty p = inject_Z k * ps.
Proof.
  intros Hp Hgt. unfold _applyOrderConstraints. rewrite Hp.
  rewrite truthy_pos by (apply Qlt_trans with 1; [reflexivity | exact Hgt]).
  apply Qlt_bool_iff in Hgt. rewrite Hgt. simpl.
  eexists. unfold Js.ceil. reflexivity.
Qed.

(** In the rationals, whenever a quantity is recommended, in either branch,
    it is at least the minimum order quantity. *)
Lemma recommendedOrderQty_min (p : Product.t) (o : Options) (q m : Q) :
  recommendedOrderQty (computeDecision p o) = Some q ->
  Product.minOrderQty p = Some m ->
  m <= q.
Proof.
  intros Hq Hm. unfold computeDecision in Hq.
  assert (Hinv : forall stock,
    (if Qle_bool stock 0
     then Some (Js.max 1 (Js.orNum (Product.minOrderQty p)
                                   (Js.orNum (Product.packSize p) 1)))
     else None) = Some q -> m <= q).
  { intros stock H. destruct (Qle_bool stock 0); [|discriminate].
    injection H as <-. rewrite Hm.
    unfold Js.orNum at 1. destruct (Js.truthy m) eqn:E.
    - apply max_ge_r.
    - apply truthy_false_iff in E. rewrite E.
      apply Qle_trans with 1; [discriminate | apply max_ge_l]. }
  destruct (Product.hasAutoSubscription p); [discriminate|].
  destruct (Product.getAvgDailyConsumption p) as [e|]; [|exact (Hinv _ Hq)].
  destruct (negb (Js.truthy e) || Qle_bool e 0); [exact (Hinv _ Hq)|].
  cbn [recommendedOrderQty] in Hq.
  match type of Hq with
  | (if ?b then _ else _) = _ => destruct b; [|discriminate]
  end.
  injection Hq as <-. apply applyOrderConstraints_min. exact Hm.
Qed.

(** In the [within_target_window] branch the quantity is a whole number of
    packs when the pack size exceeds 1. *)
Lemma within_target_window_multiple (p : Product.t) (o : Options) (q ps : Q) :
  reason (computeDecision p o) = within_target_window ->
  recommendedOrderQty (computeDecision p o) = Some q ->
  Product.packSize p = Some ps -> 1 < ps ->
  exists k : Z, q = inject_Z k * ps.
Proof.
  intros Hr Hq Hp Hgt. unfold computeDecision in Hr, Hq.
  destruct (Product.hasAutoSubscription p); [discriminate|].
  destruct (Product.getAvgDailyConsumption p) as [e|].
  - destruct (negb (Js.truthy e) || Qle_bool e 0).
    + cbn [reason] in Hr. destruct (Qle_bool _ 0); discriminate.
    + cbn [recommendedOrderQty] in Hq.
      match type of Hq with
      | (if ?b then _ else _) = _ => destruct b; [|discriminate]
      end.
      injection Hq as <-. apply applyOrderConstraints_multiple; assumption.
  - cbn [reason] in Hr. destruct (Qle_bool _ 0); discriminate.
Qed.

(** C5, at the input where the code departs from it. Nothing left, no rate,
    a minimum order of 3 and packs of 5: the [depleted_or_invalid] branch
    recommends 3, which is no whole number of packs of 5.  (The minimum of
    3 is honoured; whole packs are returned in the other branch,
    [within_target_window_multiple].) *)
Theorem C5_depleted_ignores_pack_size :
  let p := Examples.emptyJar in
  let d := computeDecision p (Examples.defaults 0) in
  reason d = depleted_or_invalid /\
  recommendedOrderQty d = Some 3 /\
  Product.packSize p = Some 5 /\
  1 < 5 /\
  ~ exists k : Z, 3 == inject_Z k * 5.
Proof.
  cbv zeta. repeat split.
  intros [k Hk]. unfold Qeq in Hk. simpl in Hk. lia.
Qed.

(** What [_applyOrderConstraints] returns for the same item, from the
    smallest base quantity: one pack of 5. *)
Example emptyJar_constrained :
  _applyOrderConstraints 1 Examples.emptyJar == 5.
Proof. vm_compute. reflexivity. Qed.

(** ** Calendar dates *)

Lemma length_append (a b : string) :
  String.length (a ++ b) = (String.length a + String.length b)%nat.
Proof.
  induction a as [|c a IH]; simpl; [reflexivity|]. rewrite IH. reflexivity.
Qed.

Lemma substring_0_append (n : nat) (a b : string) :
  (n <= String.length a)%nat -> substring 0 n (a ++ b) = substring 0 n a.
Proof.
  revert a. induction n as [|n IH]; intros a Hn.
  - destruct a; destruct b; reflexivity.
  - destruct a as [|c a]; simpl in Hn; [lia|].
    simpl. rewrite IH by lia. reflexivity.
Qed.

Lemma length_substring_0 (n : nat) (a : string) :
  (n <= String.length a)%nat -> String.length (substring 0 n a) = n.
Proof.
  revert a. induction n as [|n IH]; intros a Hn.
  - destruct a; reflexivity.
  - destruct a as [|c a]; simpl in Hn; [lia|].
    simpl. rewrite IH by lia. reflexivity.
Qed.

Lemma length_digits (w : nat) (n : Z) : String.length (JsDate.digits w n) = w.
Proof.
  revert n. induction w as [|w IH]; intros n; simpl; [reflexivity|].
  rewrite length_append, IH. simpl. lia.
Qed.

Lemma length_dateString (d : Z) : (10 <= String.length (JsDate.dateString d))%nat.
Proof.
  unfold JsDate.dateString. destruct (JsDate.civil d) as [[y m] dom].
  repeat rewrite length_append. repeat rewrite length_digits.
  unfold JsDate.yearString.
  destruct ((0 <=? y)%Z && (y <=? 9999)%Z).
  - rewrite length_digits. simpl. lia.
  - destruct (y <? 0)%Z; rewrite length_append, length_digits; simpl; lia.
Qed.

(** The calendar date is cut from the date part alone: it has ten characters
    and depends on the UTC day only, not on the time of day. *)
Lemma isoDate_dateString (ms : Z) :
  JsDate.isoDate ms = substring 0 10 (JsDate.dateString (JsDate.day ms)).
Proof.
  unfold JsDate.isoDate, JsDate.slice_0_10, JsDate.toISOString.
  apply substring_0_append. apply length_dateString.
Qed.

Lemma length_isoDate (ms : Z) : String.length (JsDate.isoDate ms) = 10%nat.
Proof.
  rewrite isoDate_dateString. apply length_substring_0. apply length_dateString.
Qed.


Lemma dateOrNull_Some (ms : Z) :
  JsDate.isValid ms = true ->
  CheckAndNotifyReplenishment.dateOrNull (Some ms) = inr (Some (JsDate.isoDate ms)).
Proof.
  intros Hv. unfold CheckAndNotifyReplenishment.dateOrNull. rewrite Hv.
  fold (JsDate.isoDate ms).
  destruct (String.eqb (JsDate.isoDate ms) "") eqn:E; [|reflexivity].
  apply String.eqb_eq in E. pose proof (length_isoDate ms) as L.
  rewrite E in L. discriminate.
Qed.

(** Building a result row returns the row when the decision has no due date
    or a valid one, and throws otherwise. *)
Lemma resultItem_rowOf (p : Product.t) (d : Decision) :
  CheckAndNotifyReplenishment.resultItem p d =
    if Batch.representable d then inr (Batch.rowOf p d)
    else inl DomainError.rangeError.
Proof.
  unfold CheckAndNotifyReplenishment.resultItem, Batch.representable, Batch.rowOf.
  destruct (replenishByDate d) as [ms|]; [|reflexivity].
  destruct (JsDate.isValid ms) eqn:Hv.
  - rewrite (dateOrNull_Some ms Hv). reflexivity.
  - unfold CheckAndNotifyReplenishment.dateOrNull. rewrite Hv. reflexivity.
Qed.

(** A number that is whole is its own truncation. *)
Lemma toIntegerOrInfinity_whole (x : Q) (z : Z) :
  x == inject_Z z -> Js.toIntegerOrInfinity x = z.
Proof.
  intros H. unfold Js.toIntegerOrInfinity.
  destruct (Qle_bool 0 x).
  - rewrite H. apply Qfloor_Z.
  - rewrite H. apply Qceiling_Z.
Qed.

(** ** The replenish-by date *)

(** The decision of the normal case, written out. *)
Lemma computeDecision_normal (p : Product.t) (o : Options) (e : Q) :
  Product.hasAutoSubscription p = false ->
  Product.getAvgDailyConsumption p = Some e ->
  0 < e ->
  let stock := currentStock (computeDecision p o) in
  let days := stock / e in
  let window :=
    Js.nullish (overrideTargetWindowDays o)
      (Product.leadTimeDays p + Product.safetyStockDays p) in
  let needs := Qle_bool days window in
  computeDecision p o =
    mkDecision
      needs
      (if needs
       then Some (_applyOrderConstraints
                    (Js.ceil (Js.max 0 ((window + Js.withDefault (reviewHorizonDays o) 14)
                                        * e - stock))) p)
       else None)
      (if needs
       then Some (JsDate.ofNumber
                    (inject_Z (now o) +
                     Js.max 0 (days - Product.leadTimeDays p) * inject_Z 86400000))
       else None)
      (if needs then within_target_window else sufficient_stock)
      (Some days)
      stock
      (Product.getDaysSinceLastReplenishment p (now o)).
Proof.
  intros Hsub He Hpos. cbv zeta. rewrite currentStock_computeDecision.
  unfold computeDecision. rewrite Hsub, He, (rate_guard_pos e Hpos).
  reflexivity.
Qed.







(** ** The use case *)

Import CheckAndNotifyReplenishment.
Import Batch.

(** The loop, in closed form: it throws exactly when some due date is not a
    valid date, and otherwise pushes one row and one update per product. *)
Lemma forEach_closed (po : PolicyOverrides) (now : Z) (products : list Product.t)
    (acc : list ResultItem * list Product.t) :
  forEach po now products acc =
    if dueDatesValid po now products
    then inr (fst acc ++ resultsOf po now products,
              snd acc ++ updatesOf po now products)
    else inl DomainError.rangeError.
Proof.
  revert acc. induction products as [|p ps IH]; intros [rs us]; simpl.
  - rewrite !app_nil_r. reflexivity.
  - unfold step. rewrite resultItem_rowOf.
    destruct (representable (decide po now p)); simpl; [|reflexivity].
    rewrite IH. simpl.
    destruct (dueDatesValid po now ps); [|reflexivity].
    rewrite <- !app_assoc. reflexivity.
Qed.

Lemma length_resultsOf (po : PolicyOverrides) (now : Z) (products : list Product.t) :
  List.length (resultsOf po now products) = List.length products.
Proof. apply length_map. Qed.


(** The first update carries the lead time and safety stock of the first
    product: the clone keeps them. *)
Lemma updatesOf_head (po : PolicyOverrides) (now : Z) (products : list Product.t) :
  match updatesOf po now products with
  | u :: _ => Product.leadTimeDays u + Product.safetyStockDays u
  | [] => 5
  end =
  match products with
  | p :: _ => Product.leadTimeDays p + Product.safetyStockDays p
  | [] => 5
  end.
Proof. destruct products; reflexivity. Qed.

(** A run whose read throws makes no other call. *)
Lemma run_execute_read_fails (ports : Ports) (T : Templates) (now : Z)
    (params : Params) (e : DomainError.t) :
  listProducts ports = inl e ->
  run (execute ports T now params) = ([CallListProducts], inl e).
Proof.
  intros Hl. unfold run, execute, bind, emit, throw. simpl. rewrite Hl. reflexivity.
Qed.

(** A run whose read returns and whose loop throws makes no other call. *)
Lemma run_execute_range_error (ports : Ports) (T : Templates) (now : Z)
    (params : Params) (products : list Product.t) :
  listProducts ports = inr products ->
  dueDatesValid (policyOverrides params) now products = false ->
  run (execute ports T now params) =
    ([CallListProducts], inl DomainError.rangeError).
Proof.
  intros Hl Hv. unfold run, execute, bind, emit, throw, ret. simpl.
  rewrite Hl. rewrite forEach_closed, Hv. reflexivity.
Qed.

(** A run whose read returns and whose loop completes, call by call. *)
Lemma run_execute (ports : Ports) (T : Templates) (now : Z) (params : Params)
    (products : list Product.t) :
  listProducts ports = inr products ->
  dueDatesValid (policyOverrides params) now products = true ->
  let po := policyOverrides params in
  let updates := updatesOf po now products in
  let options := saveOptionsOf po in
  let message := messageOf T params now products in
  let summary := summaryOf params now products in
  let save := CallSaveProducts updates options in
  run (execute ports T now params) =
    if dryRun (notification params) then ([CallListProducts], inr summary)
    else
      match saveProducts ports updates options with
      | Some e => ([CallListProducts; save], inl e)
      | None =>
          if enabled (notification params) &&
             (0 <? List.length (itemsToNotifyOf po now products))%nat
          then
            match send ports message with
            | Some e => ([CallListProducts; save; CallSend message], inl e)
            | None => ([CallListProducts; save; CallSend message], inr summary)
            end
          else ([CallListProducts; save], inr summary)
      end.
Proof.
  intros Hl Hv. cbv zeta.
  unfold run, execute, call, bind, emit, throw, ret. simpl.
  rewrite Hl. rewrite forEach_closed, Hv. simpl.
  unfold summaryOf, policyOf, messageOf, itemsToNotifyOf, saveOptionsOf, prefixOf.
  rewrite <- (updatesOf_head (policyOverrides params) now products).
  rewrite length_resultsOf.
  destruct (dryRun (notification params)); simpl.
  - destruct (enabled (notification params) &&
              (0 <? List.length
                      (filter needsReplenishment
                         (resultsOf (policyOverrides params) now products)))%nat);
      reflexivity.
  - destruct (saveProducts ports _ _); simpl; [reflexivity|].
    destruct (enabled (notification params) &&
              (0 <? List.length
                      (filter needsReplenishment
                         (resultsOf (policyOverrides params) now products)))%nat);
      simpl; [|reflexivity].
    destruct (send ports _); reflexivity.
Qed.


(** The rows to notify are the rows that need replenishment, and no others. *)
Lemma itemsToNotifyOf_spec (po : PolicyOverrides) (now : Z)
    (products : list Product.t) (r : ResultItem) :
  In r (itemsToNotifyOf po now products) <->
  In r (resultsOf po now products) /\ needsReplenishment r = true.
Proof. unfold itemsToNotifyOf. apply filter_In. Qed.

Lemma summaryOf_withDryRun (b : bool) (params : Params) (now : Z)
    (products : list Product.t) :
  summaryOf (withDryRun b params) now products = summaryOf params now products.
Proof. reflexivity. Qed.



(** The subject line of that message. *)
Example subject_of_the_example :
  subject (messageOf Examples.templates
             (Examples.params Js.JUndefined Js.JUndefined false) 0 Examples.inventory)
  = ("[Home Inventory] 1 item(s) need replenishment " ++ emDash ++ " 1970-01-01")%string.
Proof. vm_compute. reflexivity. Qed.

(** Ten items of which three need replenishment: ten checked, three
    notified, one message over the three. *)
Example batch_of_ten :
  let ten :=
    [Examples.shampoo 250; Examples.shampoo 30; Examples.subscribed;
     Examples.shampoo 400; Examples.shampoo 10; Examples.shampoo 300;
     Examples.emptyJar; Examples.shampoo 500; Examples.subscribed;
     Examples.shampoo 1000] in
  let outcome :=
    run (execute (Examples.quietPorts ten) Examples.templates 0
           (Examples.params Js.JUndefined Js.JUndefined false)) in
  (exists s, snd outcome = inr s /\
             checkedCount s = 10%nat /\ needsReplenishmentCount s = 3%nat) /\
  (exists message, sends (fst outcome) = [message] /\
                   html message = "Shampoo Repair, Shampoo Repair, Jam"%string).
Proof.
  cbv zeta. rewrite run_execute with (products :=
    [Examples.shampoo 250; Examples.shampoo 30; Examples.subscribed;
     Examples.shampoo 400; Examples.shampoo 10; Examples.shampoo 300;
     Examples.emptyJar; Examples.shampoo 500; Examples.subscribed;
     Examples.shampoo 1000]) by reflexivity.
  cbv zeta. split.
  - eexists. split; [reflexivity|]. split; vm_compute; reflexivity.
  - eexists. split; [reflexivity|]. vm_compute. reflexivity.
Qed.

(** A batch with a due date beyond the range of [Date]: the hoard lasts
    10^12 days and is due, lead time 0, that many days from [now].  The run
    ends in a [RangeError] after the read: nothing is written, nothing
    sent, no summary returned, dry run or not. *)
Example range_error_run (dry : bool) :
  run (execute (Examples.quietPorts [Examples.shampoo 30; Examples.hoard])
         Examples.templates 0 (Examples.params Js.JUndefined Js.JUndefined dry))
  = ([CallListProducts], inl DomainError.rangeError).
Proof.
  apply (run_execute_range_error _ _ _ _ [Examples.shampoo 30; Examples.hoard]);
    [reflexivity | vm_compute; reflexivity].
Qed.



(** C10. Over a non-empty inventory with [overrideTargetWindowDays = 0], the
    engine tests every item against a window of 0 days, while the summary
    reports the lead time plus safety stock of the first loaded item; with
    [reviewHorizonDays = 0] the engine sizes orders with a horizon of 0, while
    the summary reports 14.  A dry run returns that summary whenever every
    due date is a valid date. *)
Theorem C10_zero_overrides (ports : Ports) (T : Templates) (now : Z)
    (params : Params) (p0 : Product.t) (rest : list Product.t) :
  listProducts ports = inr (p0 :: rest) ->
  let po := policyOverrides params in
  let outcome := run (execute ports T now params) in
  (dryRun (notification params) = true ->
   dueDatesValid po now (p0 :: rest) = true ->
   exists s, snd outcome = inr s) /\
  (forall s, snd outcome = inr s ->
     items s = map (fun p => rowOf p (decide po now p)) (p0 :: rest)) /\
  (forall w, overrideTargetWindowDays po = Js.JNumber w -> w == 0 ->
     (forall s, snd outcome = inr s ->
        targetWindowDays (policy s) =
          Product.leadTimeDays p0 + Product.safetyStockDays p0) /\
     (forall p e,
        Product.hasAutoSubscription p = false ->
        Product.getAvgDailyConsumption p = Some e ->
        0 < e ->
        let d := decide po now p in
        (ReplenishmentPolicy.needsReplenishment d = true <->
         ReplenishmentPolicy.currentStock d / e <= 0))) /\
  (forall h, reviewHorizonDays po = Js.JNumber h -> h == 0 ->
     (forall s, snd outcome = inr s -> policyReviewHorizonDays (policy s) = 14) /\
     (forall p e,
        Product.hasAutoSubscription p = false ->
        Product.getAvgDailyConsumption p = Some e ->
        0 < e ->
        let d := decide po now p in
        let window :=
          Js.nullish (overrideTargetWindowDays po)
            (Product.leadTimeDays p + Product.safetyStockDays p) in
        ReplenishmentPolicy.needsReplenishment d = true ->
        ReplenishmentPolicy.recommendedOrderQty d =
          Some (_applyOrderConstraints
                  (Js.ceil (Js.max 0 ((window + h) * e
                                      - ReplenishmentPolicy.currentStock d))) p))).
Proof.
  intros Hl. cbv zeta.
  assert (Hout : forall s, snd (run (execute ports T now params)) = inr s ->
                           s = summaryOf params now (p0 :: rest)).
  { intros s.
    destruct (dueDatesValid (policyOverrides params) now (p0 :: rest)) eqn:Hv.
    2:{ rewrite (run_execute_range_error ports T now params _ Hl Hv).
        simpl. discriminate. }
    rewrite (run_execute ports T now params (p0 :: rest) Hl Hv). cbv zeta.
    destruct (dryRun (notification params)); simpl.
    - intros H. injection H as <-. reflexivity.
    - destruct (saveProducts ports _ _); simpl; [discriminate|].
      destruct (enabled (notification params) && _); simpl.
      + destruct (send ports _); simpl; [discriminate|].
        intros H. injection H as <-. reflexivity.
      + intros H. injection H as <-. reflexivity. }
  split.
  { intros Hdry Hv.
    rewrite (run_execute ports T now params (p0 :: rest) Hl Hv). cbv zeta.
    rewrite Hdry. eexists. reflexivity. }
  split.
  { intros s Hs. rewrite (Hout s Hs). reflexivity. }
  split.
  - intros w Hw Hw0. split.
    + intros s Hs. rewrite (Hout s Hs). simpl. rewrite Hw. unfold Js.orElse.
      apply truthy_false_iff in Hw0. rewrite Hw0. reflexivity.
    + intros p e Hsub He Hpos. cbv zeta. unfold decide.
      rewrite (computeDecision_normal p _ e Hsub He Hpos).
      cbn [ReplenishmentPolicy.needsReplenishment ReplenishmentPolicy.currentStock
           ReplenishmentPolicy.overrideTargetWindowDays].
      rewrite Hw. simpl Js.nullish. rewrite Qle_bool_iff.
      match goal with |- ?s / e <= w <-> _ => generalize s end.
      intros stock. rewrite Hw0. reflexivity.
  - intros h Hh Hh0. split.
    + intros s Hs. rewrite (Hout s Hs). simpl. rewrite Hh. unfold Js.orElse.
      apply truthy_false_iff in Hh0. rewrite Hh0. reflexivity.
    + intros p e Hsub He Hpos. cbv zeta. unfold decide.
      rewrite (computeDecision_normal p _ e Hsub He Hpos).
      cbn [ReplenishmentPolicy.needsReplenishment ReplenishmentPolicy.currentStock
           ReplenishmentPolicy.recommendedOrderQty
           ReplenishmentPolicy.overrideTargetWindowDays
           ReplenishmentPolicy.reviewHorizonDays].
      intros Hn. rewrite Hn, Hh. reflexivity.
Qed.

(** A window and a horizon of 0 over two bottles, one empty: the empty one
    alone is within the window; the summary reports 5 and 14. *)
Lemma C10_zero_overrides_witness :
  let outcome :=
    run (execute (Examples.quietPorts [Examples.shampoo 0; Examples.shampoo 30])
           Examples.templates 0
           (Examples.params (Js.JNumber 0) (Js.JNumber 0) true)) in
  exists s,
    snd outcome = inr s /\
    targetWindowDays (policy s) = 2 + 3 /\
    policyReviewHorizonDays (policy s) = 14 /\
    map needsReplenishment (items s) = [true; false].
Proof.
  pose proof (C10_zero_overrides
                (Examples.quietPorts [Examples.shampoo 0; Examples.shampoo 30])
                Examples.templates 0
                (Examples.params (Js.JNumber 0) (Js.JNumber 0) true)
                (Examples.shampoo 0) [Examples.shampoo 30] eq_refl) as H.
  cbv zeta in H. destruct H as (Hret & Hitems & Hwin & Hhor).
  destruct (Hret eq_refl eq_refl) as [s Hs].
  destruct (Hwin 0 eq_refl (Qeq_refl 0)) as (Htw & _).
  destruct (Hhor 0 eq_refl (Qeq_refl 0)) as (Hrh & _).
  exists s. split; [exact Hs|]. split; [exact (Htw s Hs)|].
  split; [exact (Hrh s Hs)|]. rewrite (Hitems s Hs). reflexivity.
Defined.

(** ** Loading the inventory *)

(** What the constructor guarantees of a product it returns. *)
Definition wellFormed (p : Product.t) : Prop :=
  Product.id p <> ""%string /\
  Product.name p <> ""%string /\
  In (Product.unit p) Product.units /\
  0 <= Product.qtyRemaining p.

Lemma includes_In (l : list string) (s : string) :
  Product.includes l s = true -> In s l.
Proof.
  unfold Product.includes. rewrite existsb_exists.
  intros [x [Hin Heq]]. apply String.eqb_eq in Heq. subst. exact Hin.
Qed.

Lemma new_wellFormed (args p : Product.t) :
  Product.new args = inr p -> p = args /\ wellFormed p.
Proof.
  unfold Product.new.
  destruct (String.eqb (Product.id args) "") eqn:Eid; [discriminate|].
  destruct (String.eqb (Product.name args) "") eqn:Ename; [discriminate|].
  destruct (String.eqb (Product.unit args) ""
            || negb (Product.includes Product.units (Product.unit args))) eqn:Eunit;
    [discriminate|].
  destruct (Js.Qlt_bool (Product.qtyRemaining args) 0) eqn:Eqty; [discriminate|].
  intros H. injection H as <-. split; [reflexivity|].
  apply orb_false_iff in Eunit. destruct Eunit as [_ Eunit].
  apply negb_false_iff in Eunit.
  unfold wellFormed. repeat apply conj.
  - apply String.eqb_neq. exact Eid.
  - apply String.eqb_neq. exact Ename.
  - apply includes_In. exact Eunit.
  - unfold Js.Qlt_bool in Eqty. apply negb_false_iff in Eqty.
    apply Qle_bool_iff. exact Eqty.
Qed.

(** A row without id, name or unit is rejected ... *)
Lemma rowToProduct_missing (R : Js.Runtime) (row : SheetRowMapper.Row) (i : nat) :
  row <> [] ->
  Js.truthyValue (SheetRowMapper.cell row 0) = false \/
  Js.truthyValue (SheetRowMapper.cell row 1) = false \/
  Js.truthyValue (SheetRowMapper.cell row 3) = false ->
  SheetRowMapper.rowToProduct R row i =
    inl (DomainError.ValidationError
           (SheetRowMapper.rowMessage i "Missing required fields (id, name, unit)")).
Proof.
  intros Hne H. unfold SheetRowMapper.rowToProduct.
  destruct row as [|c row]; [contradiction|].
  cbv zeta.
  destruct H as [H|[H|H]]; rewrite H; simpl;
    rewrite ?orb_true_r; reflexivity.
Qed.

(** ... and so is a row whose unit, trimmed and lowered, is none of the
    three, or whose quantity reads as a negative number. *)
Lemma rowToProduct_wellFormed (R : Js.Runtime) (row : SheetRowMapper.Row)
    (i : nat) (p : Product.t) :
  SheetRowMapper.rowToProduct R row i = inr (Some p) ->
  wellFormed p /\
  Product.unit p =
    Js.toLowerCase R (Js.trim R (Js.toString R (SheetRowMapper.cell row 3))) /\
  Product.qtyRemaining p =
    SheetRowMapper._parseNumber R (SheetRowMapper.cell row 4) 0 /\
  Js.truthyValue (SheetRowMapper.cell row 0) = true /\
  Js.truthyValue (SheetRowMapper.cell row 1) = true /\
  Js.truthyValue (SheetRowMapper.cell row 3) = true.
Proof.
  unfold SheetRowMapper.rowToProduct.
  destruct row as [|c row]; [discriminate|].
  cbv zeta.
  destruct (Js.truthyValue (SheetRowMapper.cell (c :: row) 0)) eqn:E0;
    [|discriminate].
  destruct (Js.truthyValue (SheetRowMapper.cell (c :: row) 1)) eqn:E1;
    [|discriminate].
  destruct (Js.truthyValue (SheetRowMapper.cell (c :: row) 3)) eqn:E3;
    [|discriminate].
  simpl negb. simpl orb. cbv iota.
  match goal with
  | |- match Product.new ?a with _ => _ end = _ -> _ =>
      destruct (Product.new a) as [msg|q] eqn:Enew; [discriminate|]
  end.
  intros H. injection H as <-.
  apply new_wellFormed in Enew. destruct Enew as [-> Hwf].
  split; [exact Hwf|]. repeat apply conj; reflexivity.
Qed.

(** A blank quantity cell is read as 0, not rejected. *)
Lemma parseNumber_blank (R : Js.Runtime) (v : Js.Value) (d : Q) :
  SheetRowMapper.isBlank v = true -> SheetRowMapper._parseNumber R v d = d.
Proof. intros H. unfold SheetRowMapper._parseNumber. rewrite H. reflexivity. Qed.

(** Every product the loop adds comes from a row the mapper accepted. *)
Lemma loop_products (R : Js.Runtime) (rows : list SheetRowMapper.Row) (i : nat)
    (acc : list Product.t * list GoogleSheetsInventoryRepository.Skipped)
    (p : Product.t) :
  In p (fst (GoogleSheetsInventoryRepository.loop R rows i acc)) ->
  In p (fst acc) \/
  exists row j, In row rows /\ SheetRowMapper.rowToProduct R row j = inr (Some p).
Proof.
  revert i acc. induction rows as [|row rows IH]; intros i acc Hin; simpl in Hin.
  - left. exact Hin.
  - apply IH in Hin. destruct Hin as [Hin|(row' & j & Hrow & Hj)].
    + unfold GoogleSheetsInventoryRepository.step in Hin.
      destruct (SheetRowMapper.rowToProduct R row (i + 2)) as [e|[q|]] eqn:E;
        simpl in Hin.
      * left. exact Hin.
      * apply in_app_or in Hin. destruct Hin as [Hin|[<-|[]]].
        -- left. exact Hin.
        -- right. exists row, (i + 2)%nat. split; [left; reflexivity | exact E].
      * left. exact Hin.
    + right. exists row', j. split; [right; exact Hrow | exact Hj].
Qed.

(** What reaches the use case from the sheet: products that come from a data
    row with an id, a name and a unit, the unit one of the three, the
    quantity not negative. *)
Lemma listProducts_loaded (R : Js.Runtime)
    (response : GoogleSheetsInventoryRepository.Response)
    (products : list Product.t) (p : Product.t) :
  GoogleSheetsInventoryRepository.listProducts R response = inr products ->
  In p products ->
  wellFormed p /\
  exists headerRow dataRows row j,
    response = GoogleSheetsInventoryRepository.GetValues (Some (headerRow :: dataRows)) /\
    In row dataRows /\
    SheetRowMapper.rowToProduct R row j = inr (Some p) /\
    Js.truthyValue (SheetRowMapper.cell row 0) = true /\
    Js.truthyValue (SheetRowMapper.cell row 1) = true /\
    Js.truthyValue (SheetRowMapper.cell row 3) = true.
Proof.
  intros Hl Hin. unfold GoogleSheetsInventoryRepository.listProducts in Hl.
  destruct response as [m|c m|[[|headerRow dataRows]|]]; try discriminate;
    try (injection Hl as <-; destruct Hin).
  injection Hl as <-.
  apply loop_products in Hin. destruct Hin as [[]|(row & j & Hrow & Hj)].
  destruct (rowToProduct_wellFormed R row j p Hj) as (Hwf & _ & _ & H0 & H1 & H3).
  split; [exact Hwf|].
  exists headerRow, dataRows, row, j. repeat apply conj; try assumption. reflexivity.
Qed.

(** A row with an id, a name and a valid unit whose quantity cell is blank
    is loaded, with a quantity of 0. *)
Lemma rowToProduct_blank_quantity (R : Js.Runtime) (row : SheetRowMapper.Row)
    (i : nat) (p : Product.t) :
  SheetRowMapper.rowToProduct R row i = inr (Some p) ->
  SheetRowMapper.isBlank (SheetRowMapper.cell row 4) = true ->
  Product.qtyRemaining p = 0.
Proof.
  intros H Hb.
  destruct (rowToProduct_wellFormed R row i p H) as (_ & _ & Hq & _).
  rewrite Hq. apply parseNumber_blank. exact Hb.
Qed.

(** C9, at the input where the code departs from it. A sheet whose one data
    row has an id, a name, a brand and a unit and stops there, its quantity
    cell missing: the row is not excluded; it is loaded with a quantity of 0,
    and the engine takes the item as depleted.  (Rows without id, name or
    unit, with a unit outside the three, or with a negative quantity never
    reach the use case: [rowToProduct_missing], [listProducts_loaded].) *)
Theorem C9_missing_quantity_is_loaded :
  let row := nth 1 Examples.sheetWithoutQuantity [] in
  SheetRowMapper.cell row 4 = Js.VUndefined /\
  exists p,
    GoogleSheetsInventoryRepository.listProducts Examples.runtime
      (GoogleSheetsInventoryRepository.GetValues (Some Examples.sheetWithoutQuantity))
    = inr [p] /\
    Product.id p = "abc-001"%string /\
    Product.qtyRemaining p = 0 /\
    ReplenishmentPolicy.needsReplenishment
      (computeDecision p (Examples.defaults 0)) = true /\
    ReplenishmentPolicy.reason
      (computeDecision p (Examples.defaults 0)) = depleted_or_invalid.
Proof.
  cbv zeta. split; [reflexivity|].
  eexists. split; [vm_compute; reflexivity|].
  repeat apply conj; reflexivity.
Qed.

(** The same sheet with the unit misspelt, or with the name left out: the
    row is skipped and nothing is loaded. *)
Example invalid_rows_are_skipped :
  GoogleSheetsInventoryRepository.listProducts Examples.runtime
    (GoogleSheetsInventoryRepository.GetValues
       (Some [ [Js.VString "id"];
               [Js.VString "a"; Js.VString "Milk"; Js.VUndefined;
                Js.VString "litre"; Js.VString "2"];
               [Js.VString "b"; Js.VString ""; Js.VUndefined;
                Js.VString "ml"; Js.VString "2"];
               [];
               [Js.VString "c"; Js.VString " Oil "; Js.VUndefined;
                Js.VString " ML "; Js.VString "2"] ]))
  = inr [ Product.mk "c" "Oil" None "ml" (inject_Z 2) None None None None None
            2 3 None None false None None None None ].
Proof. vm_compute. reflexivity. Qed.

(** * Further properties *)

(** ** The entity *)

Lemma In_includes (l : list string) (s : string) :
  In s l -> Product.includes l s = true.
Proof.
  intros H. unfold Product.includes. apply existsb_exists.
  exists s. split; [exact H | apply String.eqb_refl].
Qed.

(** X1. The constructor returns its argument unchanged or throws, and it
    accepts exactly the arguments with a non-empty id, a non-empty name, a
    unit among [count], [ml], [g] and a quantity that is not negative. *)
Theorem constructor_accepts_iff (args : Product.t) :
  (forall p, Product.new args = inr p -> p = args) /\
  (Product.new args = inr args <-> wellFormed args) /\
  (~ wellFormed args -> exists message, Product.new args = inl message).
Proof.
  assert (Hfwd : forall p, Product.new args = inr p -> p = args /\ wellFormed p).
  { intros p. apply new_wellFormed. }
  assert (Hbwd : wellFormed args -> Product.new args = inr args).
  { intros (Hid & Hname & Hunit & Hqty). unfold Product.new.
    apply String.eqb_neq in Hid. apply String.eqb_neq in Hname.
    rewrite Hid, Hname.
    assert (Hu : String.eqb (Product.unit args) "" = false).
    { apply String.eqb_neq. intros E. rewrite E in Hunit.
      simpl in Hunit. intuition discriminate. }
    rewrite Hu, (In_includes _ _ Hunit). simpl.
    assert (Hq : Js.Qlt_bool (Product.qtyRemaining args) 0 = false).
    { unfold Js.Qlt_bool. apply negb_false_iff. apply Qle_bool_iff. exact Hqty. }
    rewrite Hq. reflexivity. }
  split; [intros p H; exact (proj1 (Hfwd p H))|]. split.
  - split; [|exact Hbwd]. intros H. destruct (Hfwd args H) as [_ Hwf]. exact Hwf.
  - intros Hn. destruct (Product.new args) as [message|p] eqn:E.
    + exists message. reflexivity.
    + destruct (Hfwd p eq_refl) as [-> Hwf]. contradiction.
Qed.

(** X2. The effective daily rate is the daily rate when that is positive,
    else the monthly rate over 30.44 when that is positive, else null: there
    is one exactly when one of the two rates is positive, and it is never
    negative. *)
Theorem effective_rate_cases (p : Product.t) :
  let positive (x : option Q) := exists v, x = Some v /\ 0 < v in
  match Product.getAvgDailyConsumption p with
  | Some e =>
      0 <= e /\
      ((Product.avgDailyConsumption p = Some e /\ 0 < e) \/
       (~ positive (Product.avgDailyConsumption p) /\
        exists m, Product.avgMonthlyConsumption p = Some m /\ 0 < m /\
                  e = m / (3044 # 100)))
  | None =>
      ~ positive (Product.avgDailyConsumption p) /\
      ~ positive (Product.avgMonthlyConsumption p)
  end /\
  (forall d, Product.avgDailyConsumption p = Some d -> 0 < d ->
             Product.getAvgDailyConsumption p = Some d).
Proof.
  cbv zeta. split; [|intros d; apply getAvgDailyConsumption_daily].
  assert (Hneg : forall x v, x = Some v -> Js.Qlt_bool 0 v = false ->
                   ~ exists w, x = Some w /\ 0 < w).
  { intros x v -> Hv [w [Hw Hpos]]. injection Hw as <-.
    apply Qlt_bool_iff in Hpos. congruence. }
  assert (Hnone : forall x : option Q, x = None -> ~ exists w, x = Some w /\ 0 < w).
  { intros x -> [w [Hw _]]. discriminate. }
  assert (Hdiv : forall m, 0 < m -> 0 <= m / (3044 # 100)).
  { intros m Hm. apply Qle_shift_div_l; [reflexivity|].
    rewrite Qmult_0_l. apply Qlt_le_weak. exact Hm. }
  destruct (Product.getAvgDailyConsumption p) as [e|] eqn:He.
  - unfold Product.getAvgDailyConsumption in He.
    destruct (Product.avgDailyConsumption p) as [d|] eqn:Hd.
    + destruct (Js.Qlt_bool 0 d) eqn:Ed.
      * injection He as <-. apply Qlt_bool_iff in Ed.
        split; [apply Qlt_le_weak; exact Ed|]. left. split; [reflexivity | exact Ed].
      * destruct (Product.avgMonthlyConsumption p) as [m|]; [|discriminate].
        destruct (Js.Qlt_bool 0 m) eqn:Em; [|discriminate].
        injection He as <-. apply Qlt_bool_iff in Em.
        split; [exact (Hdiv m Em)|]. right.
        split; [exact (Hneg _ d eq_refl Ed)|]. exists m. auto.
    + destruct (Product.avgMonthlyConsumption p) as [m|]; [|discriminate].
      destruct (Js.Qlt_bool 0 m) eqn:Em; [|discriminate].
      injection He as <-. apply Qlt_bool_iff in Em.
      split; [exact (Hdiv m Em)|]. right.
      split; [exact (Hnone _ eq_refl)|]. exists m. auto.
  - unfold Product.getAvgDailyConsumption in He.
    destruct (Product.avgDailyConsumption p) as [d|] eqn:Hd.
    + destruct (Js.Qlt_bool 0 d) eqn:Ed; [discriminate|].
      split; [exact (Hneg _ d eq_refl Ed)|].
      destruct (Product.avgMonthlyConsumption p) as [m|] eqn:Hm;
        [|exact (Hnone _ eq_refl)].
      destruct (Js.Qlt_bool 0 m) eqn:Em; [discriminate|].
      exact (Hneg _ m eq_refl Em).
    + split; [exact (Hnone _ eq_refl)|].
      destruct (Product.avgMonthlyConsumption p) as [m|] eqn:Hm;
        [|exact (Hnone _ eq_refl)].
      destruct (Js.Qlt_bool 0 m) eqn:Em; [discriminate|].
      exact (Hneg _ m eq_refl Em).
Qed.

Lemma daysBetween_mono (now now' last : Z) :
  (now <= now')%Z -> Product.daysBetween now last <= Product.daysBetween now' last.
Proof.
  intros H. unfold Product.daysBetween.
  apply Qmult_le_compat_r; [|discriminate].
  rewrite <- Zle_Qle. lia.
Qed.

Lemma daysBetween_nonneg (now last : Z) :
  (last <= now)%Z -> 0 <= Product.daysBetween now last.
Proof.
  intros H. unfold Product.daysBetween.
  apply Qle_shift_div_l; [reflexivity|]. rewrite Qmult_0_l.
  change (inject_Z 0 <= inject_Z (now - last)). rewrite <- Zle_Qle. lia.
Qed.

(** X3. The projected stock of an item whose stored quantity is not negative
    is never negative; it never exceeds the stored quantity once [now] is
    not before the last replenishment; and it never grows as [now] moves
    forward. *)
Theorem projected_stock_bounds (p : Product.t) (now : Z) :
  0 <= Product.qtyRemaining p ->
  0 <= Product.calculateCurrentStock p now /\
  (forall last, Product.lastReplenishedAt p = Some last -> (last <= now)%Z ->
     Product.calculateCurrentStock p now <= Product.qtyRemaining p) /\
  (forall now', (now <= now')%Z ->
     Product.calculateCurrentStock p now' <= Product.calculateCurrentStock p now).
Proof.
  intros Hq. unfold Product.calculateCurrentStock.
  destruct (Product.lastReplenishedAt p) as [last|];
    [|repeat apply conj; intros; try discriminate; (exact Hq || apply Qle_refl)].
  destruct (negb (Js.truthy (Product.qtyRemaining p)));
    [repeat apply conj; intros; (exact Hq || apply Qle_refl)|].
  destruct (Product.getAvgDailyConsumption p) as [e|] eqn:He;
    [|repeat apply conj; intros; (exact Hq || apply Qle_refl)].
  rewrite (rate_guard_pos e (getAvgDailyConsumption_pos p e He)).
  pose proof (getAvgDailyConsumption_pos p e He) as Hpos.
  repeat apply conj.
  - apply max_ge_l.
  - intros last' Hl Hle. injection Hl as <-.
    apply Q.max_lub; [exact Hq|].
    assert (H0 : 0 <= e * Product.daysBetween now last).
    { apply Qmult_le_0_compat;
        [apply Qlt_le_weak; exact Hpos | apply daysBetween_nonneg; exact Hle]. }
    apply Qle_minus_iff.
    setoid_replace (Product.qtyRemaining p +
                    - (Product.qtyRemaining p - e * Product.daysBetween now last))
      with (e * Product.daysBetween now last) by ring.
    exact H0.
  - intros now' Hle. unfold Js.max. apply Q.max_le_compat_l.
    apply Qplus_le_r. apply Qopp_le_compat.
    rewrite !(Qmult_comm e). apply Qmult_le_compat_r;
      [apply daysBetween_mono; exact Hle | apply Qlt_le_weak; exact Hpos].
Qed.

Lemma projected_stock_bounds_witness :
  let p :=
    Product.mk "b" "Bottle" None "ml" 100 (Some 8) None (Some 0%Z) None None
      2 3 None None false None None None None in
  0 <= Product.calculateCurrentStock p 172800000 /\
  Product.calculateCurrentStock p 172800000 <= 100 /\
  Product.calculateCurrentStock p 259200000 <= Product.calculateCurrentStock p 172800000.
Proof.
  pose proof (projected_stock_bounds
                (Product.mk "b" "Bottle" None "ml" 100 (Some 8) None (Some 0%Z)
                   None None 2 3 None None false None None None None)
                172800000 ltac:(discriminate)) as H.
  destruct H as (H0 & Hle & Hmono).
  exact (conj H0 (conj (Hle 0%Z eq_refl ltac:(discriminate))
                       (Hmono 259200000%Z ltac:(discriminate)))).
Defined.

(** ** The decision engine, further *)

(** Settles an equivalence between two closed facts about a decision. *)
Ltac coherent :=
  repeat apply conj; try reflexivity;
  try (intros H;
       first [ discriminate H
             | reflexivity
             | congruence
             | destruct H as [H|H]; discriminate H
             | exfalso; apply H; reflexivity
             | exfalso; apply H; eexists; split; [reflexivity | eassumption]
             | intros [? [? _]]; discriminate
             | left; reflexivity
             | right; reflexivity ]).

(** X4. Every decision is coherent: a quantity is recommended exactly when
    replenishment is needed, which is exactly under the reasons
    [depleted_or_invalid] and [within_target_window]; a due date is set
    exactly under [within_target_window]; the days until depletion are null
    exactly when there is no positive effective rate; the reason is
    [auto_subscription_active] exactly under a subscription; and the days
    since replenishment are those of the product in every branch. *)
Theorem decision_coherent (p : Product.t) (o : Options) :
  let d := computeDecision p o in
  (ReplenishmentPolicy.needsReplenishment d = true <-> ReplenishmentPolicy.recommendedOrderQty d <> None) /\
  (ReplenishmentPolicy.needsReplenishment d = true <->
   ReplenishmentPolicy.reason d = depleted_or_invalid \/ ReplenishmentPolicy.reason d = within_target_window) /\
  (ReplenishmentPolicy.replenishByDate d <> None <-> ReplenishmentPolicy.reason d = within_target_window) /\
  (ReplenishmentPolicy.daysUntilDepletion d = None <->
   ~ exists e, Product.getAvgDailyConsumption p = Some e /\ 0 < e) /\
  (ReplenishmentPolicy.reason d = auto_subscription_active <-> Product.hasAutoSubscription p = true) /\
  ReplenishmentPolicy.daysSinceReplenishment d = Product.getDaysSinceLastReplenishment p (ReplenishmentPolicy.now o).
Proof.
  cbv zeta. unfold computeDecision.
  destruct (Product.getAvgDailyConsumption p) as [e|] eqn:He.
  - destruct (Qlt_le_dec 0 e) as [Hpos|Hnon].
    + rewrite (rate_guard_pos e Hpos), (truthy_pos e Hpos),
              (proj2 (Qlt_bool_iff 0 e) Hpos).
      destruct (Product.hasAutoSubscription p); [|destruct (Qle_bool _ _)];
        cbn [ReplenishmentPolicy.needsReplenishment
             ReplenishmentPolicy.recommendedOrderQty
             ReplenishmentPolicy.replenishByDate ReplenishmentPolicy.reason
             ReplenishmentPolicy.daysUntilDepletion
             ReplenishmentPolicy.daysSinceReplenishment andb];
        coherent.
    + assert (Hno : ~ exists e0, Some e = Some e0 /\ 0 < e0).
      { intros [e0 [H0 Hp0]]. injection H0 as <-.
        exact (Qlt_not_le _ _ Hp0 Hnon). }
      rewrite (rate_guard_nonpos e Hnon).
      assert (Hlt : Js.Qlt_bool 0 e = false).
      { unfold Js.Qlt_bool. apply negb_false_iff. apply Qle_bool_iff. exact Hnon. }
      rewrite Hlt, andb_false_r.
      destruct (Product.hasAutoSubscription p); [|destruct (Qle_bool _ 0)];
        cbn [ReplenishmentPolicy.needsReplenishment
             ReplenishmentPolicy.recommendedOrderQty
             ReplenishmentPolicy.replenishByDate ReplenishmentPolicy.reason
             ReplenishmentPolicy.daysUntilDepletion
             ReplenishmentPolicy.daysSinceReplenishment];
        repeat apply conj; try reflexivity;
        try (intros H;
             first [ discriminate H
                   | reflexivity
                   | exact Hno
                   | congruence
                   | destruct H as [H|H]; discriminate H
                   | exfalso; apply H; reflexivity
                   | left; reflexivity
                   | right; reflexivity ]).
  - destruct (Product.hasAutoSubscription p); [|destruct (Qle_bool _ 0)];
      cbn [ReplenishmentPolicy.needsReplenishment
           ReplenishmentPolicy.recommendedOrderQty
           ReplenishmentPolicy.replenishByDate ReplenishmentPolicy.reason
           ReplenishmentPolicy.daysUntilDepletion
           ReplenishmentPolicy.daysSinceReplenishment];
      coherent.
Qed.

Lemma toIntegerOrInfinity_ge (x : Q) (z : Z) :
  inject_Z z <= x -> (z <= Js.toIntegerOrInfinity x)%Z.
Proof.
  intros H. unfold Js.toIntegerOrInfinity. destruct (Qle_bool 0 x).
  - rewrite <- (Qfloor_Z z). apply Qfloor_resp_le. exact H.
  - rewrite <- (Qceiling_Z z). apply Qceiling_resp_le. exact H.
Qed.

(** X5. A due date is never before [now]; and when the stock lasts no longer
    than the lead time the item is due at [now] itself. *)
Theorem due_date_not_before_now (p : Product.t) (o : Options) (t : Z) :
  ReplenishmentPolicy.replenishByDate (computeDecision p o) = Some t ->
  (ReplenishmentPolicy.now o <= t)%Z /\
  (forall days, ReplenishmentPolicy.daysUntilDepletion (computeDecision p o) = Some days ->
     days <= Product.leadTimeDays p -> t = ReplenishmentPolicy.now o).
Proof.
  intros Ht.
  destruct (Product.hasAutoSubscription p) eqn:Hsub.
  { unfold computeDecision in Ht. rewrite Hsub in Ht. discriminate. }
  destruct (Product.getAvgDailyConsumption p) as [e|] eqn:He.
  2:{ unfold computeDecision in Ht. rewrite Hsub, He in Ht. discriminate. }
  pose proof (getAvgDailyConsumption_pos p e He) as Hpos.
  pose proof (computeDecision_normal p o e Hsub He Hpos) as Heq. cbv zeta in Heq.
  set (stock := ReplenishmentPolicy.currentStock (computeDecision p o)) in *.
  rewrite Heq in Ht. cbn [ReplenishmentPolicy.replenishByDate] in Ht.
  destruct (Qle_bool (stock / e) _); [|discriminate].
  injection Ht as <-. split.
  - apply toIntegerOrInfinity_ge.
    rewrite <- (Qplus_0_r (inject_Z (ReplenishmentPolicy.now o))) at 1.
    apply Qplus_le_r. apply Qmult_le_0_compat; [apply max_ge_l | discriminate].
  - intros days Hd Hle. rewrite Heq in Hd. cbn [ReplenishmentPolicy.daysUntilDepletion] in Hd.
    injection Hd as <-.
    apply toIntegerOrInfinity_whole.
    assert (H0 : Js.max 0 (stock / e - Product.leadTimeDays p) == 0).
    { unfold Js.max. apply Q.max_l.
      apply Qle_minus_iff in Hle. apply Qle_minus_iff.
      setoid_replace (0 + - (stock / e - Product.leadTimeDays p))
        with (Product.leadTimeDays p + - (stock / e)) by ring.
      exact Hle. }
    rewrite H0. ring.
Qed.

Lemma due_date_not_before_now_witness :
  ReplenishmentPolicy.replenishByDate (computeDecision (Examples.shampoo 10) (Examples.defaults 5000))
    = Some 5000%Z /\ (5000 <= 5000)%Z.
Proof.
  destruct (due_date_not_before_now (Examples.shampoo 10) (Examples.defaults 5000)
              5000%Z eq_refl) as [Hle Hnow].
  exact (conj eq_refl Hle).
Defined.

Lemma applyOrderConstraints_ge_base (baseQty : Q) (p : Product.t) :
  baseQty <= _applyOrderConstraints baseQty p.
Proof.
  unfold _applyOrderConstraints.
  assert (Hq : baseQty <= Js.max baseQty (Js.orNum (Product.minOrderQty p) 1))
    by apply max_ge_l.
  destruct (Product.packSize p) as [ps|]; [|exact Hq].
  destruct (Js.truthy ps && Js.Qlt_bool 1 ps) eqn:E; [|exact Hq].
  apply andb_true_iff in E. destruct E as [_ E]. apply Qlt_bool_iff in E.
  apply Qle_trans with (Js.max baseQty (Js.orNum (Product.minOrderQty p) 1));
    [exact Hq|].
  apply pack_round_up_ge. apply Qlt_trans with 1; [reflexivity | exact E].
Qed.

Lemma ceil_ge (x : Q) : x <= Js.ceil x.
Proof. apply Qle_ceiling. Qed.

(** *** Whole numbers

    An inventory is usually kept in whole numbers: a count, a pack of 250,
    a lead time of 2 days.  On whole numbers of the sizes below every sum,
    product, comparison and rounding of the policy is exact in the doubles
    of the code, as it is in the rationals here.  The three properties that
    follow need that, and are stated for such inputs. *)

(** A whole number. *)
Definition whole (x : Q) : Prop := exists z : Z, x == inject_Z z.

(** A whole number of at most 2^24 in magnitude. *)
Definition small (x : Q) : Prop :=
  exists z : Z, x == inject_Z z /\ (Z.abs z <= 2 ^ 24)%Z.

(** An item and options in small whole numbers, with a daily rate and no
    projection of the stock. *)
Definition wholeInputs (p : Product.t) (o : Options) : Prop :=
  small (Product.qtyRemaining p) /\
  (exists d, Product.avgDailyConsumption p = Some d /\ 0 < d /\ small d) /\
  (ReplenishmentPolicy.autoDecrementStock o = false \/
   Product.lastReplenishedAt p = None) /\
  small (Product.leadTimeDays p) /\
  small (Product.safetyStockDays p) /\
  (forall m, Product.minOrderQty p = Some m -> small m) /\
  (forall s, Product.packSize p = Some s -> small s) /\
  (forall w, ReplenishmentPolicy.overrideTargetWindowDays o = Js.JNumber w ->
             small w) /\
  (forall h, ReplenishmentPolicy.reviewHorizonDays o = Js.JNumber h -> small h).

(** Rounding to packs is exact for this item and this result: no rounding
    applies, or pack size and minimum order are whole and the result leaves
    room for one more pack below 2^53. *)
Definition roundsExactly (p : Product.t) (q : Q) : Prop :=
  match Product.packSize p with
  | None => True
  | Some ps =>
      ps <= 1 \/
      (whole ps /\
       (forall m, Product.minOrderQty p = Some m -> whole m) /\
       q + ps <= inject_Z (2 ^ 53))
  end.

(** X6. For an item and options in small whole numbers, with a daily rate
    and no projection of the stock, the recommended quantity brings the
    stock up to the target coverage: stock plus quantity is at least
    [(window + reviewHorizon) * rate]. *)
Theorem order_covers_target (p : Product.t) (o : Options) (e q : Q) :
  Product.hasAutoSubscription p = false ->
  Product.getAvgDailyConsumption p = Some e ->
  wholeInputs p o ->
  ReplenishmentPolicy.recommendedOrderQty (computeDecision p o) = Some q ->
  let window :=
    Js.nullish (ReplenishmentPolicy.overrideTargetWindowDays o)
      (Product.leadTimeDays p + Product.safetyStockDays p) in
  ReplenishmentPolicy.currentStock (computeDecision p o) = Product.qtyRemaining p /\
  (window + Js.withDefault (ReplenishmentPolicy.reviewHorizonDays o) 14) * e
    <= Product.qtyRemaining p + q.
Proof.
  intros Hsub He (_ & (d & Hd & Hdpos & _) & Hproj & _) Hq. cbv zeta.
  rewrite (getAvgDailyConsumption_daily p d Hd Hdpos) in He. injection He as <-.
  assert (He : Product.getAvgDailyConsumption p = Some d)
    by exact (getAvgDailyConsumption_daily p d Hd Hdpos).
  assert (Hstock : ReplenishmentPolicy.currentStock (computeDecision p o)
                   = Product.qtyRemaining p).
  { rewrite currentStock_computeDecision.
    destruct Hproj as [Hoff|Hnever]; [rewrite Hoff; reflexivity|].
    destruct (ReplenishmentPolicy.autoDecrementStock o); [|reflexivity].
    unfold Product.calculateCurrentStock. rewrite Hnever. reflexivity. }
  split; [exact Hstock|]. rewrite <- Hstock.
  pose proof (computeDecision_normal p o d Hsub He Hdpos) as Heq. cbv zeta in Heq.
  set (stock := ReplenishmentPolicy.currentStock (computeDecision p o)) in *.
  rewrite Heq in Hq. cbn [ReplenishmentPolicy.recommendedOrderQty] in Hq.
  destruct (Qle_bool (stock / d) _); [|discriminate].
  injection Hq as <-.
  match goal with
  | |- ?c <= stock + _applyOrderConstraints ?b p =>
      assert (Hb : c - stock <= _applyOrderConstraints b p)
  end.
  { eapply Qle_trans; [|apply applyOrderConstraints_ge_base].
    eapply Qle_trans; [|apply ceil_ge]. apply max_ge_r. }
  apply Qle_minus_iff in Hb. apply Qle_minus_iff.
  match goal with
  | H : 0 <= ?a + - (?c - stock) |- 0 <= stock + ?a + - ?c =>
      setoid_replace (stock + a + - c) with (a + - (c - stock)) by ring; exact H
  end.
Qed.

(** Settles that a numeral is a small whole number. *)
Ltac small_numeral z :=
  exists z; split; [reflexivity | vm_compute; discriminate].

Lemma order_covers_target_witness :
  exists q,
    ReplenishmentPolicy.recommendedOrderQty (computeDecision (Examples.shampoo 30) (Examples.defaults 0))
      = Some q /\
    (5 + 14) * 8 <= 30 + q.
Proof.
  eexists. split; [reflexivity|].
  assert (Hw : wholeInputs (Examples.shampoo 30) (Examples.defaults 0)).
  { unfold wholeInputs. repeat apply conj.
    - small_numeral 30%Z.
    - exists 8. split; [reflexivity|]. split; [reflexivity | small_numeral 8%Z].
    - right. reflexivity.
    - small_numeral 2%Z.
    - small_numeral 3%Z.
    - intros m H. discriminate H.
    - intros s H. injection H as <-. small_numeral 250%Z.
    - intros w H. discriminate H.
    - intros h H. discriminate H. }
  exact (proj2 (order_covers_target (Examples.shampoo 30) (Examples.defaults 0) 8 _
                  eq_refl eq_refl Hw eq_refl)).
Defined.

(** ** Order constraints, further *)

Lemma ceil_lt_succ (x : Q) : Js.ceil x < x + 1.
Proof.
  unfold Js.ceil. pose proof (Qceiling_lt x) as H.
  unfold Z.sub in H. rewrite inject_Z_plus in H.
  apply Qplus_lt_l with (z := - (1)).
  setoid_replace (x + 1 + - (1)) with x by ring.
  exact H.
Qed.

Lemma applyOrderConstraints_ge_wanted (baseQty : Q) (p : Product.t) :
  Js.max baseQty (Js.orNum (Product.minOrderQty p) 1)
    <= _applyOrderConstraints baseQty p.
Proof.
  unfold _applyOrderConstraints.
  destruct (Product.packSize p) as [ps|]; [|apply Qle_refl].
  destruct (Js.truthy ps && Js.Qlt_bool 1 ps) eqn:E; [|apply Qle_refl].
  apply andb_true_iff in E. destruct E as [_ E]. apply Qlt_bool_iff in E.
  apply pack_round_up_ge. apply Qlt_trans with 1; [reflexivity | exact E].
Qed.

(** X7. With a whole pack size above 1, [_applyOrderConstraints] rounds the
    larger of the base quantity and the minimum order, when that is a whole
    number with room for one more pack below 2^53, up by less than one
    pack; with no pack size, or one of at most 1, it returns that larger
    value itself. *)
Theorem pack_rounding_bounds (baseQty : Q) (p : Product.t) :
  let wanted := Js.max baseQty (Js.orNum (Product.minOrderQty p) 1) in
  (forall ps, Product.packSize p = Some ps -> 1 < ps ->
     whole ps -> whole wanted -> 0 <= wanted ->
     wanted + ps <= inject_Z (2 ^ 53) ->
     wanted <= _applyOrderConstraints baseQty p /\
     _applyOrderConstraints baseQty p < wanted + ps) /\
  (Product.packSize p = None -> _applyOrderConstraints baseQty p = wanted) /\
  (forall ps, Product.packSize p = Some ps -> ps <= 1 ->
     _applyOrderConstraints baseQty p = wanted).
Proof.
  cbv zeta. unfold _applyOrderConstraints. repeat apply conj.
  - intros ps Hp Hgt _ _ _ _. rewrite Hp.
    assert (Hpos : 0 < ps) by (apply Qlt_trans with 1; [reflexivity | exact Hgt]).
    rewrite (truthy_pos ps Hpos). apply Qlt_bool_iff in Hgt. rewrite Hgt. simpl.
    split; [apply pack_round_up_ge; exact Hpos|].
    set (w := Js.max baseQty (Js.orNum (Product.minOrderQty p) 1)).
    apply Qlt_le_trans with ((w / ps + 1) * ps).
    + apply Qmult_lt_compat_r; [exact Hpos | apply ceil_lt_succ].
    + setoid_replace ((w / ps + 1) * ps) with (w + ps); [apply Qle_refl|].
      field. intros H0. rewrite H0 in Hpos. exact (Qlt_irrefl _ Hpos).
  - intros Hp. rewrite Hp. reflexivity.
  - intros ps Hp Hle. rewrite Hp.
    assert (Hlt : Js.Qlt_bool 1 ps = false).
    { unfold Js.Qlt_bool. apply negb_false_iff. apply Qle_bool_iff. exact Hle. }
    rewrite Hlt, andb_false_r. reflexivity.
Qed.

Lemma pack_rounding_bounds_witness :
  122 <= _applyOrderConstraints 122 (Examples.shampoo 30) /\
  _applyOrderConstraints 122 (Examples.shampoo 30) < 122 + 250.
Proof.
  destruct (pack_rounding_bounds 122 (Examples.shampoo 30)) as (Hpack & _ & _).
  apply (Hpack 250 eq_refl eq_refl).
  - exists 250%Z. reflexivity.
  - exists 122%Z. reflexivity.
  - discriminate.
  - discriminate.
Defined.

(** X8. A recommended quantity is at least the minimum order quantity when
    one is set, and at least 1 when none is set or the one set is at least
    1: in the [depleted_or_invalid] branch always, and in the other branch
    when no rounding to packs applies or the rounding is one of whole
    numbers. *)
Theorem order_quantity_floor (p : Product.t) (o : Options) (q : Q) :
  ReplenishmentPolicy.recommendedOrderQty (computeDecision p o) = Some q ->
  ReplenishmentPolicy.reason (computeDecision p o) = depleted_or_invalid \/
  roundsExactly p q ->
  (forall m, Product.minOrderQty p = Some m -> m <= q) /\
  (Product.minOrderQty p = None \/
   (exists m, Product.minOrderQty p = Some m /\ 1 <= m) -> 1 <= q).
Proof.
  intros Hq _. split.
  - intros m Hm. exact (recommendedOrderQty_min p o q m Hq Hm).
  - intros Hmin.
    assert (H1 : 1 <= Js.orNum (Product.minOrderQty p) 1).
    { destruct Hmin as [Hn|[m [Hm Hge]]].
      - rewrite Hn. simpl. apply Qle_refl.
      - rewrite Hm. unfold Js.orNum. destruct (Js.truthy m);
          [exact Hge | apply Qle_refl]. }
    unfold computeDecision in Hq.
    assert (Hinv : forall stock,
      (if Qle_bool stock 0
       then Some (Js.max 1 (Js.orNum (Product.minOrderQty p)
                                     (Js.orNum (Product.packSize p) 1)))
       else None) = Some q -> 1 <= q).
    { intros stock H. destruct (Qle_bool stock 0); [|discriminate].
      injection H as <-. apply max_ge_l. }
    destruct (Product.hasAutoSubscription p); [discriminate|].
    destruct (Product.getAvgDailyConsumption p) as [e|]; [|exact (Hinv _ Hq)].
    destruct (negb (Js.truthy e) || Qle_bool e 0); [exact (Hinv _ Hq)|].
    cbn [ReplenishmentPolicy.recommendedOrderQty] in Hq.
    match type of Hq with
    | (if ?b then _ else _) = _ => destruct b; [|discriminate]
    end.
    injection Hq as <-.
    eapply Qle_trans; [|apply applyOrderConstraints_ge_wanted].
    eapply Qle_trans; [exact H1 | apply max_ge_r].
Qed.

(** The empty jar, in the depleted branch, and the bottle, rounded to one
    pack of 250. *)
Lemma order_quantity_floor_witness :
  (exists q,
     ReplenishmentPolicy.recommendedOrderQty
       (computeDecision Examples.emptyJar (Examples.defaults 0)) = Some q /\
     3 <= q /\ 1 <= q) /\
  (exists q,
     ReplenishmentPolicy.recommendedOrderQty
       (computeDecision (Examples.shampoo 30) (Examples.defaults 0)) = Some q /\
     1 <= q).
Proof.
  split.
  - eexists. split; [reflexivity|].
    destruct (order_quantity_floor Examples.emptyJar (Examples.defaults 0) _ eq_refl
                (or_introl eq_refl))
      as [Hmin Hone].
    split.
    + exact (Hmin 3 eq_refl).
    + apply Hone. right. exists 3. split; [reflexivity | discriminate].
  - eexists. split; [reflexivity|].
    assert (Hr : roundsExactly (Examples.shampoo 30) 250).
    { right. split; [exists 250%Z; reflexivity|].
      split; [intros m H; discriminate H | discriminate]. }
    destruct (order_quantity_floor (Examples.shampoo 30) (Examples.defaults 0) _
                eq_refl (or_intror Hr))
      as [_ Hone].
    apply Hone. left. reflexivity.
Defined.

(** X9. Under [within_target_window] and a pack size above 1 the recommended
    quantity is a whole number of packs, none of them negative. *)
Theorem within_window_whole_packs (p : Product.t) (o : Options) (q ps : Q) :
  ReplenishmentPolicy.reason (computeDecision p o) = within_target_window ->
  ReplenishmentPolicy.recommendedOrderQty (computeDecision p o) = Some q ->
  Product.packSize p = Some ps -> 1 < ps ->
  exists k : Z, q = inject_Z k * ps /\ (0 <= k)%Z.
Proof.
  intros Hr Hq Hp Hgt.
  destruct (within_target_window_multiple p o q ps Hr Hq Hp Hgt) as [k Hk].
  exists k. split; [exact Hk|].
  assert (Hpos : 0 < ps) by (apply Qlt_trans with 1; [reflexivity | exact Hgt]).
  assert (Hq0 : 0 <= q).
  { unfold computeDecision in Hq, Hr.
    destruct (Product.hasAutoSubscription p); [discriminate|].
    destruct (Product.getAvgDailyConsumption p) as [e|].
    - destruct (negb (Js.truthy e) || Qle_bool e 0).
      + cbn [ReplenishmentPolicy.reason] in Hr. destruct (Qle_bool _ 0); discriminate.
      + cbn [ReplenishmentPolicy.recommendedOrderQty] in Hq.
        match type of Hq with
        | (if ?b then _ else _) = _ => destruct b; [|discriminate]
        end.
        injection Hq as <-.
        eapply Qle_trans; [|apply applyOrderConstraints_ge_base].
        eapply Qle_trans; [|apply ceil_ge]. apply max_ge_l.
    - cbn [ReplenishmentPolicy.reason] in Hr. destruct (Qle_bool _ 0); discriminate. }
  rewrite Hk in Hq0.
  destruct (Z_lt_le_dec k 0) as [Hlt|Hge]; [|exact Hge].
  exfalso. assert (Hk1 : inject_Z k <= - (1)).
  { change (- (1)) with (inject_Z (-1)). rewrite <- Zle_Qle. lia. }
  apply (Qle_not_lt _ _ Hq0).
  apply Qle_lt_trans with (- (1) * ps).
  - apply Qmult_le_compat_r; [exact Hk1 | apply Qlt_le_weak; exact Hpos].
  - setoid_replace (- (1) * ps) with (- ps) by ring.
    apply Qlt_minus_iff. setoid_replace (0 + - - ps) with ps by ring. exact Hpos.
Qed.

Lemma within_window_whole_packs_witness :
  exists k : Z,
    ReplenishmentPolicy.recommendedOrderQty
      (computeDecision (Examples.shampoo 30) (Examples.defaults 0))
      = Some (inject_Z k * 250) /\ (0 <= k)%Z.
Proof.
  destruct (within_window_whole_packs (Examples.shampoo 30) (Examples.defaults 0)
              _ 250 eq_refl eq_refl eq_refl eq_refl) as [k [Hk Hk0]].
  exists k. split; [|exact Hk0].
  rewrite <- Hk. reflexivity.
Defined.

(** ** The use case, further *)

(** The fields of a product that belong to the caller. *)
Definition keepsInputs (p u : Product.t) : Prop :=
  Product.id u = Product.id p /\
  Product.name u = Product.name p /\
  Product.brand u = Product.brand p /\
  Product.unit u = Product.unit p /\
  Product.avgDailyConsumption u = Product.avgDailyConsumption p /\
  Product.avgMonthlyConsumption u = Product.avgMonthlyConsumption p /\
  Product.lastReplenishedAt u = Product.lastReplenishedAt p /\
  Product.autoSubscription u = Product.autoSubscription p /\
  Product.buy u = Product.buy p /\
  Product.leadTimeDays u = Product.leadTimeDays p /\
  Product.safetyStockDays u = Product.safetyStockDays p /\
  Product.minOrderQty u = Product.minOrderQty p /\
  Product.packSize u = Product.packSize p.

(** The derived fields of an update are those of the decision. *)
Definition carriesDecision (now : Z) (d : ReplenishmentPolicy.Decision)
    (u : Product.t) : Prop :=
  Product.needsReplenishment u = ReplenishmentPolicy.needsReplenishment d /\
  Product.recommendedOrderQty u = ReplenishmentPolicy.recommendedOrderQty d /\
  Product.replenishByDate u = ReplenishmentPolicy.replenishByDate d /\
  Product.reason u =
    Some (ReplenishmentPolicy.reasonString (ReplenishmentPolicy.reason d)) /\
  Product.lastCheckAt u = Some now.

Lemma clone_identity (p : Product.t) : Product.clone p = p.
Proof.
  destruct p as [i n b u q ad am l [[a dt]|] [[pl ur]|] ld ss mo ps nr rd ro re lc];
    reflexivity.
Qed.

Lemma updatedProduct_frame (po : PolicyOverrides) (now : Z) (p : Product.t) :
  let d := decide po now p in
  let u := updatedProduct po now p d in
  keepsInputs p u /\ carriesDecision now d u /\
  (updateCalculatedQuantities po = false ->
   Product.qtyRemaining u = Product.qtyRemaining p) /\
  (updateCalculatedQuantities po = true ->
   Product.qtyRemaining u == ReplenishmentPolicy.currentStock d).
Proof.
  cbv zeta. unfold updatedProduct. rewrite clone_identity.
  unfold keepsInputs, carriesDecision. cbn.
  repeat apply conj; try reflexivity.
  - intros H. rewrite H. reflexivity.
  - intros H. rewrite H. simpl.
    destruct (Qeq_bool _ _) eqn:E; simpl; [|reflexivity].
    apply Qeq_bool_iff in E. symmetry. exact E.
Qed.

(** A batch whose due dates are not all valid holds a product whose decision
    carries an Invalid Date. *)
Lemma dueDatesValid_false (po : PolicyOverrides) (now : Z)
    (products : list Product.t) :
  dueDatesValid po now products = false ->
  exists p t,
    In p products /\
    ReplenishmentPolicy.replenishByDate (decide po now p) = Some t /\
    JsDate.isValid t = false.
Proof.
  unfold dueDatesValid. induction products as [|p ps IH]; simpl; [discriminate|].
  destruct (representable (decide po now p)) eqn:E; simpl.
  - intros H. destruct (IH H) as (q & t & Hin & Hd & Hv).
    exists q, t. split; [right; exact Hin|]. split; assumption.
  - intros _. unfold representable in E.
    destruct (ReplenishmentPolicy.replenishByDate (decide po now p)) as [t|] eqn:Hd;
      [|discriminate].
    exists p, t. split; [left; reflexivity|]. split; [exact Hd | exact E].
Qed.

Lemma saves_run (ports : Ports) (T : Templates) (now : Z) (params : Params)
    (products : list Product.t) :
  listProducts ports = inr products ->
  saves (fst (run (execute ports T now params))) =
    if dryRun (notification params) ||
       negb (dueDatesValid (policyOverrides params) now products)
    then []
    else [(updatesOf (policyOverrides params) now products,
           saveOptionsOf (policyOverrides params))].
Proof.
  intros Hl.
  destruct (dueDatesValid (policyOverrides params) now products) eqn:Hv.
  2:{ rewrite (run_execute_range_error ports T now params products Hl Hv).
      rewrite orb_true_r. reflexivity. }
  rewrite (run_execute ports T now params products Hl Hv). cbv zeta.
  rewrite orb_false_r.
  destruct (dryRun (notification params)); [reflexivity|].
  destruct (saveProducts ports _ _); [reflexivity|].
  destruct (enabled (notification params) && _); [|reflexivity].
  destruct (send ports _); reflexivity.
Qed.

(** X10. Whatever is handed to [saveProducts] is, product by product and in
    the order loaded, the loaded product with its caller-owned fields
    untouched, the derived fields of its decision, [lastCheckAt = now], and
    its stored quantity unless [updateCalculatedQuantities] is set (then the
    computed stock); the options never ask for all fields. *)
Theorem saved_updates_keep_inputs (ports : Ports) (T : Templates) (now : Z)
    (params : Params) (products updates : list Product.t) (options : SaveOptions) :
  listProducts ports = inr products ->
  In (updates, options) (saves (fst (run (execute ports T now params)))) ->
  let po := policyOverrides params in
  Forall2
    (fun p u =>
       keepsInputs p u /\
       carriesDecision now (decide po now p) u /\
       (updateCalculatedQuantities po = false ->
        Product.qtyRemaining u = Product.qtyRemaining p) /\
       (updateCalculatedQuantities po = true ->
        Product.qtyRemaining u ==
          ReplenishmentPolicy.currentStock (decide po now p)))
    products updates /\
  updateAllFields options = false /\
  updateQuantities options = updateCalculatedQuantities po.
Proof.
  intros Hl Hin. cbv zeta. rewrite (saves_run ports T now params products Hl) in Hin.
  destruct (dryRun (notification params) || negb _); [destruct Hin|].
  destruct Hin as [Heq|[]]. injection Heq as <- <-.
  split; [|split; [reflexivity | apply orb_false_r]].
  unfold updatesOf. clear Hl.
  induction products as [|p ps IH]; simpl; constructor.
  - apply (updatedProduct_frame (policyOverrides params) now p).
  - exact IH.
Qed.

Lemma saved_updates_keep_inputs_witness :
  exists updates options,
    saves (fst (run (execute (Examples.quietPorts Examples.inventory)
                       Examples.templates 0
                       (Examples.params Js.JUndefined Js.JUndefined false))))
      = [(updates, options)] /\
    map Product.id updates = map Product.id Examples.inventory /\
    updateAllFields options = false.
Proof.
  eexists. eexists. split; [reflexivity|].
  destruct (saved_updates_keep_inputs
              (Examples.quietPorts Examples.inventory) Examples.templates 0
              (Examples.params Js.JUndefined Js.JUndefined false)
              Examples.inventory _ _ eq_refl (or_introl eq_refl)) as (_ & Hall & _).
  split; [reflexivity | exact Hall].
Defined.

(** X11. The calls of a run follow one protocol: the read first; then at
    most one write; then at most one send, and only after a write that
    returned.  A run never sends without having written. *)
Theorem call_protocol (ports : Ports) (T : Templates) (now : Z) (params : Params) :
  let trace := fst (run (execute ports T now params)) in
  (trace = [CallListProducts] \/
   (exists u o, trace = [CallListProducts; CallSaveProducts u o]) \/
   (exists u o m,
      trace = [CallListProducts; CallSaveProducts u o; CallSend m] /\
      saveProducts ports u o = None)) /\
  (sends trace <> [] -> saves trace <> [] /\ dryRun (notification params) = false).
Proof.
  cbv zeta.
  destruct (listProducts ports) as [e|products] eqn:Hl.
  - rewrite (run_execute_read_fails ports T now params e Hl). simpl.
    split; [left; reflexivity | intros H; contradiction].
  - destruct (dueDatesValid (policyOverrides params) now products) eqn:Hv.
    2:{ rewrite (run_execute_range_error ports T now params products Hl Hv). simpl.
        split; [left; reflexivity | intros H; contradiction]. }
    rewrite (run_execute ports T now params products Hl Hv). cbv zeta.
    destruct (dryRun (notification params)); simpl.
    + split; [left; reflexivity | intros H; contradiction].
    + destruct (saveProducts ports _ _) as [e|] eqn:Hs; simpl.
      * split; [right; left; eexists; eexists; reflexivity | intros H; contradiction].
      * destruct (enabled (notification params) && _); simpl.
        -- destruct (send ports _); simpl;
             (split; [right; right; eexists; eexists; eexists;
                      split; [reflexivity | exact Hs]
                     | intros _; split; [discriminate | reflexivity]]).
        -- split; [right; left; eexists; eexists; reflexivity
                  | intros H; contradiction].
Qed.

(** X12. A run ends in error in four ways and no other: the read threw,
    and no other call was made; the read returned and some product's due
    date is an Invalid Date, and the run ends in a [RangeError] with no
    other call made; the write threw, before any send; or the send threw,
    after the one write and the one send.  An error of a collaborator is
    passed on as it is. *)
Theorem errors_propagate_unchanged (ports : Ports) (T : Templates) (now : Z)
    (params : Params) (e : DomainError.t) :
  snd (run (execute ports T now params)) = inl e ->
  let trace := fst (run (execute ports T now params)) in
  (listProducts ports = inl e /\ trace = [CallListProducts]) \/
  (exists products p t,
     listProducts ports = inr products /\ In p products /\
     ReplenishmentPolicy.replenishByDate (decide (policyOverrides params) now p)
       = Some t /\
     JsDate.isValid t = false /\
     e = DomainError.rangeError /\ trace = [CallListProducts]) \/
  (exists u o, saveProducts ports u o = Some e /\
               trace = [CallListProducts; CallSaveProducts u o]) \/
  (exists u o m, saveProducts ports u o = None /\ send ports m = Some e /\
                 trace = [CallListProducts; CallSaveProducts u o; CallSend m]).
Proof.
  cbv zeta.
  destruct (listProducts ports) as [e'|products] eqn:Hl.
  - rewrite (run_execute_read_fails ports T now params e' Hl). simpl.
    intros H. injection H as <-. left. split; reflexivity.
  - destruct (dueDatesValid (policyOverrides params) now products) eqn:Hv.
    2:{ rewrite (run_execute_range_error ports T now params products Hl Hv). simpl.
        intros H. injection H as <-. right. left.
        destruct (dueDatesValid_false _ _ _ Hv) as (p & t & Hin & Hd & Ht).
        exists products, p, t. repeat split; assumption. }
    rewrite (run_execute ports T now params products Hl Hv). cbv zeta.
    destruct (dryRun (notification params)); simpl; [discriminate|].
    destruct (saveProducts ports _ _) as [e'|] eqn:Hs; simpl.
    + intros H. injection H as <-. right. right. left.
      eexists. eexists. split; [exact Hs | reflexivity].
    + destruct (enabled (notification params) && _); simpl; [|discriminate].
      destruct (send ports _) as [e'|] eqn:Hn; simpl; [|discriminate].
      intros H. injection H as <-. right. right. right.
      eexists. eexists. eexists. split; [exact Hs|]. split; [exact Hn | reflexivity].
Qed.

(** A write that throws, and a due date that is not a date. *)
Lemma errors_propagate_unchanged_witness :
  let failed :=
    run (execute (Examples.failingPorts Examples.inventory) Examples.templates 0
           (Examples.params Js.JUndefined Js.JUndefined false)) in
  let invalid :=
    run (execute (Examples.quietPorts [Examples.shampoo 30; Examples.hoard])
           Examples.templates 0
           (Examples.params Js.JUndefined Js.JUndefined false)) in
  (snd failed =
     inl (DomainError.AdapterError "Failed to save to Google Sheets" "google_sheets") /\
   sends (fst failed) = []) /\
  (snd invalid = inl DomainError.rangeError /\ fst invalid = [CallListProducts]).
Proof.
  cbv zeta. split.
  - split; [reflexivity|].
    destruct (errors_propagate_unchanged
                (Examples.failingPorts Examples.inventory) Examples.templates 0
                (Examples.params Js.JUndefined Js.JUndefined false) _ eq_refl)
      as [[H _]|[(ps & p & t & _ & _ & _ & _ & H & _)
                |[(u & o & _ & Ht)|(u & o & m & H & _)]]].
    + discriminate H.
    + discriminate H.
    + rewrite Ht. reflexivity.
    + discriminate H.
  - assert (He : snd (run (execute
                             (Examples.quietPorts [Examples.shampoo 30; Examples.hoard])
                             Examples.templates 0
                             (Examples.params Js.JUndefined Js.JUndefined false)))
                 = inl DomainError.rangeError).
    { rewrite (range_error_run false). reflexivity. }
    split; [exact He|].
    destruct (errors_propagate_unchanged _ _ _ _ _ He)
      as [[H _]|[(ps & p & t & _ & _ & _ & _ & _ & Ht)
                |[(u & o & H & _)|(u & o & m & _ & H & _)]]].
    + discriminate H.
    + exact Ht.
    + discriminate H.
    + discriminate H.
Defined.

(** X13. With notification disabled nothing is ever sent, however many
    items need replenishment.  The write is made as in any run, unless the
    run is dry or a due date is not a valid date; the summary is returned
    whenever every due date is valid and the write returns; and a due date
    that is not valid ends the run in a [RangeError]. *)
Theorem disabled_notification_never_sends (ports : Ports) (T : Templates) (now : Z)
    (params : Params) :
  enabled (notification params) = false ->
  let po := policyOverrides params in
  let outcome := run (execute ports T now params) in
  sends (fst outcome) = [] /\
  (forall products, listProducts ports = inr products ->
     saves (fst outcome) =
       (if dryRun (notification params) || negb (dueDatesValid po now products)
        then []
        else [(updatesOf po now products, saveOptionsOf po)]) /\
     (dueDatesValid po now products = true ->
      dryRun (notification params) = true \/
      saveProducts ports (updatesOf po now products) (saveOptionsOf po) = None ->
      snd outcome = inr (summaryOf params now products)) /\
     (dueDatesValid po now products = false ->
      snd outcome = inl DomainError.rangeError)).
Proof.
  intros Hen. cbv zeta.
  destruct (listProducts ports) as [e|products] eqn:Hl.
  - rewrite (run_execute_read_fails ports T now params e Hl). simpl.
    split; [reflexivity | intros products H; discriminate].
  - pose proof (saves_run ports T now params products Hl) as Hsaves.
    destruct (dueDatesValid (policyOverrides params) now products) eqn:Hv.
    2:{ rewrite (run_execute_range_error ports T now params products Hl Hv) in *.
        simpl. split; [reflexivity|]. intros products' H. injection H as <-.
        rewrite Hv, orb_true_r. repeat split; intros; discriminate. }
    rewrite (run_execute ports T now params products Hl Hv) in *. cbv zeta in *.
    rewrite Hen in *. simpl andb in *. cbv iota in *.
    destruct (dryRun (notification params)); simpl.
    + split; [reflexivity|]. intros products' H. injection H as <-.
      rewrite Hv. repeat split; intros; discriminate.
    + destruct (saveProducts ports _ _) as [e|] eqn:Hs; simpl.
      * split; [reflexivity|]. intros products' H. injection H as <-.
        rewrite Hv. simpl. split; [reflexivity|]. rewrite Hs.
        split; [intros _ [H|H]; discriminate | intros H; discriminate].
      * split; [reflexivity|]. intros products' H. injection H as <-.
        rewrite Hv. simpl. repeat split; intros; discriminate.
Qed.

Lemma disabled_notification_never_sends_witness :
  let params :=
    mkParams (mkPolicyOverrides Js.JUndefined Js.JUndefined None false)
             (mkNotification false false None) in
  let outcome :=
    run (execute (Examples.quietPorts Examples.inventory) Examples.templates 0
           params) in
  sends (fst outcome) = [] /\
  exists s, snd outcome = inr s /\ needsReplenishmentCount s = 1%nat.
Proof.
  destruct (disabled_notification_never_sends
              (Examples.quietPorts Examples.inventory) Examples.templates 0
              (mkParams (mkPolicyOverrides Js.JUndefined Js.JUndefined None false)
                        (mkNotification false false None)) eq_refl)
    as [Hs Hrest].
  destruct (Hrest Examples.inventory eq_refl) as (_ & Hsum & _).
  cbv zeta. split; [exact Hs|].
  eexists. split; [exact (Hsum eq_refl (or_intror eq_refl)) | reflexivity].
Defined.

(** X14. Over an empty inventory a run still writes (an empty batch, unless
    dry), sends nothing, and returns a summary with no rows, counts of 0, the
    horizon fallback, and a window that is the override when that is a
    non-zero number and 5 otherwise. *)
Theorem empty_inventory_run (ports : Ports) (T : Templates) (now : Z)
    (params : Params) :
  listProducts ports = inr [] ->
  let po := policyOverrides params in
  let outcome := run (execute ports T now params) in
  sends (fst outcome) = [] /\
  saves (fst outcome) =
    (if dryRun (notification params) then [] else [([], saveOptionsOf po)]) /\
  (forall s, snd outcome = inr s ->
     items s = [] /\ checkedCount s = 0%nat /\ needsReplenishmentCount s = 0%nat /\
     targetWindowDays (policy s) = Js.orElse (overrideTargetWindowDays po) 5) /\
  (dryRun (notification params) = true \/
   saveProducts ports [] (saveOptionsOf po) = None ->
   exists s, snd outcome = inr s).
Proof.
  intros Hl. cbv zeta.
  rewrite (run_execute ports T now params [] Hl eq_refl). cbv zeta. simpl.
  rewrite andb_false_r.
  destruct (dryRun (notification params)); simpl.
  - repeat apply conj; try reflexivity.
    + intros s H. injection H as <-. repeat split.
    + intros _. eexists. reflexivity.
  - destruct (saveProducts ports [] _) as [e|]; simpl.
    + repeat apply conj; try reflexivity.
      * intros s H. discriminate.
      * intros [H|H]; discriminate.
    + repeat apply conj; try reflexivity.
      * intros s H. injection H as <-. repeat split.
      * intros _. eexists. reflexivity.
Qed.

Lemma empty_inventory_run_witness :
  let outcome :=
    run (execute (Examples.quietPorts []) Examples.templates 0
           (Examples.params Js.JUndefined Js.JUndefined false)) in
  sends (fst outcome) = [] /\
  exists s, snd outcome = inr s /\ targetWindowDays (policy s) = 5.
Proof.
  destruct (empty_inventory_run (Examples.quietPorts []) Examples.templates 0
              (Examples.params Js.JUndefined Js.JUndefined false) eq_refl)
    as (Hs & _ & Hsum & Hret).
  destruct (Hret (or_intror eq_refl)) as [s Hsome].
  cbv zeta. split; [exact Hs|]. exists s. split; [exact Hsome|].
  destruct (Hsum s Hsome) as (_ & _ & _ & Hw). exact Hw.
Defined.

(** ** Loading the inventory, further *)

Lemma loop_accepted (R : Js.Runtime) (rows : list SheetRowMapper.Row) (i : nat)
    (acc : list Product.t * list GoogleSheetsInventoryRepository.Skipped) :
  fst (GoogleSheetsInventoryRepository.loop R rows i acc) =
    fst acc ++ map snd (Loading.accepted R rows i).
Proof.
  revert i acc. induction rows as [|row rows IH]; intros i acc; simpl.
  - rewrite app_nil_r. reflexivity.
  - rewrite IH. unfold GoogleSheetsInventoryRepository.step.
    destruct (SheetRowMapper.rowToProduct R row (i + 2)) as [e|[p|]]; simpl.
    + reflexivity.
    + rewrite <- app_assoc. reflexivity.
    + reflexivity.
Qed.

Lemma length_accepted (R : Js.Runtime) (rows : list SheetRowMapper.Row) (i : nat) :
  (List.length (Loading.accepted R rows i) <= List.length rows)%nat.
Proof.
  revert i. induction rows as [|row rows IH]; intros i; simpl; [lia|].
  specialize (IH (S i)).
  destruct (SheetRowMapper.rowToProduct R row (i + 2)) as [e|[p|]]; simpl; lia.
Qed.

(** X15. A read that succeeds returns, in sheet order, the products of the
    data rows the mapper accepts, and nothing of the header row: never more
    products than data rows; none for a sheet without values or without
    rows; and a row the mapper rejects never fails the read. *)
Theorem listProducts_in_sheet_order (R : Js.Runtime) :
  GoogleSheetsInventoryRepository.listProducts R
    (GoogleSheetsInventoryRepository.GetValues None) = inr [] /\
  GoogleSheetsInventoryRepository.listProducts R
    (GoogleSheetsInventoryRepository.GetValues (Some [])) = inr [] /\
  (forall headerRow dataRows,
     GoogleSheetsInventoryRepository.listProducts R
       (GoogleSheetsInventoryRepository.GetValues (Some (headerRow :: dataRows)))
     = inr (map snd (Loading.accepted R dataRows 0)) /\
     (List.length (Loading.accepted R dataRows 0) <= List.length dataRows)%nat) /\
  (forall values, exists products,
     GoogleSheetsInventoryRepository.listProducts R
       (GoogleSheetsInventoryRepository.GetValues values) = inr products).
Proof.
  repeat apply conj; try reflexivity.
  - intros headerRow dataRows. split; [|apply length_accepted].
    unfold GoogleSheetsInventoryRepository.listProducts.
    rewrite loop_accepted. reflexivity.
  - intros [[|headerRow dataRows]|]; eexists; reflexivity.
Qed.

Lemma accepted_rows_bounds (R : Js.Runtime) (rows : list SheetRowMapper.Row)
    (i j r : nat) (p : Product.t) :
  nth_error (Loading.accepted R rows i) j = Some (r, p) ->
  (i + j + 2 <= r < i + List.length rows + 2)%nat.
Proof.
  revert i j. induction rows as [|row rows IH]; intros i j H; simpl in H.
  - destruct j; discriminate.
  - destruct (SheetRowMapper.rowToProduct R row (i + 2)) as [e|[q|]].
    + apply IH in H. simpl. lia.
    + destruct j as [|j]; simpl in H.
      * injection H as <- <-. simpl. lia.
      * apply IH in H. simpl. lia.
    + apply IH in H. simpl. lia.
Qed.

Lemma accepted_all (R : Js.Runtime) (rows : list SheetRowMapper.Row)
    (i j r : nat) (p : Product.t) :
  List.length (Loading.accepted R rows i) = List.length rows ->
  nth_error (Loading.accepted R rows i) j = Some (r, p) ->
  r = (i + j + 2)%nat.
Proof.
  revert i j. induction rows as [|row rows IH]; intros i j Hlen H; simpl in *.
  - destruct j; discriminate.
  - pose proof (length_accepted R rows (S i)) as Hle.
    destruct (SheetRowMapper.rowToProduct R row (i + 2)) as [e|[q|]];
      simpl in Hlen; try lia.
    destruct j as [|j]; simpl in H.
    + injection H as <- <-. lia.
    + apply IH in H; lia.
Qed.

Lemma accepted_app (R : Js.Runtime) (pre post : list SheetRowMapper.Row) (i : nat) :
  Loading.accepted R (pre ++ post) i =
    Loading.accepted R pre i ++ Loading.accepted R post (i + List.length pre).
Proof.
  revert i. induction pre as [|row pre IH]; intros i; simpl.
  - rewrite Nat.add_0_r. reflexivity.
  - rewrite IH. replace (S i + List.length pre)%nat with (i + S (List.length pre))%nat
      by lia.
    destruct (SheetRowMapper.rowToProduct R row (i + 2)) as [e|[q|]]; reflexivity.
Qed.

(** X16. Row numbers drift.  The product at position [j] of the loaded list
    was read from sheet row [j + 2] or below; from row [j + 2] exactly when
    no data row was dropped; and strictly below it once a row above it was
    dropped (rejected or empty).  The write path numbers rows by position
    alone ([requestFor] starts at row 2). *)
Theorem read_rows_drift (R : Js.Runtime) (dataRows : list SheetRowMapper.Row)
    (j r : nat) (p : Product.t) :
  nth_error (Loading.accepted R dataRows 0) j = Some (r, p) ->
  (j + 2 <= r)%nat /\
  (List.length (Loading.accepted R dataRows 0) = List.length dataRows ->
   r = (j + 2)%nat) /\
  (forall pre dropped post,
     dataRows = pre ++ dropped :: post ->
     (forall q, SheetRowMapper.rowToProduct R dropped (List.length pre + 2)
                <> inr (Some q)) ->
     (List.length pre + 2 < r)%nat ->
     (j + 2 < r)%nat).
Proof.
  intros H. repeat apply conj.
  - apply accepted_rows_bounds in H. lia.
  - intros Hlen. rewrite (accepted_all R dataRows 0 j r p Hlen H). lia.
  - intros pre dropped post -> Hbad Hbelow.
    rewrite accepted_app in H. rewrite Nat.add_0_l in H.
    assert (Hdrop : Loading.accepted R (dropped :: post) (List.length pre) =
                    Loading.accepted R post (S (List.length pre))).
    { simpl. destruct (SheetRowMapper.rowToProduct R dropped (List.length pre + 2))
        as [e|[q|]] eqn:E; try reflexivity.
      exfalso. exact (Hbad q eq_refl). }
    rewrite Hdrop in H.
    pose proof (length_accepted R pre 0) as Hpre.
    destruct (Nat.lt_ge_cases j (List.length (Loading.accepted R pre 0)))
      as [Hin|Hout].
    + rewrite nth_error_app1 in H by exact Hin.
      apply accepted_rows_bounds in H. lia.
    + rewrite nth_error_app2 in H by exact Hout.
      apply accepted_rows_bounds in H. lia.
Qed.

(** A sheet with a rejected row between two products: the second product,
    read from row 4, is at position 1. *)
Lemma read_rows_drift_witness :
  let dataRows :=
    [ [Js.VString "a"; Js.VString "Milk"; Js.VUndefined; Js.VString "ml"];
      [Js.VString "b"; Js.VString ""; Js.VUndefined; Js.VString "ml"];
      [Js.VString "c"; Js.VString "Oil"; Js.VUndefined; Js.VString "ml"] ] in
  exists p,
    nth_error (Loading.accepted Examples.runtime dataRows 0) 1 = Some (4%nat, p) /\
    Product.id p = "c"%string /\ (1 + 2 < 4)%nat.
Proof.
  cbv zeta. eexists. split; [vm_compute; reflexivity|]. split; [reflexivity|].
  refine (proj2 (proj2 (read_rows_drift Examples.runtime _ 1 4 _ _))
            [ [Js.VString "a"; Js.VString "Milk"; Js.VUndefined; Js.VString "ml"] ]
            [Js.VString "b"; Js.VString ""; Js.VUndefined; Js.VString "ml"]
            [ [Js.VString "c"; Js.VString "Oil"; Js.VUndefined; Js.VString "ml"] ]
            eq_refl _ _).
  - vm_compute. reflexivity.
  - intros q H. vm_compute in H. discriminate H.
  - simpl. lia.
Defined.

(** ** Writing back *)

Import GoogleSheetsInventoryRepositoryWrite.

(** X17. [saveProducts] makes no request for an empty list and at most one
    otherwise; each block it writes starts at row 2, ends at row [n + 1] and
    holds one row per product in their order; the block is the derived
    columns Q to U, preceded by the quantity column E when [updateQuantities]
    is set, or all of E to U when [updateAllFields] is. *)
Theorem save_writes_by_position (sheets : Sheets) (products : list Product.t)
    (options : SaveOptions) :
  let n := List.length products in
  let outcome := GoogleSheetsInventoryRepositoryWrite.saveProducts
                   sheets products options in
  (products = [] -> outcome = ([], None)) /\
  (fst outcome = [] \/ fst outcome = [requestFor products options]) /\
  (products <> [] -> clientReady sheets = true ->
   fst outcome = [requestFor products options]) /\
  (forall b, In b (blocks (requestFor products options)) ->
     List.length (values b) = n) /\
  blocks (requestFor products options) =
    if updateAllFields options then
      [mkValueRange ("E2:U" ++ Js.stringOfNat (2 + n - 1))
                    (SheetRowMapperWrite.getAllUpdateValues products)]
    else
      (if updateQuantities options
       then [mkValueRange ("E2:E" ++ Js.stringOfNat (2 + n - 1))
                          (SheetRowMapperWrite.getQuantityUpdateValues products)]
       else []) ++
      [mkValueRange ("Q2:U" ++ Js.stringOfNat (2 + n - 1))
                    (SheetRowMapperWrite.getDerivedFieldsValues products)].
Proof.
  cbv zeta. unfold GoogleSheetsInventoryRepositoryWrite.saveProducts.
  repeat apply conj.
  - intros ->. reflexivity.
  - destruct products as [|p ps]; [left; reflexivity|].
    destruct (clientReady sheets); simpl; [|left; reflexivity].
    destruct (respond sheets _); right; reflexivity.
  - intros Hne Hready. destruct products as [|p ps]; [contradiction|].
    rewrite Hready. simpl. destruct (respond sheets _); reflexivity.
  - intros b Hb. unfold requestFor in Hb.
    destruct (updateAllFields options); [|destruct (updateQuantities options)];
      simpl in Hb; intuition subst; simpl;
      unfold SheetRowMapperWrite.getAllUpdateValues,
             SheetRowMapperWrite.getQuantityUpdateValues,
             SheetRowMapperWrite.getDerivedFieldsValues;
      apply length_map.
  - unfold requestFor.
    destruct (updateAllFields options); [|destruct (updateQuantities options)];
      reflexivity.
Qed.

Lemma save_writes_by_position_witness :
  fst (GoogleSheetsInventoryRepositoryWrite.saveProducts
         (mkSheets true (fun _ => None)) Examples.inventory
         (mkSaveOptions false false))
  = [Update (mkValueRange "Q2:U4"
               (SheetRowMapperWrite.getDerivedFieldsValues Examples.inventory))].
Proof.
  destruct (save_writes_by_position (mkSheets true (fun _ => None))
              Examples.inventory (mkSaveOptions false false))
    as (_ & _ & Hone & _ & _).
  rewrite (Hone ltac:(discriminate) eq_refl). reflexivity.
Defined.

(** X18. Whatever a run of the use case hands to this repository, the
    repository writes the derived columns Q to U and, only when
    [updateCalculatedQuantities] is set, the quantity column E: never a
    caller-owned column between them. *)
Theorem run_writes_derived_columns (ports : Ports) (T : Templates) (now : Z)
    (params : Params) (updates : list Product.t) (options : SaveOptions)
    (b : ValueRange) :
  In (updates, options) (saves (fst (run (execute ports T now params)))) ->
  In b (blocks (requestFor updates options)) ->
  let n := List.length updates in
  b = mkValueRange ("Q2:U" ++ Js.stringOfNat (2 + n - 1))
        (SheetRowMapperWrite.getDerivedFieldsValues updates) \/
  (updateCalculatedQuantities (policyOverrides params) = true /\
   b = mkValueRange ("E2:E" ++ Js.stringOfNat (2 + n - 1))
         (SheetRowMapperWrite.getQuantityUpdateValues updates)).
Proof.
  intros Hsaved Hb. cbv zeta.
  assert (Hopt : options = saveOptionsOf (policyOverrides params)).
  { destruct (listProducts ports) as [e|products] eqn:Hl.
    - rewrite (run_execute_read_fails ports T now params e Hl) in Hsaved.
      destruct Hsaved.
    - rewrite (saves_run ports T now params products Hl) in Hsaved.
      destruct (dryRun (notification params) || negb _); [destruct Hsaved|].
      destruct Hsaved as [H|[]]. injection H as _ <-. reflexivity. }
  subst options. unfold requestFor, saveOptionsOf in Hb. simpl in Hb.
  rewrite orb_false_r in Hb.
  destruct (updateCalculatedQuantities (policyOverrides params)); simpl in Hb.
  - destruct Hb as [<-|[<-|[]]]; [right; split; reflexivity | left; reflexivity].
  - destruct Hb as [<-|[]]. left. reflexivity.
Qed.

Lemma run_writes_derived_columns_witness :
  exists updates options,
    saves (fst (run (execute (Examples.quietPorts Examples.inventory)
                       Examples.templates 0
                       (Examples.params Js.JUndefined Js.JUndefined false))))
      = [(updates, options)] /\
    forall b, In b (blocks (requestFor updates options)) ->
              range b = "Q2:U4"%string.
Proof.
  eexists. eexists. split; [reflexivity|].
  intros b Hb.
  destruct (run_writes_derived_columns
              (Examples.quietPorts Examples.inventory) Examples.templates 0
              (Examples.params Js.JUndefined Js.JUndefined false)
              _ _ b (or_introl eq_refl) Hb) as [->|[Hset _]].
  - reflexivity.
  - discriminate Hset.
Defined.

(** X19. Every failure of the repository is an [AdapterError] tagged
    [google_sheets], its message chosen by the error code (403, 404, 429,
    else a generic one); a client that cannot be built fails a write with
    the generic write message and a read with the client message. *)
Theorem repository_errors (R : Js.Runtime) :
  (forall response e,
     GoogleSheetsInventoryRepository.listProducts R response = inl e ->
     exists message, e = DomainError.AdapterError message "google_sheets") /\
  (forall sheets products options e,
     snd (GoogleSheetsInventoryRepositoryWrite.saveProducts sheets products options)
       = Some e ->
     products <> [] /\
     exists message, e = DomainError.AdapterError message "google_sheets") /\
  (forall message,
     GoogleSheetsInventoryRepository.listProducts R
       (GoogleSheetsInventoryRepository.ClientFailed message)
     = inl (DomainError.AdapterError "Failed to initialize Google Sheets client"
              "google_sheets")) /\
  (forall respond products options, products <> [] ->
     GoogleSheetsInventoryRepositoryWrite.saveProducts
       (mkSheets false respond) products options
     = ([], Some (DomainError.AdapterError "Failed to save to Google Sheets"
                    "google_sheets"))) /\
  (forall message,
     GoogleSheetsInventoryRepository.listProducts R
       (GoogleSheetsInventoryRepository.GetFailed (Some 429%Z) message)
     = inl (saveError (Some 429%Z))).
Proof.
  repeat apply conj.
  - intros response e H. unfold GoogleSheetsInventoryRepository.listProducts in H.
    destruct response as [m|c m|[[|h d]|]]; try discriminate;
      injection H as <-; eexists; reflexivity.
  - intros sheets products options e H.
    unfold GoogleSheetsInventoryRepositoryWrite.saveProducts in H.
    destruct products as [|p ps]; [discriminate|].
    split; [discriminate|].
    destruct (clientReady sheets); simpl in H.
    + destruct (respond sheets _); [|discriminate].
      injection H as <-. eexists. reflexivity.
    + injection H as <-. eexists. reflexivity.
  - reflexivity.
  - intros respond products options Hne.
    destruct products as [|p ps]; [contradiction | reflexivity].
  - reflexivity.
Qed.

(** ** The HTTP layer *)

(** X20. The middleware hands a request on exactly when it carries a
    non-empty key equal to the configured one; every other request is
    answered 401 [unauthorized]. *)
Theorem api_key_gate (apiKey : string) (providedKey : option string) :
  (AuthApiKey.createApiKeyAuth apiKey providedKey = AuthApiKey.Next <->
   providedKey = Some apiKey /\ apiKey <> ""%string) /\
  (AuthApiKey.createApiKeyAuth apiKey providedKey <> AuthApiKey.Next ->
   exists message,
     AuthApiKey.createApiKeyAuth apiKey providedKey =
       AuthApiKey.Respond 401 "unauthorized" message).
Proof.
  unfold AuthApiKey.createApiKeyAuth.
  destruct providedKey as [key|].
  - destruct (String.eqb key "") eqn:Ee.
    + apply String.eqb_eq in Ee. subst key. split.
      * split; [discriminate|]. intros [H Hne]. injection H as <-.
        exfalso. apply Hne. reflexivity.
      * intros _. eexists. reflexivity.
    + apply String.eqb_neq in Ee.
      destruct (String.eqb key apiKey) eqn:Ek; simpl.
      * apply String.eqb_eq in Ek. subst key. split.
        -- split; [intros _; split; [reflexivity | exact Ee] | reflexivity].
        -- intros H. exfalso. apply H. reflexivity.
      * apply String.eqb_neq in Ek. split.
        -- split; [discriminate|]. intros [H _]. injection H as H. contradiction.
        -- intros _. eexists. reflexivity.
  - split.
    + split; [discriminate | intros [H _]; discriminate].
    + intros _. eexists. reflexivity.
Qed.

Lemma getSecret_absent {A : Type} (env : EnvConfig.Env) (path : string)
    (requestValue : EnvConfig.Field A) (envValue v : option A) :
  EnvConfig.allowInlineSecrets env = false ->
  EnvConfig._getSecret env path requestValue envValue = inr v ->
  requestValue = EnvConfig.Absent /\ v = envValue.
Proof.
  intros Hno H. unfold EnvConfig._getSecret in H. rewrite Hno in H.
  destruct requestValue; simpl in H; try discriminate.
  injection H as <-. split; reflexivity.
Qed.

Lemma missingString_false (x : option string) :
  EnvConfig.missingString x = false -> exists s, x = Some s /\ s <> ""%string.
Proof.
  destruct x as [s|]; simpl; [|discriminate].
  intros H. apply String.eqb_neq in H. exists s. split; [reflexivity | exact H].
Qed.

Lemma missing_nil (config : EnvConfig.Merged) :
  EnvConfig.missing config = [] ->
  EnvConfig.missingString (EnvConfig.mSpreadsheetId config) = false /\
  EnvConfig.missingString (EnvConfig.mClientEmail config) = false /\
  EnvConfig.missingString (EnvConfig.mPrivateKey config) = false /\
  EnvConfig.missingString (EnvConfig.mUser config) = false /\
  EnvConfig.missingString (EnvConfig.mPass config) = false /\
  EnvConfig.missingString (EnvConfig.mFrom config) = false /\
  EnvConfig.missingString (EnvConfig.mTo config) = false.
Proof.
  unfold EnvConfig.missing.
  destruct (EnvConfig.missingString (EnvConfig.mSpreadsheetId config));
    [discriminate|].
  destruct (EnvConfig.missingString (EnvConfig.mClientEmail config));
    [discriminate|].
  destruct (EnvConfig.missingString (EnvConfig.mPrivateKey config));
    [discriminate|].
  destruct (EnvConfig.missingString (EnvConfig.mUser config)); [discriminate|].
  destruct (EnvConfig.missingString (EnvConfig.mPass config)); [discriminate|].
  destruct (EnvConfig.missingString (EnvConfig.mFrom config)); [discriminate|].
  destruct (EnvConfig.missingString (EnvConfig.mTo config)); [discriminate|].
  intros _. repeat split.
Qed.

(** What a merge that succeeds went through. *)
Lemma merge_inversion (env : EnvConfig.Env) (body : EnvConfig.RequestConfig)
    (config : EnvConfig.Merged) :
  EnvConfig.mergeWithRequestConfig env body = inr config ->
  let s := EnvConfig.secrets body in
  EnvConfig._getSecret env "google.clientEmail" (EnvConfig.googleClientEmail s)
    (EnvConfig.envClientEmail env) = inr (EnvConfig.mClientEmail config) /\
  EnvConfig._getSecret env "google.privateKey" (EnvConfig.googlePrivateKey s)
    (EnvConfig.envPrivateKey env) = inr (EnvConfig.mPrivateKey config) /\
  EnvConfig._getSecret env "smtp.host" (EnvConfig.smtpHost s)
    (Some (EnvConfig.envHost env)) = inr (EnvConfig.mHost config) /\
  EnvConfig._getSecret env "smtp.port" (EnvConfig.smtpPort s)
    (Some (EnvConfig.envPort env)) = inr (EnvConfig.mPort config) /\
  EnvConfig._getSecret env "smtp.secure" (EnvConfig.smtpSecure s)
    (Some (EnvConfig.envSecure env)) = inr (EnvConfig.mSecure config) /\
  EnvConfig._getSecret env "smtp.user" (EnvConfig.smtpUser s)
    (EnvConfig.envUser env) = inr (EnvConfig.mUser config) /\
  EnvConfig._getSecret env "smtp.pass" (EnvConfig.smtpPass s)
    (EnvConfig.envPass env) = inr (EnvConfig.mPass config) /\
  EnvConfig._getSecret env "smtp.from" (EnvConfig.smtpFrom s)
    (EnvConfig.envFrom env) = inr (EnvConfig.mFrom config) /\
  EnvConfig._getSecret env "smtp.to" (EnvConfig.smtpTo s)
    (EnvConfig.envTo env) = inr (EnvConfig.mTo config) /\
  EnvConfig.missing config = [] /\
  EnvConfig.mSpreadsheetId config =
    EnvConfig.orOption (EnvConfig.spreadsheetId (EnvConfig.inventory body))
      (EnvConfig.envSpreadsheetId env) /\
  Routes.paramsOf config =
    mkParams
      (mkPolicyOverrides
         (Js.JNumber (EnvConfig.orDefault
                        (EnvConfig.reviewHorizonDays (EnvConfig.options body)) 14))
         (match EnvConfig.overrideTargetWindowDays (EnvConfig.options body) with
          | Some w => Js.JNumber w
          | None => Js.JNull
          end)
         None false)
      (mkNotification
         (EnvConfig.orDefault (EnvConfig.notificationEnabled body) true)
         (EnvConfig.orDefault (EnvConfig.dryRun (EnvConfig.options body)) false)
         (Some (EnvConfig.orDefault
                  (EnvConfig.subjectPrefix (EnvConfig.options body))
                  "[Pantry Pilot]"%string))).
Proof.
  unfold EnvConfig.mergeWithRequestConfig, EnvConfig.andThen. cbv zeta.
  destruct (EnvConfig._getSecret env "google.clientEmail" _ _) as [e|v1];
    [discriminate|].
  destruct (EnvConfig._getSecret env "google.privateKey" _ _) as [e|v2];
    [discriminate|].
  destruct (EnvConfig._getSecret env "smtp.host" _ _) as [e|v3]; [discriminate|].
  destruct (EnvConfig._getSecret env "smtp.port" _ _) as [e|v4]; [discriminate|].
  destruct (EnvConfig._getSecret env "smtp.secure" _ _) as [e|v5]; [discriminate|].
  destruct (EnvConfig._getSecret env "smtp.user" _ _) as [e|v6]; [discriminate|].
  destruct (EnvConfig._getSecret env "smtp.pass" _ _) as [e|v7]; [discriminate|].
  destruct (EnvConfig._getSecret env "smtp.from" _ _) as [e|v8]; [discriminate|].
  destruct (EnvConfig._getSecret env "smtp.to" _ _) as [e|v9]; [discriminate|].
  unfold EnvConfig._validateMergedConfig.
  match goal with
  | |- match (match EnvConfig.missing ?m with _ => _ end) with _ => _ end = _ -> _ =>
      destruct (EnvConfig.missing m) eqn:Hm; [|discriminate]
  end.
  intros H. injection H as <-. simpl.
  repeat apply conj; try reflexivity. exact Hm.
Qed.

(** X21. With inline secrets not allowed, a merge that succeeds took no
    secret from the request: all nine are absent from the body and the
    credentials are the environment's; and whoever allows them, a merged
    configuration has a non-empty spreadsheet id, client email, private key,
    SMTP user, password, sender and recipient. *)
Theorem merge_keeps_environment_secrets (env : EnvConfig.Env)
    (body : EnvConfig.RequestConfig) (config : EnvConfig.Merged) :
  EnvConfig.mergeWithRequestConfig env body = inr config ->
  (EnvConfig.allowInlineSecrets env = false ->
   EnvConfig.secrets body =
     EnvConfig.mkRequestSecrets EnvConfig.Absent EnvConfig.Absent EnvConfig.Absent
       EnvConfig.Absent EnvConfig.Absent EnvConfig.Absent EnvConfig.Absent
       EnvConfig.Absent EnvConfig.Absent /\
   EnvConfig.mClientEmail config = EnvConfig.envClientEmail env /\
   EnvConfig.mPrivateKey config = EnvConfig.envPrivateKey env /\
   EnvConfig.mHost config = Some (EnvConfig.envHost env) /\
   EnvConfig.mPort config = Some (EnvConfig.envPort env) /\
   EnvConfig.mSecure config = Some (EnvConfig.envSecure env) /\
   EnvConfig.mUser config = EnvConfig.envUser env /\
   EnvConfig.mPass config = EnvConfig.envPass env /\
   EnvConfig.mFrom config = EnvConfig.envFrom env /\
   EnvConfig.mTo config = EnvConfig.envTo env) /\
  (forall field,
     In field [EnvConfig.mSpreadsheetId config; EnvConfig.mClientEmail config;
               EnvConfig.mPrivateKey config; EnvConfig.mUser config;
               EnvConfig.mPass config; EnvConfig.mFrom config;
               EnvConfig.mTo config] ->
     exists s, field = Some s /\ s <> ""%string).
Proof.
  intros Hm. pose proof (merge_inversion env body config Hm) as H.
  cbv zeta in H.
  destruct H as (H1 & H2 & H3 & H4 & H5 & H6 & H7 & H8 & H9 & Hmiss & _).
  split.
  - intros Hno.
    destruct (getSecret_absent env _ _ _ _ Hno H1) as [A1 ->].
    destruct (getSecret_absent env _ _ _ _ Hno H2) as [A2 ->].
    destruct (getSecret_absent env _ _ _ _ Hno H3) as [A3 ->].
    destruct (getSecret_absent env _ _ _ _ Hno H4) as [A4 ->].
    destruct (getSecret_absent env _ _ _ _ Hno H5) as [A5 ->].
    destruct (getSecret_absent env _ _ _ _ Hno H6) as [A6 ->].
    destruct (getSecret_absent env _ _ _ _ Hno H7) as [A7 ->].
    destruct (getSecret_absent env _ _ _ _ Hno H8) as [A8 ->].
    destruct (getSecret_absent env _ _ _ _ Hno H9) as [A9 ->].
    split; [|repeat split].
    destruct (EnvConfig.secrets body); simpl in *. congruence.
  - destruct (missing_nil config Hmiss) as (M1 & M2 & M3 & M4 & M5 & M6 & M7).
    intros field Hin. simpl in Hin.
    destruct Hin as [<-|[<-|[<-|[<-|[<-|[<-|[<-|[]]]]]]]];
      apply missingString_false; assumption.
Qed.

(** An environment with every required value, and one that allows inline
    secrets. *)
Definition exampleEnv (allow : bool) : EnvConfig.Env :=
  EnvConfig.mkEnv "a-long-random-key" allow (Some "sheet-1"%string) "Inventory"
    (Some "svc@example.iam"%string) (Some "KEY"%string) "smtp.gmail.com" 465 true
    (Some "user@example.com"%string) (Some "app-password"%string)
    (Some "from@example.com"%string) (Some "to@example.com"%string).

(** The body [{}]. *)
Definition emptyBody : EnvConfig.RequestConfig :=
  EnvConfig.mkRequestConfig
    (EnvConfig.mkRequestOptions None None None None None None)
    (EnvConfig.mkRequestInventory None None None)
    (EnvConfig.mkRequestSecrets EnvConfig.Absent EnvConfig.Absent EnvConfig.Absent
       EnvConfig.Absent EnvConfig.Absent EnvConfig.Absent EnvConfig.Absent
       EnvConfig.Absent EnvConfig.Absent)
    None.

(** A body with these options and nothing else. *)
Definition bodyWith (o : EnvConfig.RequestOptions) : EnvConfig.RequestConfig :=
  EnvConfig.mkRequestConfig o (EnvConfig.inventory emptyBody)
    (EnvConfig.secrets emptyBody) None.

Lemma merge_keeps_environment_secrets_witness :
  exists config,
    EnvConfig.mergeWithRequestConfig (exampleEnv false) emptyBody = inr config /\
    EnvConfig.mPass config = Some "app-password"%string.
Proof.
  eexists. split; [reflexivity|].
  destruct (merge_keeps_environment_secrets (exampleEnv false) emptyBody _ eq_refl)
    as [Henv _].
  destruct (Henv eq_refl) as (_ & _ & _ & _ & _ & _ & _ & Hpass & _).
  exact Hpass.
Defined.

(** An inline secret in production is refused, naming the first one found. *)
Example inline_secret_refused :
  EnvConfig.mergeWithRequestConfig (exampleEnv false)
    (EnvConfig.mkRequestConfig (EnvConfig.options emptyBody)
       (EnvConfig.inventory emptyBody)
       (EnvConfig.mkRequestSecrets EnvConfig.Absent EnvConfig.Absent
          EnvConfig.Absent EnvConfig.Absent EnvConfig.Absent EnvConfig.Absent
          (EnvConfig.Given "hunter2"%string) EnvConfig.Absent EnvConfig.Null)
       None)
  = inl (DomainError.ValidationError
           "Inline secrets not allowed in production. Remove secrets.smtp.pass from request body.").
Proof. reflexivity. Qed.

(** X22. The handler answers 200 with the summary exactly when the merge
    succeeds and the use case returns; 400 [bad_request] with the message of
    a [ValidationError], from the merge or from the use case; 500
    [adapter_error] with adapter and message of an [AdapterError]; and for
    any other error 500 [internal_error] with a fixed message, never the
    error's own. *)
Theorem route_responses (env : EnvConfig.Env)
    (useCase : Params -> DomainError.t + Summary) (body : EnvConfig.RequestConfig) :
  let merged := EnvConfig.mergeWithRequestConfig env body in
  let thrown (e : DomainError.t) :=
    merged = inl e \/
    exists config, merged = inr config /\ useCase (Routes.paramsOf config) = inl e in
  match Routes.checkReplenishment env useCase body with
  | Routes.Json200 result =>
      exists config, merged = inr config /\
                     useCase (Routes.paramsOf config) = inr result
  | Routes.Json400 code message =>
      code = "bad_request"%string /\ thrown (DomainError.ValidationError message)
  | Routes.Json500Adapter code adapter message =>
      code = "adapter_error"%string /\
      thrown (DomainError.AdapterError message adapter)
  | Routes.Json500 code message =>
      code = "internal_error"%string /\
      message = "An internal server error occurred"%string /\
      exists hidden, thrown (DomainError.PlainError hidden)
  end.
Proof.
  cbv zeta. unfold Routes.checkReplenishment.
  destruct (EnvConfig.mergeWithRequestConfig env body) as [e|config].
  - destruct e as [m|m|m a]; simpl.
    + split; [reflexivity|]. split; [reflexivity|]. exists m. left. reflexivity.
    + split; [reflexivity|]. left. reflexivity.
    + split; [reflexivity|]. left. reflexivity.
  - destruct (useCase (Routes.paramsOf config)) as [e|result] eqn:Hu.
    + destruct e as [m|m|m a]; simpl.
      * split; [reflexivity|]. split; [reflexivity|]. exists m. right.
        exists config. split; [reflexivity | exact Hu].
      * split; [reflexivity|]. right. exists config. split; [reflexivity | exact Hu].
      * split; [reflexivity|]. right. exists config. split; [reflexivity | exact Hu].
    + exists config. split; [reflexivity | exact Hu].
Qed.

(** X23. Through the route, [autoDecrementStock] and
    [updateCalculatedQuantities] of the request never reach the use case:
    stock is always projected, the quantity column is never asked to be
    written, and a run writes the derived columns Q to U only.  The horizon
    reaches the engine as the request's, 14 when it gives none; a request
    horizon of 0 is used as 0 and reported as 14. *)
Theorem route_fixes_policy (env : EnvConfig.Env) (body : EnvConfig.RequestConfig)
    (config : EnvConfig.Merged) :
  EnvConfig.mergeWithRequestConfig env body = inr config ->
  let params := Routes.paramsOf config in
  let po := policyOverrides params in
  autoDecrementStock po = None /\
  updateCalculatedQuantities po = false /\
  (forall now p,
     ReplenishmentPolicy.autoDecrementStock
       (ReplenishmentPolicy.mkOptions now (reviewHorizonDays po)
          (overrideTargetWindowDays po)
          (match autoDecrementStock po with Some false => false | _ => true end))
     = true /\
     ReplenishmentPolicy.currentStock (decide po now p) =
       Product.calculateCurrentStock p now) /\
  saveOptionsOf po = mkSaveOptions false false /\
  (forall ports T now updates options b,
     In (updates, options) (saves (fst (run (execute ports T now params)))) ->
     In b (blocks (requestFor updates options)) ->
     b = mkValueRange ("Q2:U" ++ Js.stringOfNat (2 + List.length updates - 1))
           (SheetRowMapperWrite.getDerivedFieldsValues updates)) /\
  reviewHorizonDays po =
    Js.JNumber (EnvConfig.orDefault
                  (EnvConfig.reviewHorizonDays (EnvConfig.options body)) 14) /\
  (EnvConfig.reviewHorizonDays (EnvConfig.options body) = Some 0 ->
   Js.withDefault (reviewHorizonDays po) 14 = 0 /\
   Js.orElse (reviewHorizonDays po) 14 = 14).
Proof.
  intros Hm. pose proof (merge_inversion env body config Hm) as H.
  cbv zeta in H.
  destruct H as (_ & _ & _ & _ & _ & _ & _ & _ & _ & _ & _ & Hp).
  cbv zeta. rewrite Hp. simpl.
  repeat apply conj; try reflexivity.
  - intros now p. split; [reflexivity|].
    unfold decide. rewrite currentStock_computeDecision. reflexivity.
  - intros ports T now updates options b Hs Hb.
    match type of Hs with
    | In _ (saves (fst (run (execute _ _ _ ?prm)))) =>
        assert (Hopt : options = saveOptionsOf (policyOverrides prm))
    end.
    { destruct (listProducts ports) as [e|products] eqn:Hl.
      - rewrite (run_execute_read_fails ports T now _ e Hl) in Hs. destruct Hs.
      - rewrite (saves_run ports T now _ products Hl) in Hs.
        match type of Hs with
        | In _ (if ?c then _ else _) => destruct c; [destruct Hs|]
        end.
        destruct Hs as [E|[]]. injection E as _ <-. reflexivity. }
    subst options. simpl in Hb. destruct Hb as [<-|[]]. reflexivity.
  - intros H0. rewrite H0. split; reflexivity.
Qed.

Lemma route_fixes_policy_witness :
  exists config,
    EnvConfig.mergeWithRequestConfig (exampleEnv false)
      (bodyWith (EnvConfig.mkRequestOptions None None (Some 0) None
                   (Some false) (Some true))) = inr config /\
    autoDecrementStock (policyOverrides (Routes.paramsOf config)) = None /\
    updateCalculatedQuantities (policyOverrides (Routes.paramsOf config)) = false.
Proof.
  eexists. split; [reflexivity|].
  destruct (route_fixes_policy (exampleEnv false)
              (bodyWith (EnvConfig.mkRequestOptions None None (Some 0) None
                           (Some false) (Some true))) _ eq_refl)
    as (Ha & Hu & _).
  exact (conj Ha Hu).
Defined.

(** X24. The subject prefix of a request made through the route: the
    request's when it gives a non-empty one, [[Pantry Pilot]] when it gives
    none, and [[Home Inventory]] when it gives the empty string. *)
Theorem route_subject_prefix (env : EnvConfig.Env) (body : EnvConfig.RequestConfig)
    (config : EnvConfig.Merged) :
  EnvConfig.mergeWithRequestConfig env body = inr config ->
  prefixOf (notification (Routes.paramsOf config)) =
    match EnvConfig.subjectPrefix (EnvConfig.options body) with
    | None => "[Pantry Pilot]"%string
    | Some s => if String.eqb s "" then "[Home Inventory]"%string else s
    end.
Proof.
  intros Hm. pose proof (merge_inversion env body config Hm) as H.
  cbv zeta in H.
  destruct H as (_ & _ & _ & _ & _ & _ & _ & _ & _ & _ & _ & Hp).
  rewrite Hp. unfold prefixOf. simpl.
  destruct (EnvConfig.subjectPrefix (EnvConfig.options body)); reflexivity.
Qed.

Lemma route_subject_prefix_witness :
  exists config,
    EnvConfig.mergeWithRequestConfig (exampleEnv false)
      (bodyWith (EnvConfig.mkRequestOptions None (Some ""%string) None None
                   None None)) = inr config /\
    prefixOf (notification (Routes.paramsOf config)) = "[Home Inventory]"%string.
Proof.
  eexists. split; [reflexivity|].
  exact (route_subject_prefix (exampleEnv false)
           (bodyWith (EnvConfig.mkRequestOptions None (Some ""%string) None None
                        None None)) _ eq_refl).
Defined.

(** ** The plain body of the report *)

Lemma length_repeat_char (c : string) (n : nat) :
  String.length c = 1%nat -> String.length (TextEmail.repeat c n) = n.
Proof.
  intros Hc. induction n as [|n IH]; simpl; [reflexivity|].
  rewrite length_append, Hc, IH. reflexivity.
Qed.

Lemma length_padEnd (s : string) (n : nat) :
  String.length (TextEmail.padEnd s n) = Nat.max (String.length s) n.
Proof.
  unfold TextEmail.padEnd. rewrite length_append.
  rewrite length_repeat_char by reflexivity. lia.
Qed.

Lemma maxOf_ge (xs : list nat) (d x : nat) :
  In x xs -> (x <= TextEmail.maxOf xs d)%nat.
Proof.
  unfold TextEmail.maxOf. induction xs as [|y ys IH]; simpl; [intros []|].
  intros [->|H]; [lia|]. specialize (IH H). lia.
Qed.

Lemma maxOf_ge_default (xs : list nat) (d : nat) : (d <= TextEmail.maxOf xs d)%nat.
Proof.
  unfold TextEmail.maxOf. induction xs as [|y ys IH]; simpl; lia.
Qed.

(** X25. In the plain body the table is aligned: the header row and the row
    of every item start with three cells of the same three widths (at least
    4, 5 and 9, and wide enough for every name, brand and stock display),
    separated by [" | "]; and the rule under the header is as long as the
    header row. *)
Theorem text_table_aligned (R : Js.Runtime) (items : list ResultItem) :
  let w1 := TextEmail.maxNameLen items in
  let w2 := TextEmail.maxBrandLen items in
  let w3 := TextEmail.maxQtyLen R items in
  let starts (line : string) :=
    exists c1 c2 c3 rest,
      line = (c1 ++ " | " ++ c2 ++ " | " ++ c3 ++ " | " ++ rest)%string /\
      String.length c1 = w1 /\ String.length c2 = w2 /\ String.length c3 = w3 in
  starts (TextEmail.headerRow R items) /\
  (forall item, In item items ->
     starts (TextEmail.row R items item) /\
     (String.length (name item) <= w1)%nat) /\
  String.length (TextEmail.repeat "-" (String.length (TextEmail.headerRow R items)))
    = String.length (TextEmail.headerRow R items).
Proof.
  cbv zeta. repeat apply conj.
  - unfold TextEmail.headerRow.
    exists (TextEmail.padEnd "Name" (TextEmail.maxNameLen items)),
           (TextEmail.padEnd "Brand" (TextEmail.maxBrandLen items)),
           (TextEmail.padEnd "Remaining" (TextEmail.maxQtyLen R items)),
           "Days Left | Replenish By | Recommended | Buy"%string.
    split; [reflexivity|].
    rewrite !length_padEnd.
    pose proof (maxOf_ge_default
                  (map (fun i => String.length (name i)) items) 4).
    pose proof (maxOf_ge_default
                  (map (fun i => String.length (TextEmail.orEmptyString (brand i)))
                       items) 5).
    pose proof (maxOf_ge_default
                  (map (fun i => String.length (TextEmail.stockDisplay R i)) items) 9).
    unfold TextEmail.maxNameLen, TextEmail.maxBrandLen, TextEmail.maxQtyLen.
    simpl String.length. repeat split; lia.
  - intros item Hin.
    assert (H1 : (String.length (name item) <= TextEmail.maxNameLen items)%nat).
    { apply maxOf_ge. apply (in_map (fun i => String.length (name i))). exact Hin. }
    assert (H2 : (String.length (TextEmail.orEmptyString (brand item))
                  <= TextEmail.maxBrandLen items)%nat).
    { apply maxOf_ge.
      apply (in_map (fun i => String.length (TextEmail.orEmptyString (brand i)))).
      exact Hin. }
    assert (H3 : (String.length (TextEmail.stockDisplay R item)
                  <= TextEmail.maxQtyLen R items)%nat).
    { apply maxOf_ge.
      apply (in_map (fun i => String.length (TextEmail.stockDisplay R i))).
      exact Hin. }
    split; [|exact H1].
    unfold TextEmail.row.
    eexists. eexists. eexists. eexists. split; [reflexivity|].
    rewrite !length_padEnd. repeat split; lia.
  - apply length_repeat_char. reflexivity.
Qed.

(** ** Reading a row, field by field *)

(** The product of an accepted row, written out. *)
Lemma rowToProduct_fields (R : Js.Runtime) (row : SheetRowMapper.Row) (i : nat)
    (p : Product.t) :
  SheetRowMapper.rowToProduct R row i = inr (Some p) ->
  p =
    Product.mk
      (Js.trim R (Js.toString R (SheetRowMapper.cell row 0)))
      (Js.trim R (Js.toString R (SheetRowMapper.cell row 1)))
      (SheetRowMapper.trimmedOrNull R (SheetRowMapper.cell row 2))
      (Js.toLowerCase R (Js.trim R (Js.toString R (SheetRowMapper.cell row 3))))
      (SheetRowMapper._parseNumber R (SheetRowMapper.cell row 4) 0)
      (SheetRowMapper._parseNumberOrNull R (SheetRowMapper.cell row 5))
      (SheetRowMapper._parseNumberOrNull R (SheetRowMapper.cell row 6))
      (SheetRowMapper._parseDate R (SheetRowMapper.cell row 7))
      (match SheetRowMapper.cell row 8 with
       | Js.VBoolean true =>
           Some (mkAutoSubscription true (Js.orNull (SheetRowMapper.cell row 9)))
       | Js.VString s =>
           if String.eqb s "TRUE"
           then Some (mkAutoSubscription true (Js.orNull (SheetRowMapper.cell row 9)))
           else None
       | _ => None
       end)
      (if Js.truthyValue (SheetRowMapper.cell row 10)
          || Js.truthyValue (SheetRowMapper.cell row 11)
       then Some (mkBuy (Js.orNull (SheetRowMapper.cell row 10))
                        (Js.orNull (SheetRowMapper.cell row 11)))
       else None)
      (SheetRowMapper._parseNumber R (SheetRowMapper.cell row 12) 2)
      (SheetRowMapper._parseNumber R (SheetRowMapper.cell row 13) 3)
      (SheetRowMapper._parseNumberOrNull R (SheetRowMapper.cell row 14))
      (SheetRowMapper._parseNumberOrNull R (SheetRowMapper.cell row 15))
      (SheetRowMapper._parseBoolean R (SheetRowMapper.cell row 16))
      (SheetRowMapper._parseDate R (SheetRowMapper.cell row 17))
      (SheetRowMapper._parseNumberOrNull R (SheetRowMapper.cell row 18))
      (SheetRowMapper.trimmedOrNull R (SheetRowMapper.cell row 19))
      (SheetRowMapper._parseDate R (SheetRowMapper.cell row 20)).
Proof.
  unfold SheetRowMapper.rowToProduct.
  destruct row as [|c row]; [discriminate|].
  cbv zeta.
  destruct (negb (Js.truthyValue (SheetRowMapper.cell (c :: row) 0))
            || negb (Js.truthyValue (SheetRowMapper.cell (c :: row) 1))
            || negb (Js.truthyValue (SheetRowMapper.cell (c :: row) 3)));
    [discriminate|].
  match goal with
  | |- match Product.new ?a with _ => _ end = _ -> _ =>
      destruct (Product.new a) as [msg|q] eqn:Enew; [discriminate|]
  end.
  intros H. injection H as <-.
  apply new_wellFormed in Enew. destruct Enew as [-> _]. reflexivity.
Qed.

(** A cell that is blank, or that does not read as a number. *)
Definition unreadable (R : Js.Runtime) (v : Js.Value) : Prop :=
  SheetRowMapper.isBlank v = true \/ Js.toNumber R v = None.

Lemma parseNumber_unreadable (R : Js.Runtime) (v : Js.Value) (d : Q) :
  unreadable R v -> SheetRowMapper._parseNumber R v d = d.
Proof.
  intros [H|H]; unfold SheetRowMapper._parseNumber.
  - rewrite H. reflexivity.
  - rewrite H. destruct (SheetRowMapper.isBlank v); reflexivity.
Qed.

Lemma parseNumberOrNull_unreadable (R : Js.Runtime) (v : Js.Value) :
  unreadable R v -> SheetRowMapper._parseNumberOrNull R v = None.
Proof.
  intros [H|H]; unfold SheetRowMapper._parseNumberOrNull.
  - rewrite H. reflexivity.
  - rewrite H. destruct (SheetRowMapper.isBlank v); reflexivity.
Qed.

(** X26. In a product loaded from a row: a lead time or safety stock cell
    that is blank or not a number gives 2 and 3; a rate, minimum order or
    pack size cell that is blank or not a number gives null; a quantity cell
    that is blank or not a number gives 0; and the subscription is active
    exactly when its cell is the boolean [true] or the string [TRUE] (no
    other spelling counts). *)
Theorem row_defaults (R : Js.Runtime) (row : SheetRowMapper.Row) (i : nat)
    (p : Product.t) :
  SheetRowMapper.rowToProduct R row i = inr (Some p) ->
  (unreadable R (SheetRowMapper.cell row 4) -> Product.qtyRemaining p = 0) /\
  (unreadable R (SheetRowMapper.cell row 12) -> Product.leadTimeDays p = 2) /\
  (unreadable R (SheetRowMapper.cell row 13) -> Product.safetyStockDays p = 3) /\
  (unreadable R (SheetRowMapper.cell row 5) ->
   Product.avgDailyConsumption p = None) /\
  (unreadable R (SheetRowMapper.cell row 6) ->
   Product.avgMonthlyConsumption p = None) /\
  (unreadable R (SheetRowMapper.cell row 14) -> Product.minOrderQty p = None) /\
  (unreadable R (SheetRowMapper.cell row 15) -> Product.packSize p = None) /\
  (Product.hasAutoSubscription p = true <->
   SheetRowMapper.cell row 8 = Js.VBoolean true \/
   SheetRowMapper.cell row 8 = Js.VString "TRUE").
Proof.
  intros H. rewrite (rowToProduct_fields R row i p H). cbn.
  repeat apply conj;
    try (intros Hu; first [ apply parseNumber_unreadable; exact Hu
                          | apply parseNumberOrNull_unreadable; exact Hu ]).
  - unfold Product.hasAutoSubscription. cbn.
    destruct (SheetRowMapper.cell row 8) as [ | s | q | [ | ] ]; cbn;
      try (intros Hf; discriminate Hf).
    + destruct (String.eqb s "TRUE") eqn:E; cbn.
      * intros _. right. apply String.eqb_eq in E. subst. reflexivity.
      * intros Hf. discriminate Hf.
    + intros _. left. reflexivity.
  - unfold Product.hasAutoSubscription. cbn.
    intros [ -> | -> ]; reflexivity.
Qed.

Lemma row_defaults_witness :
  exists p,
    SheetRowMapper.rowToProduct Examples.runtime
      [Js.VString "abc-001"; Js.VString "Shampoo"; Js.VUndefined; Js.VString "ml";
       Js.VString "30"; Js.VString "8"; Js.VUndefined; Js.VUndefined;
       Js.VString "true"; Js.VUndefined; Js.VUndefined; Js.VUndefined;
       Js.VString "soon"] 2 = inr (Some p) /\
    Product.leadTimeDays p = 2 /\
    Product.hasAutoSubscription p = false.
Proof.
  eexists. split; [vm_compute; reflexivity|].
  match goal with
  | |- Product.leadTimeDays ?p = _ /\ _ =>
      destruct (row_defaults Examples.runtime
                  [Js.VString "abc-001"; Js.VString "Shampoo"; Js.VUndefined;
                   Js.VString "ml"; Js.VString "30"; Js.VString "8"; Js.VUndefined;
                   Js.VUndefined; Js.VString "true"; Js.VUndefined; Js.VUndefined;
                   Js.VUndefined; Js.VString "soon"] 2 p)
        as (_ & Hlead & _ & _ & _ & _ & _ & Hsub)
  end.
  - vm_compute. reflexivity.
  - split.
    + apply Hlead. right. vm_compute. reflexivity.
    + apply not_true_is_false. intros E.
      destruct (proj1 Hsub E) as [E'|E']; discriminate E'.
Defined.

(** ** What the engine reads *)

(** The fields of a product the engine reads. *)
Definition sameEngineInputs (p q : Product.t) : Prop :=
  Product.qtyRemaining p = Product.qtyRemaining q /\
  Product.avgDailyConsumption p = Product.avgDailyConsumption q /\
  Product.avgMonthlyConsumption p = Product.avgMonthlyConsumption q /\
  Product.lastReplenishedAt p = Product.lastReplenishedAt q /\
  Product.hasAutoSubscription p = Product.hasAutoSubscription q /\
  Product.leadTimeDays p = Product.leadTimeDays q /\
  Product.safetyStockDays p = Product.safetyStockDays q /\
  Product.minOrderQty p = Product.minOrderQty q /\
  Product.packSize p = Product.packSize q.

Lemma computeDecision_ext (p q : Product.t) (o : Options) :
  sameEngineInputs p q -> computeDecision p o = computeDecision q o.
Proof.
  intros (Hqty & Hd & Hm & Hl & Hs & Hlead & Hsafe & Hmin & Hpack).
  assert (Havg : Product.getAvgDailyConsumption p = Product.getAvgDailyConsumption q).
  { unfold Product.getAvgDailyConsumption. rewrite Hd, Hm. reflexivity. }
  assert (Hstock : forall now, Product.calculateCurrentStock p now =
                               Product.calculateCurrentStock q now).
  { intros now. unfold Product.calculateCurrentStock.
    rewrite Hl, Hqty, Havg. reflexivity. }
  assert (Hdays : forall now, Product.getDaysSinceLastReplenishment p now =
                              Product.getDaysSinceLastReplenishment q now).
  { intros now. unfold Product.getDaysSinceLastReplenishment.
    rewrite Hl. reflexivity. }
  assert (Happly : forall x, _applyOrderConstraints x p = _applyOrderConstraints x q).
  { intros x. unfold _applyOrderConstraints. rewrite Hmin, Hpack. reflexivity. }
  unfold computeDecision.
  rewrite Hs, Havg, Hstock, Hdays, Hqty, Hlead, Hsafe, Hmin, Hpack.
  destruct (Product.hasAutoSubscription q); [reflexivity|].
  destruct (Product.getAvgDailyConsumption q) as [e|]; [|reflexivity].
  destruct (negb (Js.truthy e) || Qle_bool e 0); [reflexivity|].
  rewrite Happly. reflexivity.
Qed.

(** X27. The decision depends on nine fields of the product only (stored
    quantity, the two rates, last replenishment, whether a subscription is
    active, lead time, safety stock, minimum order, pack size): identity,
    display fields and the derived fields of an earlier check never
    influence it.  So the update a run writes, checked again at the same
    instant, gets the same decision, unless the run rewrote its quantity. *)
Theorem engine_reads_inputs_only (p q : Product.t) (o : Options) :
  sameEngineInputs p q ->
  computeDecision p o = computeDecision q o /\
  (forall po now,
     updateCalculatedQuantities po = false ->
     Product.qtyRemaining q = Product.qtyRemaining p ->
     decide po now (updatedProduct po now p (decide po now p)) = decide po now q).
Proof.
  intros H. split; [apply computeDecision_ext; exact H|].
  intros po now Hno _. unfold decide.
  apply computeDecision_ext.
  destruct (updatedProduct_frame po now p) as (Hk & _ & Hq & _).
  cbv zeta in Hk, Hq. specialize (Hq Hno).
  destruct Hk as (_ & _ & _ & _ & K5 & K6 & K7 & K8 & _ & K10 & K11 & K12 & K13).
  destruct H as (Hqty & Hd & Hm & Hl & Hs & Hlead & Hsafe & Hmin & Hpack).
  unfold sameEngineInputs, Product.hasAutoSubscription in *. unfold decide in *.
  rewrite Hq, K5, K6, K7, K8, K10, K11, K12, K13.
  repeat split; assumption.
Qed.

Lemma engine_reads_inputs_only_witness :
  let relabelled :=
    Product.mk "zzz" "Other name" None "g" 30 (Some 8) None None None None
      2 3 None (Some 250) true (Some 5%Z) (Some 1) (Some "stale"%string)
      (Some 7%Z) in
  computeDecision relabelled (Examples.defaults 0) =
  computeDecision (Examples.shampoo 30) (Examples.defaults 0).
Proof.
  cbv zeta.
  refine (proj1 (engine_reads_inputs_only _ _ (Examples.defaults 0) _)).
  repeat split.
Defined.

(** ** A product written as a row and read back *)

Lemma parseNumber_number (R : Js.Runtime) (q d : Q) :
  SheetRowMapper._parseNumber R (Js.VNumber q) d = q.
Proof. reflexivity. Qed.

Lemma parseNumberOrNull_numberCell (R : Js.Runtime) (x : option Q) :
  SheetRowMapper._parseNumberOrNull R (SheetRowMapperWrite.numberCell x) = x.
Proof. destruct x; reflexivity. Qed.

(** X28. [productToRow] writes 22 cells, one per header; and wherever
    trimming leaves the id and the name of a constructed product as they are
    and trimming and lowering leave its unit, reading the row back gives a
    product that agrees with it on id, name, unit, quantity, both rates, lead
    time, safety stock, minimum order, pack size, the recommended quantity
    and on whether a subscription is active. *)
Theorem row_round_trip (R : Js.Runtime) (p : Product.t) (i : nat) :
  wellFormed p ->
  Js.trim R (Product.id p) = Product.id p ->
  Js.trim R (Product.name p) = Product.name p ->
  Js.toLowerCase R (Js.trim R (Product.unit p)) = Product.unit p ->
  List.length (SheetRowMapperWrite.productToRow p)
    = List.length SheetRowMapperWrite.HEADER_ROW /\
  exists p',
    SheetRowMapper.rowToProduct R (SheetRowMapperWrite.productToRow p) i
      = inr (Some p') /\
    Product.id p' = Product.id p /\
    Product.name p' = Product.name p /\
    Product.unit p' = Product.unit p /\
    Product.qtyRemaining p' = Product.qtyRemaining p /\
    Product.avgDailyConsumption p' = Product.avgDailyConsumption p /\
    Product.avgMonthlyConsumption p' = Product.avgMonthlyConsumption p /\
    Product.leadTimeDays p' = Product.leadTimeDays p /\
    Product.safetyStockDays p' = Product.safetyStockDays p /\
    Product.minOrderQty p' = Product.minOrderQty p /\
    Product.packSize p' = Product.packSize p /\
    Product.recommendedOrderQty p' = Product.recommendedOrderQty p /\
    Product.hasAutoSubscription p' = Product.hasAutoSubscription p.
Proof.
  intros Hwf Hid Hname Hunit. split; [reflexivity|].
  pose proof Hwf as (Wid & Wname & Wunit & Wqty).
  unfold SheetRowMapper.rowToProduct, SheetRowMapperWrite.productToRow.
  cbv zeta. unfold SheetRowMapper.cell. cbn [nth Js.truthyValue Js.toString].
  apply String.eqb_neq in Wid. apply String.eqb_neq in Wname.
  assert (Wu : String.eqb (Product.unit p) "" = false).
  { apply String.eqb_neq. intros E. rewrite E in Wunit.
    simpl in Wunit. intuition discriminate. }
  rewrite Wid, Wname, Wu. cbn [negb orb].
  rewrite Hid, Hname, Hunit.
  rewrite !parseNumberOrNull_numberCell, !parseNumber_number.
  match goal with
  | |- exists p', match Product.new ?a with _ => _ end = _ /\ _ =>
      assert (Hnew : Product.new a = inr a)
  end.
  { unfold Product.new. cbn [Product.id Product.name Product.unit Product.qtyRemaining].
    rewrite Wid, Wname, Wu, (In_includes _ _ Wunit). cbn [negb orb].
    assert (Hq : Js.Qlt_bool (Product.qtyRemaining p) 0 = false).
    { unfold Js.Qlt_bool. apply negb_false_iff. apply Qle_bool_iff. exact Wqty. }
    rewrite Hq. reflexivity. }
  rewrite Hnew. eexists. split; [reflexivity|].
  cbn [Product.id Product.name Product.unit Product.qtyRemaining
       Product.avgDailyConsumption Product.avgMonthlyConsumption
       Product.leadTimeDays Product.safetyStockDays Product.minOrderQty
       Product.packSize Product.recommendedOrderQty].
  repeat apply conj; try reflexivity.
  unfold Product.hasAutoSubscription. cbn.
    destruct (Product.autoSubscription p) as [[[|] dt]|]; reflexivity.
Qed.

Lemma row_round_trip_witness :
  exists p',
    SheetRowMapper.rowToProduct Examples.runtime
      (SheetRowMapperWrite.productToRow (Examples.shampoo 30)) 2 = inr (Some p') /\
    Product.qtyRemaining p' = 30 /\
    Product.packSize p' = Some 250.
Proof.
  assert (Hwf : wellFormed (Examples.shampoo 30)).
  { repeat split; try discriminate. simpl. right. left. reflexivity. }
  destruct (row_round_trip Examples.runtime (Examples.shampoo 30) 2 Hwf
              eq_refl eq_refl eq_refl)
    as (_ & p' & Hrow & _ & _ & _ & Hq & _ & _ & _ & _ & _ & Hpack & _).
  exists p'. exact (conj Hrow (conj Hq Hpack)).
Defined.

(** ** Sending the report *)

Lemma append_nonempty_l (a b : string) : a <> ""%string -> (a ++ b)%string <> ""%string.
Proof. destruct a; [intros H; contradiction | intros _; discriminate]. Qed.

Lemma append_nonempty_r (a b : string) : b <> ""%string -> (a ++ b)%string <> ""%string.
Proof.
  intros Hb E. apply (f_equal String.length) in E.
  rewrite length_append in E. destruct b; [contradiction | simpl in E; lia].
Qed.

Lemma subject_nonempty (T : Templates) (items : list ResultItem) (now : Z)
    (prefix : string) (dry : bool) :
  subject (_buildEmailMessage T items now prefix dry) <> ""%string.
Proof.
  unfold _buildEmailMessage. cbn [subject].
  apply append_nonempty_r. apply append_nonempty_l. discriminate.
Qed.

Lemma textEmail_nonempty (R : Js.Runtime) (items : list ResultItem) (now : Z)
    (dry : bool) :
  TextEmail._buildTextEmail R items now dry <> ""%string.
Proof.
  unfold TextEmail._buildTextEmail. cbv zeta.
  apply append_nonempty_l. unfold TextEmail.header.
  apply append_nonempty_l. discriminate.
Qed.

(** X29. The notifier hands a message to the transporter at most once, and
    only one with a subject and a body; each of its failures, its own checks
    included, is an [AdapterError] tagged [smtp]; and a report built by the
    use case with the plain body of [_buildTextEmail] always passes those
    checks, so it is sent whenever the transporter is ready and accepts it. *)
Theorem notifier_send (smtp : SmtpEmailNotifier.Smtp) :
  (forall message,
     let outcome := SmtpEmailNotifier.send smtp message in
     (fst outcome = [] \/
      (fst outcome = [message] /\ subject message <> ""%string /\
       (html message <> ""%string \/ text message <> ""%string))) /\
     (forall e, snd outcome = Some e ->
        exists m, e = DomainError.AdapterError m "smtp") /\
     (subject message = ""%string \/
      (html message = ""%string /\ text message = ""%string) ->
      outcome = ([], Some (DomainError.AdapterError
                             "Failed to send email notification" "smtp")))) /\
  (forall R T items now prefix dry,
     _buildTextEmail T = TextEmail._buildTextEmail R ->
     SmtpEmailNotifier.transporterReady smtp = true ->
     let message := _buildEmailMessage T items now prefix dry in
     SmtpEmailNotifier.sendMail smtp message = None ->
     SmtpEmailNotifier.send smtp message = ([message], None)).
Proof.
  split.
  - intros message. cbv zeta. unfold SmtpEmailNotifier.send.
    destruct (String.eqb (subject message) "") eqn:Es;
      destruct (String.eqb (html message) "") eqn:Eh;
      destruct (String.eqb (text message) "") eqn:Et; cbn [andb];
      destruct (SmtpEmailNotifier.transporterReady smtp); cbn [negb];
      try destruct (SmtpEmailNotifier.sendMail smtp message) as [c|];
      (repeat apply conj;
       [ first [ left; reflexivity
               | right; split; [reflexivity|];
                 split; [apply String.eqb_neq; exact Es|];
                 first [ left; apply String.eqb_neq; exact Eh
                       | right; apply String.eqb_neq; exact Et ] ]
       | intros e Hx; cbn [snd] in Hx;
         first [ discriminate Hx | injection Hx as <-; eexists; reflexivity ]
       | intros Hx;
         first [ reflexivity
               | exfalso; destruct Hx as [Hx|[Hx Hy]];
                 [ apply (proj2 (String.eqb_eq _ _)) in Hx; congruence
                 | apply (proj2 (String.eqb_eq _ _)) in Hx;
                   apply (proj2 (String.eqb_eq _ _)) in Hy; congruence ] ] ]).
  - intros R T items now prefix dry HT Hready. cbv zeta. intros Hok.
    unfold SmtpEmailNotifier.send.
    pose proof (subject_nonempty T items now prefix dry) as Hs.
    apply String.eqb_neq in Hs. rewrite Hs.
    assert (Ht : String.eqb (text (_buildEmailMessage T items now prefix dry)) ""
                 = false).
    { apply String.eqb_neq. unfold _buildEmailMessage. cbn [text]. rewrite HT.
      apply textEmail_nonempty. }
    rewrite Ht, andb_false_r, Hready. cbn [negb]. rewrite Hok. reflexivity.
Qed.
